(** * The image-generation front end: response normalisation and request handlers

    A shallow embedding of
      - [netlify/functions/generate-image.js]   (module [GenerateImage]),
      - [netlify/functions/manipulate-image.js] (module [ManipulateImage]),
      - [server.js]                             (module [Server]),
    followed by the properties of [processAIResponse] and of the four request
    handlers.

    JavaScript data is modelled as it is at run time: a dynamically typed
    [value]; property reads that throw [TypeError] on [undefined]/[null];
    truthiness tests; optional chaining.  Effects (the clock read by
    [Date.now()], the files written under [public/generated], the calls made
    to the model client, thrown exceptions) are threaded through a state and
    exception monad [M]. *)

From Stdlib Require Import String Ascii List ZArith NArith Bool Lia.
From Stdlib Require Import DecimalString DecimalZ DecimalN.
Import ListNotations.
Open Scope string_scope.

(** ** JavaScript values *)

(** Numbers are the integer-valued ones: the program tests numbers for
    truthiness and for equality with 429, 401, 400 and prints integers only.
    The property list of an object holds its own properties; the first binding
    of a key is the one in effect. *)
#[warnings="-register-all"]
Inductive value : Type :=
| VUndefined
| VNull
| VBool (b : bool)
| VNum (z : Z)
| VStr (s : string)
| VArr (elems : list value)
| VObj (props : list (string * value)).

(** [!!v] *)
Definition truthy (v : value) : bool :=
  match v with
  | VUndefined | VNull => false
  | VBool b => b
  | VNum z => negb (z =? 0)%Z
  | VStr s => negb (s =? "")
  | VArr _ | VObj _ => true
  end.

(** [a || b] *)
Definition js_or (a b : value) : value := if truthy a then a else b.

Definition nullish (v : value) : bool :=
  match v with VUndefined | VNull => true | _ => false end.

Fixpoint lookup {A : Type} (k : string) (ps : list (string * A)) : option A :=
  match ps with
  | [] => None
  | (k', v) :: r => if k =? k' then Some v else lookup k r
  end.

Definition own (k : string) (ps : list (string * value)) : value :=
  match lookup k ps with Some v => v | None => VUndefined end.

(** [obj[k] = v] on the own properties of a plain object: the value of an
    existing property is replaced where it stands, a new property comes
    last.  The name [__proto__] is no own property: assigning to it calls the
    setter of [Object.prototype], which stores nothing in the object (it does
    nothing at all for a value that is no object, a string say). *)
Fixpoint set_own (k : string) (v : value) (ps : list (string * value))
  : list (string * value) :=
  match ps with
  | [] => [(k, v)]
  | (k', v') :: r => if k =? k' then (k, v) :: r else (k', v') :: set_own k v r
  end.

Definition assign (k : string) (v : value) (ps : list (string * value))
  : list (string * value) :=
  if k =? "__proto__" then ps else set_own k v ps.

(** ** Exceptions *)

Record JsError := mkError {
  err_name : string;
  err_status : value;    (* [error.status] *)
  err_message : value    (* [error.message] *)
}.

Definition TypeError (msg : string) : JsError := mkError "TypeError" VUndefined (VStr msg).
Definition SyntaxError (msg : string) : JsError := mkError "SyntaxError" VUndefined (VStr msg).

Inductive outcome (A : Type) : Type :=
| Ok (a : A)
| Throw (e : JsError).
Arguments Ok {A} a.
Arguments Throw {A} e.

Definition show_nullish (v : value) : string :=
  match v with VNull => "null" | _ => "undefined" end.

(** [v.name], for the names the program reads ([candidates], [content],
    [parts], [inlineData], [text], [data], [mimeType], [prompt]): none of them
    is defined on the prototypes of strings, numbers, booleans or arrays, so a
    read on such a value gives [undefined]; a read on [undefined] or [null]
    throws. *)
Definition get_prop (v : value) (name : string) : outcome value :=
  match v with
  | VUndefined | VNull =>
      Throw (TypeError ("Cannot read properties of " ++ show_nullish v
                        ++ " (reading '" ++ name ++ "')"))
  | VObj ps => Ok (own name ps)
  | _ => Ok VUndefined
  end.

(** [v[0]] *)
Definition get_first (v : value) : outcome value :=
  match v with
  | VUndefined | VNull =>
      Throw (TypeError ("Cannot read properties of " ++ show_nullish v ++ " (reading '0')"))
  | VArr l => Ok (nth 0 l VUndefined)
  | VStr (String c _) => Ok (VStr (String c ""))
  | VObj ps => Ok (own "0" ps)
  | _ => Ok VUndefined
  end.

(** [v?.name] and [v?.[0]]: [undefined] on a nullish [v], the plain read
    otherwise. *)
Definition opt_prop (v : value) (name : string) : value :=
  match get_prop v name with Ok x => x | Throw _ => VUndefined end.

Definition opt_first (v : value) : value :=
  match get_first v with Ok x => x | Throw _ => VUndefined end.

(** [const { name } = v] *)
Definition destructure (v : value) (name : string) : outcome value :=
  match v with
  | VUndefined | VNull =>
      Throw (TypeError ("Cannot destructure property '" ++ name ++ "' of '"
                        ++ show_nullish v ++ "' as it is " ++ show_nullish v ++ "."))
  | _ => get_prop v name
  end.

(** [a === n] for a number literal [n] *)
Definition strict_eq_num (a : value) (n : Z) : bool :=
  match a with VNum z => (z =? n)%Z | _ => false end.

(** ** Strings *)

(** [String(n)] and [`${n}`] for an integer [n]. *)
Definition Number_toString (n : Z) : string := NilEmpty.string_of_int (Z.to_int n).

Definition CR : ascii := ascii_of_nat 13.
Definition LF : ascii := ascii_of_nat 10.
Definition DQUOTE : ascii := ascii_of_nat 34.
Definition CRLF : string := String CR (String LF "").

Fixpoint drop (n : nat) (s : string) : string :=
  match n, s with
  | S n', String _ r => drop n' r
  | _, _ => s
  end.

(** The character [c] occurs in [s]. *)
Fixpoint occurs (c : ascii) (s : string) : bool :=
  match s with
  | EmptyString => false
  | String a r => Ascii.eqb a c || occurs c r
  end.

(** [s.includes(sub)] *)
Fixpoint includes (sub s : string) : bool :=
  prefix sub s || match s with String _ r => includes sub r | EmptyString => false end.

Fixpoint indexOf_from (sub s : string) (i : Z) : Z :=
  if prefix sub s then i
  else match s with String _ r => indexOf_from sub r (i + 1) | EmptyString => (-1)%Z end.

(** [s.indexOf(sub)] *)
Definition indexOf (sub s : string) : Z := indexOf_from sub s 0.

Fixpoint lastIndexOf_from (sub s : string) (i last : Z) : Z :=
  let last' := if prefix sub s then i else last in
  match s with String _ r => lastIndexOf_from sub r (i + 1) last' | EmptyString => last' end.

(** [s.lastIndexOf(sub)] *)
Definition lastIndexOf (sub s : string) : Z := lastIndexOf_from sub s 0 (-1).

(** [s.slice(a, b)] for [0 <= a <= b] *)
Definition slice (a b : Z) (s : string) : string :=
  substring (Z.to_nat a) (Z.to_nat (b - a)) s.

(** [s.split(sep)] for a non-empty [sep]: [skip] counts the characters of the
    separator still to be passed over, [cur] is the piece being read,
    reversed. *)
Fixpoint rev_string (acc s : string) : string :=
  match s with EmptyString => acc | String c r => rev_string (String c acc) r end.

Fixpoint split_go (sep : string) (skip : nat) (cur s : string) : list string :=
  match s with
  | EmptyString => [rev_string "" cur]
  | String c r =>
      match skip with
      | S k => split_go sep k cur r
      | O =>
          if prefix sep s
          then rev_string "" cur :: split_go sep (String.length sep - 1) "" r
          else split_go sep 0 (String c cur) r
      end
  end.

Definition split (sep s : string) : list string := split_go sep 0 "" s.

(** ** JSON documents

    [JSON.stringify] and [res.json] write a document; it is kept as a tree.
    A property whose value is [undefined] is left out of the document, an
    [undefined] array element is written as [null]. *)
#[warnings="-register-all"]
Inductive json : Type :=
| JNull
| JBool (b : bool)
| JNum (z : Z)
| JStr (s : string)
| JArr (elems : list json)
| JObj (members : list (string * json)).

Fixpoint to_json (v : value) : option json :=
  match v with
  | VUndefined => None
  | VNull => Some JNull
  | VBool b => Some (JBool b)
  | VNum z => Some (JNum z)
  | VStr s => Some (JStr s)
  | VArr l =>
      Some (JArr (map (fun x => match to_json x with Some j => j | None => JNull end) l))
  | VObj ps =>
      Some (JObj ((fix members (ps : list (string * value)) : list (string * json) :=
                     match ps with
                     | [] => []
                     | (k, x) :: r =>
                         match to_json x with
                         | Some j => (k, j) :: members r
                         | None => members r
                         end
                     end) ps))
  end.

Inductive Body : Type :=
| NoBody                  (* the empty string *)
| Document (j : json).

Definition JSON_stringify (v : value) : Body :=
  match to_json v with Some j => Document j | None => NoBody end.

Definition has_member (k : string) (j : json) : bool :=
  match j with
  | JObj ms => match lookup k ms with Some _ => true | None => false end
  | _ => false
  end.

Definition member (k : string) (j : json) : option json :=
  match j with JObj ms => lookup k ms | _ => None end.

(** ** The world a request runs in *)

(** The response of the model client in streaming mode: the chunks it yields
    and, when the transport fails after them, the error the iteration throws. *)
Record Stream := mkStream {
  chunks : list value;
  failure : option JsError
}.

Inductive ModelReply : Type :=
| Rejected (e : JsError)      (* the returned promise rejects *)
| Streaming (s : Stream).

(** What the program takes from its surroundings: the system clock, the
    [mime] package, [JSON.parse], [Buffer], the process environment, the model
    client and the file system. *)
Record Env := mkEnv {
  clock : nat -> Z;                          (* the k-th [Date.now()] *)
  mime_getExtension : value -> option string; (* [None] is [null] *)
  JSON_parse : string -> option value;        (* [None]: a [SyntaxError] *)
  Buffer_from_base64 : value -> outcome string;
  Buffer_to_base64 : string -> string;
  GEMINI_API_KEY : option string;             (* [process.env.GEMINI_API_KEY] *)
  model_client : value -> ModelReply;              (* [ai.models.generateContentStream] *)
  fs_failure : string -> option JsError       (* [mkdir]/[writeFile] of that file fails *)
}.

Record World := mkWorld {
  ticks : nat;                     (* calls of [Date.now()] so far *)
  disk : list (string * string);   (* files written under public/generated, newest first *)
  calls : list value               (* requests given to the model client, newest first *)
}.

Definition initial : World := mkWorld 0 [] [].

Definition M (A : Type) : Type := World -> outcome A * World.

Definition ret {A} (a : A) : M A := fun w => (Ok a, w).
Definition throw {A} (e : JsError) : M A := fun w => (Throw e, w).
Definition bind {A B} (m : M A) (k : A -> M B) : M B :=
  fun w => match m w with
           | (Ok a, w') => k a w'
           | (Throw e, w') => (Throw e, w')
           end.
Definition lift {A} (o : outcome A) : M A := fun w => (o, w).

(** [try { body } catch (error) { handler }]: what [body] did to the world
    before it threw stays done. *)
Definition try_catch {A} (body : M A) (handler : JsError -> M A) : M A :=
  fun w => match body w with
           | (Ok a, w') => (Ok a, w')
           | (Throw e, w') => handler e w'
           end.

Declare Scope js_scope.
Delimit Scope js_scope with js.
Notation "x <- m ;; k" := (bind m (fun x => k))
  (at level 100, m at next level, right associativity) : js_scope.
Open Scope js_scope.

Definition env_value (o : option string) : value :=
  match o with Some s => VStr s | None => VUndefined end.

(** [`${x}`] for the result of [mime.getExtension] *)
Definition template_ext (e : option string) : string :=
  match e with Some s => s | None => "null" end.

Section Runtime.
Context (env : Env).

Definition Date_now : M Z :=
  fun w => (Ok (clock env (ticks w)), mkWorld (S (ticks w)) (disk w) (calls w)).

Definition generateContentStream (request : value) : M Stream :=
  fun w =>
    let w' := mkWorld (ticks w) (disk w) (request :: calls w) in
    match model_client env request with
    | Rejected e => (Throw e, w')
    | Streaming s => (Ok s, w')
    end.

(** [JSON.parse(event.body)]; a [null] body parses to [null]. *)
Definition parse_body (body : option string) : M value :=
  match body with
  | None => ret VNull
  | Some s =>
      match JSON_parse env s with
      | Some v => ret v
      | None => throw (SyntaxError "Unexpected token in JSON")
      end
  end.
End Runtime.

(** The event a serverless function is called with, and what it returns. *)
Record Event := mkEvent {
  httpMethod : string;
  headers : list (string * string);
  body : option string
}.

Record Response := mkResponse {
  statusCode : Z;
  response_headers : list (string * string);
  response_body : Body
}.

Definition preflight_headers : list (string * string) :=
  [("Access-Control-Allow-Origin", "*");
   ("Access-Control-Allow-Headers", "Content-Type");
   ("Access-Control-Allow-Methods", "GET, POST, PUT, DELETE, OPTIONS")].

Definition json_headers : list (string * string) :=
  [("Access-Control-Allow-Origin", "*"); ("Content-Type", "application/json")].

Definition reply (code : Z) (obj : list (string * value)) : Response :=
  mkResponse code json_headers (JSON_stringify (VObj obj)).

(** The request the handlers send to the model. *)
Definition model_request (parts : list value) : value :=
  VObj [("model", VStr "gemini-2.5-flash-image-preview");
        ("config", VObj [("responseModalities", VArr [VStr "IMAGE"; VStr "TEXT"])]);
        ("contents", VArr [VObj [("role", VStr "user"); ("parts", VArr parts)]])].

Record LoopState := mkLoop {
  results : list value;
  fileIndex : Z
}.

(** ** netlify/functions/generate-image.js *)
Module GenerateImage.
Section WithEnv.
Context (env : Env).

(** The guard of the loop:
    [!chunk.candidates || !chunk.candidates[0].content
     || !chunk.candidates[0].content.parts]. *)
Definition lacks_parts (chunk : value) : M bool :=
  candidates <- lift (get_prop chunk "candidates") ;;
  if negb (truthy candidates) then ret true else
  first <- lift (get_first candidates) ;;
  content <- lift (get_prop first "content") ;;
  if negb (truthy content) then ret true else
  parts <- lift (get_prop content "parts") ;;
  ret (negb (truthy parts)).

(** [chunk.candidates?.[0]?.content?.parts?.[0]?.inlineData] *)
Definition first_inlineData (chunk : value) : M value :=
  candidates <- lift (get_prop chunk "candidates") ;;
  ret (opt_prop
         (opt_first (opt_prop (opt_prop (opt_first candidates) "content") "parts"))
         "inlineData").

(** [chunk.candidates[0].content.parts[0].inlineData] *)
Definition read_inlineData (chunk : value) : M value :=
  candidates <- lift (get_prop chunk "candidates") ;;
  first <- lift (get_first candidates) ;;
  content <- lift (get_prop first "content") ;;
  parts <- lift (get_prop content "parts") ;;
  part <- lift (get_first parts) ;;
  lift (get_prop part "inlineData").

Definition image_result (data mimeType : value) (filename : string) : value :=
  VObj [("type", VStr "image"); ("data", data); ("mimeType", mimeType);
        ("filename", VStr filename)].

Definition text_result (content : value) : value :=
  VObj [("type", VStr "text"); ("content", content)].

(** One turn of [for await (const chunk of response)]. *)
Definition loop_body (baseFileName : string) (chunk : value) (st : LoopState)
  : M LoopState :=
  skip <- lacks_parts chunk ;;
  if skip : bool then ret st else
  found <- first_inlineData chunk ;;
  if truthy found then
    now <- Date_now env ;;
    let fileName := baseFileName ++ "_" ++ Number_toString now
                      ++ "_" ++ Number_toString (fileIndex st) in
    inlineData <- read_inlineData chunk ;;
    mimeType <- lift (get_prop inlineData "mimeType") ;;
    let fileExtension := mime_getExtension env (js_or mimeType (VStr "image/png")) in
    data <- lift (get_prop inlineData "data") ;;
    ret (mkLoop (results st
                   ++ [image_result data mimeType
                         (fileName ++ "." ++ template_ext fileExtension)])
                (fileIndex st + 1))
  else
    text <- lift (get_prop chunk "text") ;;
    if truthy text
    then ret (mkLoop (results st ++ [text_result text]) (fileIndex st))
    else ret st.

Fixpoint for_await (baseFileName : string) (cs : list value) (st : LoopState)
  : M LoopState :=
  match cs with
  | [] => ret st
  | chunk :: rest =>
      st' <- loop_body baseFileName chunk st ;;
      for_await baseFileName rest st'
  end.

(** Every caller passes [baseFileName]; its default value is never used. *)
Definition processAIResponse (response : Stream) (baseFileName : string)
  : M (list value) :=
  st <- for_await baseFileName (chunks response) (mkLoop [] 0) ;;
  match failure response with
  | Some e => throw e
  | None => ret (results st)
  end.

Definition on_error (error : JsError) : Response :=
  if strict_eq_num (err_status error) 429 then
    reply 429
      [("error", VStr "API rate limit exceeded");
       ("details", VStr "You have exceeded the API rate limit. Please wait a few minutes and try again.");
       ("suggestion", VStr "Consider upgrading your API plan for higher limits.")]
  else if strict_eq_num (err_status error) 401 then
    reply 401
      [("error", VStr "Invalid API key");
       ("details", VStr "Please check your GEMINI_API_KEY in the environment variables.")]
  else if strict_eq_num (err_status error) 400 then
    reply 400
      [("error", VStr "Invalid request");
       ("details", js_or (err_message error)
                     (VStr "The request was malformed or invalid."))]
  else
    reply 500
      [("error", VStr "Failed to generate image");
       ("details", err_message error)].

(** Writes to the console are left out. *)
Definition handler (event : Event) : M Response :=
  if httpMethod event =? "OPTIONS" then ret (mkResponse 200 preflight_headers NoBody)
  else if negb (httpMethod event =? "POST")
  then ret (reply 405 [("error", VStr "Method not allowed")])
  else
    try_catch
      (parsed <- parse_body env (body event) ;;
       prompt <- lift (destructure parsed "prompt") ;;
       if negb (truthy prompt)
       then ret (reply 400 [("error", VStr "Prompt is required")])
       else if negb (truthy (env_value (GEMINI_API_KEY env)))
       then ret (reply 500 [("error", VStr "GEMINI_API_KEY not configured")])
       else
         response <- generateContentStream env
                       (model_request [VObj [("text", prompt)]]) ;;
         results <- processAIResponse response "text_to_image" ;;
         if (List.length results =? 0)%nat
         then ret (reply 500 [("error", VStr "No content generated")])
         else ret (reply 200 [("success", VBool true); ("prompt", prompt);
                              ("results", VArr results)]))
      (fun error => ret (on_error error)).
End WithEnv.
End GenerateImage.

(** [String(v)], as a template literal converts a value. *)
Fixpoint String_of (v : value) : string :=
  match v with
  | VUndefined => "undefined"
  | VNull => "null"
  | VBool true => "true"
  | VBool false => "false"
  | VNum z => Number_toString z
  | VStr s => s
  | VArr l =>
      (fix join (l : list value) : string :=
         match l with
         | [] => ""
         | [x] => if nullish x then "" else String_of x
         | x :: r => (if nullish x then "" else String_of x) ++ "," ++ join r
         end) l
  | VObj _ => "[object Object]"
  end.

(** ** netlify/functions/manipulate-image.js *)
Module ManipulateImage.

(** [s.match(/name="([^"]+)"/)]: the captured group of the leftmost match.
    After [name="] the group takes every character up to the next quote,
    and there must be at least one. *)
Definition name_eq_quote : string := "name=" ++ String DQUOTE "".

Fixpoint until_quote (s : string) : option string :=
  match s with
  | EmptyString => None
  | String c r =>
      if Ascii.eqb c DQUOTE then Some ""
      else option_map (String c) (until_quote r)
  end.

Fixpoint match_name (s : string) : option string :=
  let here :=
    if prefix name_eq_quote s then
      match until_quote (drop 6 s) with
      | Some (String c n) => Some (String c n)
      | _ => None
      end
    else None in
  match here with
  | Some n => Some n
  | None => match s with String _ r => match_name r | EmptyString => None end
  end.

(** [s.match(/Content-Type: ([^\r\n]+)/)], likewise. *)
Fixpoint line_run (s : string) : string :=
  match s with
  | EmptyString => ""
  | String c r =>
      if Ascii.eqb c CR || Ascii.eqb c LF then "" else String c (line_run r)
  end.

Fixpoint match_content_type (s : string) : option string :=
  let here :=
    if prefix "Content-Type: " s then
      match line_run (drop 14 s) with
      | String c t => Some (String c t)
      | EmptyString => None
      end
    else None in
  match here with
  | Some t => Some t
  | None => match s with String _ r => match_content_type r | EmptyString => None end
  end.

Section WithEnv.
Context (env : Env).

(** The body of [for (const part of parts)]; [formData] is the object being
    filled by [formData.image = ...] and [formData[fieldName] = ...]. *)
Definition parse_part (part : string) (formData : list (string * value))
  : list (string * value) :=
  if includes "Content-Disposition" part then
    match match_name part with
    | Some fieldName =>
        let dataStart := (indexOf (CRLF ++ CRLF) part + 4)%Z in
        let dataEnd := lastIndexOf CRLF part in
        if fieldName =? "image" then
          let mimeType := match match_content_type part with
                          | Some t => t
                          | None => "application/octet-stream"
                          end in
          if (3 <? dataStart)%Z && (dataStart <? dataEnd)%Z then
            let binaryData := slice dataStart dataEnd part in
            assign "image"
                   (VObj [("data", VStr (Buffer_to_base64 env binaryData));
                          ("mimeType", VStr mimeType)])
                   formData
          else formData
        else
          if (3 <? dataStart)%Z && (dataStart <? dataEnd)%Z
          then assign fieldName (VStr (slice dataStart dataEnd part)) formData
          else formData
    | None => formData
    end
  else formData.

Definition parseMultipartFormData (body boundary : string) : list (string * value) :=
  fold_left (fun formData part => parse_part part formData)
            (split ("--" ++ boundary) body) [].

(** The same text as in generate-image.js. *)
Definition processAIResponse : Stream -> string -> M (list value) :=
  GenerateImage.processAIResponse env.

Definition on_error (error : JsError) : Response :=
  if strict_eq_num (err_status error) 429 then
    reply 429
      [("error", VStr "API rate limit exceeded");
       ("details", VStr "You have exceeded the API rate limit. Please wait a few minutes and try again.");
       ("suggestion", VStr "Consider upgrading your API plan for higher limits.")]
  else if strict_eq_num (err_status error) 401 then
    reply 401
      [("error", VStr "Invalid API key");
       ("details", VStr "Please check your GEMINI_API_KEY in the environment variables.")]
  else if strict_eq_num (err_status error) 400 then
    reply 400
      [("error", VStr "Invalid request");
       ("details", js_or (err_message error)
                     (VStr "The request was malformed or invalid."))]
  else
    reply 500
      [("error", VStr "Failed to manipulate image");
       ("details", err_message error)].

Definition header (event : Event) (name : string) : value :=
  env_value (lookup name (headers event)).

Definition handler (event : Event) : M Response :=
  if httpMethod event =? "OPTIONS" then ret (mkResponse 200 preflight_headers NoBody)
  else if negb (httpMethod event =? "POST")
  then ret (reply 405 [("error", VStr "Method not allowed")])
  else
    try_catch
      (let contentType := js_or (header event "content-type")
                                (header event "Content-Type") in
       if negb (truthy contentType)
          || negb (includes "multipart/form-data" (String_of contentType))
       then ret (reply 400 [("error", VStr "Content-Type must be multipart/form-data")])
       else
         let boundary := nth_error (split "boundary=" (String_of contentType)) 1 in
         if negb (truthy (env_value boundary))
         then ret (reply 400 [("error", VStr "Missing boundary in Content-Type")])
         else
           text <- match body event with
                   | Some text => ret text
                   | None => throw (TypeError
                               "Cannot read properties of null (reading 'split')")
                   end ;;
           let formData := parseMultipartFormData text (String_of (env_value boundary)) in
           let prompt := own "prompt" formData in
           let imageFile := own "image" formData in
           if negb (truthy prompt)
           then ret (reply 400 [("error", VStr "Prompt is required")])
           else if negb (truthy imageFile)
           then ret (reply 400 [("error", VStr "Image file is required")])
           else if negb (truthy (env_value (GEMINI_API_KEY env)))
           then ret (reply 500 [("error", VStr "GEMINI_API_KEY not configured")])
           else
             mimeType <- lift (get_prop imageFile "mimeType") ;;
             data <- lift (get_prop imageFile "data") ;;
             response <- generateContentStream env
               (model_request
                  [VObj [("text", VStr ("Based on the uploaded image, "
                                         ++ String_of prompt))];
                   VObj [("inlineData",
                          VObj [("mimeType", mimeType); ("data", data)])]]) ;;
             results <- processAIResponse response "image_manipulation" ;;
             if (List.length results =? 0)%nat
             then ret (reply 500 [("error", VStr "No content generated")])
             else
               mimeType' <- lift (get_prop imageFile "mimeType") ;;
               ret (reply 200 [("success", VBool true); ("prompt", prompt);
                               ("originalImage", VObj [("mimeType", mimeType')]);
                               ("results", VArr results)]))
      (fun error => ret (on_error error)).
End WithEnv.
End ManipulateImage.

(** ** server.js *)
Module Server.

(** The file [multer] hands over as [req.file]. *)
Record UploadedFile := mkFile {
  originalname : string;
  size : Z;
  mimetype : string;
  buffer : string
}.

(** An Express request after [express.json()] and [upload.single('image')],
    and what the route writes to [res]. *)
Record Request := mkRequest {
  req_body : value;
  req_file : option UploadedFile
}.

Record Reply := mkReply {
  status : Z;
  sent : Body
}.

Definition respond (code : Z) (obj : list (string * value)) : Reply :=
  mkReply code (JSON_stringify (VObj obj)).

Section WithEnv.
Context (env : Env).

(** Creating the directory and writing the file either both succeed or the
    error is logged and thrown again. *)
Definition saveBinaryFile (fileName content : string) : M string :=
  fun w =>
    match fs_failure env fileName with
    | Some err => (Throw err, w)
    | None =>
        (Ok ("/generated/" ++ fileName),
         mkWorld (ticks w) ((fileName, content) :: disk w) (calls w))
    end.

Definition image_result (url : string) (mimeType : value) : value :=
  VObj [("type", VStr "image"); ("url", VStr url); ("mimeType", mimeType)].

Definition text_result (content : value) : value :=
  VObj [("type", VStr "text"); ("content", content)].

Definition loop_body (baseFileName : string) (chunk : value) (st : LoopState)
  : M LoopState :=
  skip <- GenerateImage.lacks_parts chunk ;;
  if skip : bool then ret st else
  found <- GenerateImage.first_inlineData chunk ;;
  if truthy found then
    now <- Date_now env ;;
    let fileName := baseFileName ++ "_" ++ Number_toString now
                      ++ "_" ++ Number_toString (fileIndex st) in
    inlineData <- GenerateImage.read_inlineData chunk ;;
    mimeType <- lift (get_prop inlineData "mimeType") ;;
    let fileExtension := mime_getExtension env (js_or mimeType (VStr "image/png")) in
    data <- lift (get_prop inlineData "data") ;;
    buffer <- lift (Buffer_from_base64 env (js_or data (VStr ""))) ;;
    imagePath <- saveBinaryFile (fileName ++ "." ++ template_ext fileExtension) buffer ;;
    mimeType' <- lift (get_prop inlineData "mimeType") ;;
    ret (mkLoop (results st ++ [image_result imagePath mimeType'])
                (fileIndex st + 1))
  else
    text <- lift (get_prop chunk "text") ;;
    if truthy text
    then ret (mkLoop (results st ++ [text_result text]) (fileIndex st))
    else ret st.

Fixpoint for_await (baseFileName : string) (cs : list value) (st : LoopState)
  : M LoopState :=
  match cs with
  | [] => ret st
  | chunk :: rest =>
      st' <- loop_body baseFileName chunk st ;;
      for_await baseFileName rest st'
  end.

Definition processAIResponse (response : Stream) (baseFileName : string)
  : M (list value) :=
  st <- for_await baseFileName (chunks response) (mkLoop [] 0) ;;
  match failure response with
  | Some e => throw e
  | None => ret (results st)
  end.

Definition on_error (what : string) (error : JsError) : Reply :=
  if strict_eq_num (err_status error) 429 then
    respond 429
      [("error", VStr "API rate limit exceeded");
       ("details", VStr "You have exceeded the API rate limit. Please wait a few minutes and try again.");
       ("suggestion", VStr "Consider upgrading your API plan for higher limits.")]
  else if strict_eq_num (err_status error) 401 then
    respond 401
      [("error", VStr "Invalid API key");
       ("details", VStr "Please check your GEMINI_API_KEY in the .env file.")]
  else if strict_eq_num (err_status error) 400 then
    respond 400
      [("error", VStr "Invalid request");
       ("details", js_or (err_message error)
                     (VStr "The request was malformed or invalid."))]
  else
    respond 500 [("error", VStr what); ("details", err_message error)].

(** [app.post('/api/generate-image', ...)] *)
Definition api_generate_image (req : Request) : M Reply :=
  try_catch
    (prompt <- lift (destructure (req_body req) "prompt") ;;
     if negb (truthy prompt)
     then ret (respond 400 [("error", VStr "Prompt is required")])
     else if negb (truthy (env_value (GEMINI_API_KEY env)))
     then ret (respond 500 [("error", VStr "GEMINI_API_KEY not configured")])
     else
       response <- generateContentStream env
                     (model_request [VObj [("text", prompt)]]) ;;
       results <- processAIResponse response "text_to_image" ;;
       if (List.length results =? 0)%nat
       then ret (respond 500 [("error", VStr "No content generated")])
       else ret (respond 200 [("success", VBool true); ("prompt", prompt);
                              ("results", VArr results)]))
    (fun error => ret (on_error "Failed to generate image" error)).

(** [app.post('/api/manipulate-image', upload.single('image'), ...)] *)
Definition api_manipulate_image (req : Request) : M Reply :=
  try_catch
    (prompt <- lift (destructure (req_body req) "prompt") ;;
     if negb (truthy prompt)
     then ret (respond 400 [("error", VStr "Prompt is required")])
     else
       match req_file req with
       | None => ret (respond 400 [("error", VStr "Image file is required")])
       | Some imageFile =>
           if negb (truthy (env_value (GEMINI_API_KEY env)))
           then ret (respond 500 [("error", VStr "GEMINI_API_KEY not configured")])
           else
             response <- generateContentStream env
               (model_request
                  [VObj [("text", VStr ("Based on the uploaded image, "
                                         ++ String_of prompt))];
                   VObj [("inlineData",
                          VObj [("mimeType", VStr (mimetype imageFile));
                                ("data", VStr (Buffer_to_base64 env (buffer imageFile)))])]]) ;;
             results <- processAIResponse response "image_manipulation" ;;
             if (List.length results =? 0)%nat
             then ret (respond 500 [("error", VStr "No content generated")])
             else ret (respond 200
                         [("success", VBool true); ("prompt", prompt);
                          ("originalImage",
                           VObj [("name", VStr (originalname imageFile));
                                 ("size", VNum (size imageFile));
                                 ("mimeType", VStr (mimetype imageFile))]);
                          ("results", VArr results)])
       end)
    (fun error => ret (on_error "Failed to manipulate image" error)).
End WithEnv.
End Server.

(** ** What a chunk carries

    The reads of the loop, written with optional chaining so that they are
    total: the first candidate's content, its parts, the inline data of the
    first part, and the chunk's text. *)
Definition candidates_of (chunk : value) : value := opt_prop chunk "candidates".
Definition content_of (chunk : value) : value :=
  opt_prop (opt_first (candidates_of chunk)) "content".
Definition parts_of (chunk : value) : value := opt_prop (content_of chunk) "parts".
Definition inline_of (chunk : value) : value :=
  opt_prop (opt_first (parts_of chunk)) "inlineData".
Definition text_of (chunk : value) : value := opt_prop chunk "text".

(** The chunk has a candidates/content/parts path. *)
Definition has_path (chunk : value) : bool :=
  truthy (candidates_of chunk) && truthy (content_of chunk) && truthy (parts_of chunk).

(** The guard of the loop reads no property of [undefined] or [null]: the
    chunk is a value, and a truthy [candidates] has a first element. *)
Definition guard_reads (chunk : value) : bool :=
  negb (nullish chunk)
  && (negb (truthy (candidates_of chunk))
      || negb (nullish (opt_first (candidates_of chunk)))).

Definition is_image_chunk (chunk : value) : bool :=
  has_path chunk && truthy (inline_of chunk).

Definition is_text_chunk (chunk : value) : bool :=
  has_path chunk && negb (truthy (inline_of chunk)) && truthy (text_of chunk).

(** What one chunk adds to the result list. *)
Inductive Emission : Type :=
| EmitImage (inlineData : value)
| EmitText (text : value).

Definition emission (chunk : value) : option Emission :=
  if is_image_chunk chunk then Some (EmitImage (inline_of chunk))
  else if is_text_chunk chunk then Some (EmitText (text_of chunk))
  else None.

Definition emissions (cs : list value) : list Emission :=
  flat_map (fun c => match emission c with Some e => [e] | None => [] end) cs.

Section Expected.
Context (env : Env).

Definition extension_of (inlineData : value) : string :=
  template_ext (mime_getExtension env
                  (js_or (opt_prop inlineData "mimeType") (VStr "image/png"))).

(** [{baseName}_{timestampMillis}_{index}.{ext}] *)
Definition file_name (baseName : string) (timestampMillis index : Z) (ext : string)
  : string :=
  baseName ++ "_" ++ Number_toString timestampMillis ++ "_" ++ Number_toString index
    ++ "." ++ ext.

(** The results of the stateless function for a list of emissions, the
    clock having been read [t] times and [i] images having been named. *)
Fixpoint expected (baseName : string) (es : list Emission) (t : nat) (i : Z)
  : list value :=
  match es with
  | [] => []
  | EmitImage d :: r =>
      GenerateImage.image_result (opt_prop d "data") (opt_prop d "mimeType")
        (file_name baseName (clock env t) i (extension_of d))
      :: expected baseName r (S t) (i + 1)
  | EmitText x :: r => GenerateImage.text_result x :: expected baseName r t i
  end.

(** The same for the server, which answers with the path of the saved file. *)
Fixpoint expected_server (baseName : string) (es : list Emission) (t : nat) (i : Z)
  : list value :=
  match es with
  | [] => []
  | EmitImage d :: r =>
      Server.image_result
        ("/generated/" ++ file_name baseName (clock env t) i (extension_of d))
        (opt_prop d "mimeType")
      :: expected_server baseName r (S t) (i + 1)
  | EmitText x :: r => Server.text_result x :: expected_server baseName r t i
  end.
End Expected.

Definition images_in (es : list Emission) : nat :=
  List.length (filter (fun e => match e with EmitImage _ => true | _ => false end) es).

(** ** Worlds and requests *)

(** The world after [n] more readings of the clock, after a file was saved,
    and after a request was given to the model client. *)
Definition tick (n : nat) (w : World) : World :=
  mkWorld (ticks w + n) (disk w) (calls w).

Definition saved (fileName content : string) (w : World) : World :=
  mkWorld (ticks w) ((fileName, content) :: disk w) (calls w).

Definition called (request : value) (w : World) : World :=
  mkWorld (ticks w) (disk w) (request :: calls w).

(** The model is called at most once between two worlds. *)
Definition at_most_one_call (before after : World) : Prop :=
  calls after = calls before \/ exists request, calls after = request :: calls before.

(** A POST to the stateless /generate-image whose body parses and gives
    [prompt] on destructuring. *)
Definition posted (env : Env) (event : Event) (prompt : value) : Prop :=
  httpMethod event = "POST"
  /\ exists text parsed,
      body event = Some text /\ JSON_parse env text = Some parsed
      /\ destructure parsed "prompt" = Ok prompt.

(** [process.env.GEMINI_API_KEY] is set. *)
Definition configured (env : Env) : Prop :=
  truthy (env_value (GEMINI_API_KEY env)) = true.

(** A multipart POST to the stateless /manipulate-image that reaches the
    checks of the form fields, with the form data parsed from its body. *)
Definition uploaded (env : Env) (event : Event) (formData : list (string * value))
  : Prop :=
  httpMethod event = "POST"
  /\ exists contentType boundary text,
      js_or (ManipulateImage.header event "content-type")
            (ManipulateImage.header event "Content-Type") = VStr contentType
      /\ includes "multipart/form-data" contentType = true
      /\ nth_error (split "boundary=" contentType) 1 = Some boundary
      /\ boundary <> ""
      /\ body event = Some text
      /\ formData = ManipulateImage.parseMultipartFormData env text boundary.

(** The requests given to the model client: by /generate-image, and by
    /manipulate-image in the stateless function and in the server. *)
Definition text_request (prompt : value) : value :=
  model_request [VObj [("text", prompt)]].

Definition image_request (prompt mimeType data : value) : value :=
  model_request
    [VObj [("text", VStr ("Based on the uploaded image, " ++ String_of prompt))];
     VObj [("inlineData", VObj [("mimeType", mimeType); ("data", data)])]].

Definition file_request (env : Env) (prompt : value) (f : Server.UploadedFile) : value :=
  image_request prompt (VStr (Server.mimetype f))
    (VStr (Buffer_to_base64 env (Server.buffer f))).

(** The objects the handlers answer with. *)
Definition no_content : list (string * value) := [("error", VStr "No content generated")].

Definition success (prompt : value) (extra : list (string * value)) (rs : list value)
  : list (string * value) :=
  (("success", VBool true) :: ("prompt", prompt) :: extra ++ [("results", VArr rs)])%list.

Definition original (f : Server.UploadedFile) : list (string * value) :=
  [("originalImage",
    VObj [("name", VStr (Server.originalname f)); ("size", VNum (Server.size f));
          ("mimeType", VStr (Server.mimetype f))])].

Definition error_body (message : string) : Body :=
  Document (JObj [("error", JStr message)]).

Definition rate_limit_body : Body :=
  Document
    (JObj [("error", JStr "API rate limit exceeded");
           ("details", JStr "You have exceeded the API rate limit. Please wait a few minutes and try again.");
           ("suggestion", JStr "Consider upgrading your API plan for higher limits.")]).

(** The status the specification gives to a failure of the model client. *)
Definition mapped_status (e : JsError) : Z :=
  match err_status e with
  | VNum 429 => 429
  | VNum 401 => 401
  | VNum 400 => 400
  | _ => 500
  end.

(** ** Results and emissions *)


Definition text_emission (c : value) : Emission := EmitText (text_of c).

(** A text emission has a truthy text. *)
Definition sound (e : Emission) : bool :=
  match e with EmitText x => truthy x | EmitImage _ => true end.







(** ** The shape of a success body *)

Definition is_string (s : string) (o : option json) : bool :=
  match o with Some (JStr t) => t =? s | _ => false end.

(** The element of a JSON array written for a value. *)
Definition json_element (v : value) : json :=
  match to_json v with Some j => j | None => JNull end.

(** A Text result: the tag and a [content] member. *)
Definition carries_text (j : json) : bool :=
  is_string "text" (member "type" j) && has_member "content" j.

(** An Image result as the specification words it. *)
Definition stated_image (j : json) : bool :=
  is_string "image" (member "type" j)
  && (has_member "data" j || has_member "url" j)
  && has_member "mimeType" j
  && has_member "filename" j.

(** An Image result of the stateless functions, and one of the server. *)
Definition stateless_image (j : json) : bool :=
  is_string "image" (member "type" j) && has_member "filename" j
  && negb (has_member "url" j).

Definition server_image (j : json) : bool :=
  is_string "image" (member "type" j) && has_member "url" j
  && negb (has_member "filename" j) && negb (has_member "data" j).

(** [{ success: true, prompt, results }] with results of the given shape. *)
Definition shaped (image : json -> bool) (b : Body) : bool :=
  match b with
  | Document j =>
      match member "success" j, member "results" j with
      | Some (JBool true), Some (JArr rs) =>
          has_member "prompt" j && forallb (fun r => image r || carries_text r) rs
      | _, _ => false
      end
  | NoBody => false
  end.

(** What is written in a body for the result of an emission.  In the
    stateless functions an Image carries its tag, a file name, the [data] and
    the [mimeType] of the inline data wherever the inline data defines them,
    and no [url]; in the server it carries its tag, a [url], the [mimeType]
    where defined, and neither [filename] nor [data].  A Text carries its
    tag and the text as [content]. *)
Definition written_text (x : value) (j : json) : Prop :=
  member "type" j = Some (JStr "text")
  /\ (exists content, member "content" j = Some content /\ to_json x = Some content).

Definition written_stateless (e : Emission) (j : json) : Prop :=
  match e with
  | EmitImage d =>
      member "type" j = Some (JStr "image")
      /\ (exists name, member "filename" j = Some (JStr name))
      /\ member "data" j = to_json (opt_prop d "data")
      /\ member "mimeType" j = to_json (opt_prop d "mimeType")
      /\ member "url" j = None
  | EmitText x => written_text x j
  end.

Definition written_server (e : Emission) (j : json) : Prop :=
  match e with
  | EmitImage d =>
      member "type" j = Some (JStr "image")
      /\ (exists url, member "url" j = Some (JStr url))
      /\ member "mimeType" j = to_json (opt_prop d "mimeType")
      /\ member "filename" j = None
      /\ member "data" j = None
  | EmitText x => written_text x j
  end.

(** A success body for the emissions [es]: [{ success: true, prompt,
    results }], with [originalImage] besides exactly when [original] is set,
    the results being what is written for the emissions, one for one. *)
Definition success_body (original : bool) (written : Emission -> json -> Prop)
           (es : list Emission) (b : Body) : Prop :=
  exists j rs,
    b = Document j
    /\ member "success" j = Some (JBool true)
    /\ has_member "prompt" j = true
    /\ has_member "originalImage" j = original
    /\ member "results" j = Some (JArr rs)
    /\ Forall2 written es rs.

(** ** A sample environment, sample chunks and sample requests *)

(** A part of the table of the [mime] package. *)
Definition sample_mime (v : value) : option string :=
  match v with
  | VStr s =>
      if s =? "image/png" then Some "png"
      else if s =? "image/jpeg" then Some "jpeg"
      else if s =? "image/webp" then Some "webp"
      else if s =? "image/gif" then Some "gif"
      else None
  | _ => None
  end.

Definition QUOTE : string := String DQUOTE "".

(** The text [{"prompt":"a red circle"}]. *)
Definition red_circle_json : string :=
  "{" ++ QUOTE ++ "prompt" ++ QUOTE ++ ":" ++ QUOTE ++ "a red circle" ++ QUOTE ++ "}".

(** [JSON.parse] on the two texts the samples use. *)
Definition sample_parse (s : string) : option value :=
  if s =? "{}" then Some (VObj [])
  else if s =? red_circle_json then Some (VObj [("prompt", VStr "a red circle")])
  else None.

(** A clock that advances by a millisecond per reading, a [Buffer] that keeps
    the text as it is, and a disk that takes every file. *)
Definition sample_env (key : option string) (answer : ModelReply) : Env :=
  mkEnv (fun k => 1700000000000 + Z.of_nat k)%Z sample_mime sample_parse
        (fun v => Ok (String_of v)) (fun s => s) key (fun _ => answer) (fun _ => None).

Definition offline : ModelReply := Rejected (mkError "Error" VUndefined (VStr "offline")).

Definition rate_limited : JsError := mkError "ApiError" (VNum 429) (VStr "quota exceeded").

Definition bad_request : JsError := mkError "ApiError" (VNum 400) (VStr "prompt too long").

Definition chunk_with (part text : value) : value :=
  VObj [("candidates", VArr [VObj [("content", VObj [("parts", VArr [part])])]]);
        ("text", text)].

Definition image_chunk (data mimeType : value) : value :=
  chunk_with (VObj [("inlineData", VObj [("data", data); ("mimeType", mimeType)])])
             VUndefined.

Definition text_chunk (s : string) : value :=
  chunk_with (VObj [("text", VStr s)]) (VStr s).

Definition empty_candidates_chunk : value := VObj [("candidates", VArr [])].

Definition red_circle_stream : Stream :=
  mkStream [image_chunk (VStr "iVBORw0KGgo=") (VStr "image/png"); text_chunk "done"] None.

Definition red_circle_event : Event := mkEvent "POST" [] (Some red_circle_json).

Definition red_circle_request : Server.Request :=
  Server.mkRequest (VObj [("prompt", VStr "a red circle")]) None.

(** A form with the one field [prompt]. *)
Definition prompt_only_form : string :=
  "--XX" ++ CRLF
  ++ "Content-Disposition: form-data; name=" ++ QUOTE ++ "prompt" ++ QUOTE ++ CRLF
  ++ CRLF ++ "make it blue" ++ CRLF
  ++ "--XX--" ++ CRLF.

(** A form with the fields [prompt] and [image]. *)
Definition full_form : string :=
  "--XX" ++ CRLF
  ++ "Content-Disposition: form-data; name=" ++ QUOTE ++ "prompt" ++ QUOTE ++ CRLF
  ++ CRLF ++ "make it blue" ++ CRLF
  ++ "--XX" ++ CRLF
  ++ "Content-Disposition: form-data; name=" ++ QUOTE ++ "image" ++ QUOTE
  ++ "; filename=" ++ QUOTE ++ "cat.png" ++ QUOTE ++ CRLF
  ++ "Content-Type: image/png" ++ CRLF
  ++ CRLF ++ "PNGDATA" ++ CRLF
  ++ "--XX--" ++ CRLF.

Definition form_event (text : string) : Event :=
  mkEvent "POST" [("content-type", "multipart/form-data; boundary=XX")] (Some text).

Definition sample_file : Server.UploadedFile :=
  Server.mkFile "cat.png" 7 "image/png" "PNGDATA".

(** ** server.js: the upload configuration and the error handling middleware *)
Module Upload.

(** [limits.fileSize] *)
Definition fileSize : Z := 10 * 1024 * 1024.

(** [fileFilter]: [cb(null, true)], or [cb(new Error(...), false)]. *)
Definition fileFilter (file : Server.UploadedFile) : outcome bool :=
  if prefix "image/" (Server.mimetype file) then Ok true
  else Throw (mkError "Error" VUndefined (VStr "Only image files are allowed!")).

(** An error given to the middleware: an instance of [multer.MulterError]
    with its [code], or another error. *)
Inductive Failure : Type :=
| MulterError (code : string) (message : value)
| Other (e : JsError).

Definition message_of (error : Failure) : value :=
  match error with
  | MulterError _ message => message
  | Other e => err_message e
  end.

(** [a === s] for a string literal [s] *)
Definition strict_eq_str (a : value) (s : string) : bool :=
  match a with VStr t => t =? s | _ => false end.

(** [app.use((error, req, res, next) => ...)] *)
Definition error_middleware (error : Failure) : Server.Reply :=
  let after_multer :=
    if strict_eq_str (message_of error) "Only image files are allowed!"
    then Server.respond 400 [("error", VStr "Only image files are allowed!")]
    else Server.respond 500 [("error", VStr "Internal server error")] in
  match error with
  | MulterError code _ =>
      if code =? "LIMIT_FILE_SIZE"
      then Server.respond 400 [("error", VStr "File too large. Maximum size is 10MB.")]
      else after_multer
  | Other _ => after_multer
  end.
End Upload.

(** [response.json()] reads the document back as a value. *)
Fixpoint of_json (j : json) : value :=
  match j with
  | JNull => VNull
  | JBool b => VBool b
  | JNum z => VNum z
  | JStr s => VStr s
  | JArr l => VArr (map of_json l)
  | JObj ms =>
      VObj ((fix props (ms : list (string * json)) : list (string * value) :=
               match ms with
               | [] => []
               | (k, x) :: r => (k, of_json x) :: props r
               end) ms)
  end.

(** ** The script of the page (the class [GoogleAIImageApp])

    What the page puts on the screen is kept, the handling of the document
    tree is left out. *)
Module Client.

(** A file picked in the browser: [file.type] and [file.size]. *)
Record File := mkFile {
  file_type : string;
  file_size : Z
}.

Inductive Selection : Type :=
| Selected                       (* [this.uploadedFile = file] *)
| Refused (message : string).    (* [this.showError(message)] *)

(** [handleFile(file)] *)
Definition handleFile (file : File) : Selection :=
  if negb (prefix "image/" (file_type file))
  then Refused "Please select a valid image file."
  else if (10 * 1024 * 1024 <? file_size file)%Z
  then Refused "File size must be less than 10MB."
  else Selected.

(** What [fetch] gives: a rejection, or a response with its status and body. *)
Inductive Fetched : Type :=
| Failed (e : JsError)
| Responded (status : Z) (body : Body).

(** One [result-item]: an image with its source and download name and the
    prompt under it, a text, or an empty item. *)
Inductive Element : Type :=
| Image (src filename prompt : string)
| Text (content : string)
| Blank.

Inductive Shown : Type :=
| Message (text : string)          (* [showError] *)
| Elements (items : list Element).

(** [response.ok] *)
Definition ok (status : Z) : bool := (200 <=? status)%Z && (status <=? 299)%Z.

(** [response.json()] *)
Definition response_json (body : Body) : outcome value :=
  match body with
  | Document j => Ok (of_json j)
  | NoBody => Throw (SyntaxError "Unexpected end of JSON input")
  end.

(** [v.length === 0] *)
Definition length_is_zero (v : value) : bool :=
  match v with
  | VArr [] => true
  | VStr EmptyString => true
  | VObj ps => strict_eq_num (own "length" ps) 0
  | _ => false
  end.

Section WithEnv.
Context (env : Env).   (* the clock of the browser *)

(** The body of [data.results.forEach((result, index) => ...)]. *)
Definition element (data result : value) : M Element :=
  type <- lift (get_prop result "type") ;;
  if Upload.strict_eq_str type "image" then
    url <- lift (get_prop result "url") ;;
    mimeType <- lift (get_prop result "mimeType") ;;
    payload <- lift (get_prop result "data") ;;
    let imageUrl :=
      js_or url (VStr ("data:" ++ String_of mimeType ++ ";base64," ++ String_of payload)) in
    given <- lift (get_prop result "filename") ;;
    filename <- (if truthy given then ret given
                 else now <- Date_now env ;;
                      ret (VStr ("generated_image_" ++ Number_toString now ++ ".png"))) ;;
    prompt <- lift (get_prop data "prompt") ;;
    ret (Image (String_of imageUrl) (String_of filename) (String_of prompt))
  else if Upload.strict_eq_str type "text" then
    content <- lift (get_prop result "content") ;;
    ret (Text (String_of content))
  else ret Blank.

Fixpoint forEach (data : value) (rs : list value) : M (list Element) :=
  match rs with
  | [] => ret []
  | result :: rest =>
      e <- element data result ;;
      es <- forEach data rest ;;
      ret (e :: es)
  end.

(** [displayResults(data)] *)
Definition displayResults (data : value) : M Shown :=
  results <- lift (get_prop data "results") ;;
  if negb (truthy results) || length_is_zero results
  then ret (Message "No results were generated. Please try again.")
  else
    match results with
    | VArr rs => es <- forEach data rs ;; ret (Elements es)
    | _ => throw (TypeError "data.results.forEach is not a function")
    end.

(** The [catch] blocks of [generateImage] and [manipulateImage]; [what] is
    ["generate image"] or ["manipulate image"]. *)
Definition on_error (what : string) (error : JsError) : M Shown :=
  match err_message error with
  | VStr message =>
      if includes "429" message || includes "rate limit" message
      then ret (Message "API rate limit exceeded. Please wait a few minutes and try again.")
      else if includes "401" message || includes "API key" message
      then ret (Message "Invalid API key. Please check your configuration.")
      else ret (Message ("Failed to " ++ what ++ ". Please try again."))
  | other =>
      throw (TypeError ("Cannot read properties of " ++ show_nullish other
                        ++ " (reading 'includes')"))
  end.

(** [generateImage] and [manipulateImage] from the arrival of the response on. *)
Definition received (what : string) (fetched : Fetched) : M Shown :=
  try_catch
    (match fetched with
     | Failed e => throw e
     | Responded status body =>
         data <- lift (response_json body) ;;
         if negb (ok status) then
           reason <- lift (get_prop data "error") ;;
           throw (mkError "Error" VUndefined
                    (VStr (String_of (js_or reason (VStr ("Failed to " ++ what))))))
         else displayResults data
     end)
    (on_error what).

Definition generateImage : Fetched -> M Shown := received "generate image".
Definition manipulateImage : Fetched -> M Shown := received "manipulate image".
End WithEnv.
End Client.

(** ** The page and the handlers *)

(** The message the page shows for a failed request, by the status of the
    response. *)
Definition shown_for (what : string) (status : Z) : string :=
  if (status =? 429)%Z
  then "API rate limit exceeded. Please wait a few minutes and try again."
  else if (status =? 401)%Z
  then "Invalid API key. Please check your configuration."
  else "Failed to " ++ what ++ ". Please try again.".

(** The page shows for a response the message of its status, and nothing
    else. *)
Definition explained (status : Z) (b : Body) : Prop :=
  forall (browser : Env) (what : string) (w : World),
    Client.received browser what (Client.Responded status b) w
    = (Ok (Client.Message (shown_for what status)), w).

(** A value as it arrives in the page, written by [JSON.stringify] and read
    by [response.json()]. *)
Definition read_back (v : value) : value :=
  match to_json v with Some j => of_json j | None => VUndefined end.

(** What the page shows for the emissions of a stream answered by a
    stateless function: an image with its data URL and the file name given
    by the function, a text with its content. *)
Fixpoint page_stateless (env : Env) (baseName prompt : string) (es : list Emission)
         (t : nat) (i : Z) : list Client.Element :=
  match es with
  | [] => []
  | EmitImage d :: r =>
      Client.Image ("data:" ++ String_of (opt_prop d "mimeType") ++ ";base64,"
                    ++ String_of (opt_prop d "data"))
                   (file_name baseName (clock env t) i (extension_of env d))
                   prompt
      :: page_stateless env baseName prompt r (S t) (i + 1)
  | EmitText x :: r => Client.Text (String_of x) :: page_stateless env baseName prompt r t i
  end.

(** The same for the server: an image with the path of the saved file, under
    a download name made from the clock of the browser, read [b] times so
    far. *)
Fixpoint page_server (env browser : Env) (baseName prompt : string) (es : list Emission)
         (t : nat) (i : Z) (b : nat) : list Client.Element :=
  match es with
  | [] => []
  | EmitImage d :: r =>
      Client.Image ("/generated/" ++ file_name baseName (clock env t) i (extension_of env d))
                   ("generated_image_" ++ Number_toString (clock browser b) ++ ".png")
                   prompt
      :: page_server env browser baseName prompt r (S t) (i + 1) (S b)
  | EmitText x :: r =>
      Client.Text (String_of x) :: page_server env browser baseName prompt r t i b
  end.

(** ** Multipart bodies

    The layout of a text field, of the image file and of the whole body of a
    multipart/form-data request. *)
Definition text_part (name value : string) : string :=
  CRLF ++ "Content-Disposition: form-data; name=" ++ QUOTE ++ name ++ QUOTE
  ++ CRLF ++ CRLF ++ value ++ CRLF.

Definition file_part (filename mimeType data : string) : string :=
  CRLF ++ "Content-Disposition: form-data; name=" ++ QUOTE ++ "image" ++ QUOTE
  ++ "; filename=" ++ QUOTE ++ filename ++ QUOTE
  ++ CRLF ++ "Content-Type: " ++ mimeType
  ++ CRLF ++ CRLF ++ data ++ CRLF.

(** What stands before the blank line in the two layouts. *)
Definition text_header (name : string) : string :=
  CRLF ++ "Content-Disposition: form-data; name=" ++ QUOTE ++ name ++ QUOTE.

Definition file_header (filename mimeType : string) : string :=
  CRLF ++ "Content-Disposition: form-data; name=" ++ QUOTE ++ "image" ++ QUOTE
  ++ "; filename=" ++ QUOTE ++ filename ++ QUOTE
  ++ CRLF ++ "Content-Type: " ++ mimeType.

Fixpoint delimited (delimiter : string) (parts : list string) : string :=
  match parts with
  | [] => ""
  | part :: rest => delimiter ++ part ++ delimited delimiter rest
  end.

Definition form_body (boundary : string) (parts : list string) : string :=
  delimited ("--" ++ boundary) parts ++ "--" ++ boundary ++ "--" ++ CRLF.

(** The separator starts nowhere inside [p], read with the separator after
    it. *)
Fixpoint free_of (sep p : string) : bool :=
  match p with
  | EmptyString => true
  | String _ r => negb (prefix sep (p ++ sep)) && free_of sep r
  end.

(** A field of a form: a text field, or the file sent under the name
    [image]. *)
Inductive Field : Type :=
| TextField (name value : string)
| FileField (filename mimeType data : string).

Definition encode (f : Field) : string :=
  match f with
  | TextField name value => text_part name value
  | FileField filename mimeType data => file_part filename mimeType data
  end.

(** The entry of [formData] that stands for a field. *)
Definition entry (env : Env) (f : Field) : string * value :=
  match f with
  | TextField name value => (name, VStr value)
  | FileField _ mimeType data =>
      ("image", VObj [("data", VStr (Buffer_to_base64 env data));
                      ("mimeType", VStr mimeType)])
  end.

(** The object filled by assigning the entry of each field in turn. *)
Definition form_data (env : Env) (fields : list Field) : list (string * value) :=
  fold_left (fun formData f => assign (fst (entry env f)) (snd (entry env f)) formData)
            fields [].


(** A field the layout can carry: a name other than [image] without quote
    or carriage return, a file name without carriage return that does not
    spell a [Content-Type] header, a media type on one line, and a value or
    content that is not empty. *)
Definition plain (f : Field) : bool :=
  match f with
  | TextField name value =>
      negb (name =? "") && negb (name =? "image")
      && negb (occurs DQUOTE name) && negb (occurs CR name)
      && negb (value =? "")
  | FileField filename mimeType data =>
      negb (occurs CR filename) && negb (includes "Content-Type: " filename)
      && negb (mimeType =? "")
      && negb (occurs CR mimeType) && negb (occurs LF mimeType)
      && negb (data =? "")
  end.

(** The form the page sends: the file, then the prompt. *)
Definition page_form (filename mimeType data prompt : string) : list Field :=
  [FileField filename mimeType data; TextField "prompt" prompt].

(** The request the page sends for a form: [fetch] names the boundary in
    the [content-type] header. *)
Definition upload_event (boundary text : string) : Event :=
  mkEvent "POST" [("content-type", "multipart/form-data; boundary=" ++ boundary)]
          (Some text).

(** An entry the parser may store: under [image] an object with a string
    [data] and a non-empty string [mimeType], under any other name, which is
    not empty, a non-empty string. *)
Definition stored (e : string * value) : Prop :=
  fst e <> ""
  /\ if fst e =? "image"
     then exists data mimeType,
            snd e = VObj [("data", VStr data); ("mimeType", VStr mimeType)]
            /\ mimeType <> ""
     else exists text, snd e = VStr text /\ text <> "".

(** ** Frames and answers

    [preserves R m]: whatever [m] does, the world it leaves is related by [R]
    to the one it started in.  [answers Q m]: whatever [m] returns satisfies
    [Q]. *)
Definition preserves {A} (R : World -> World -> Prop) (m : M A) : Prop :=
  forall w, R w (snd (m w)).

Definition answers {A} (Q : A -> Prop) (m : M A) : Prop :=
  forall w a w', m w = (Ok a, w') -> Q a.

(** No file is written; the writes so far are kept and new ones come first
    (a write under a name already there replaces that file). *)
Definition same_disk (w w' : World) : Prop := disk w' = disk w.


(** A failure body: [{ error: string, ... }] without [success] or [results]. *)
Definition failure_shaped (b : Body) : bool :=
  match b with
  | Document j =>
      match member "error" j with
      | Some (JStr _) => negb (has_member "success" j) && negb (has_member "results" j)
      | _ => false
      end
  | NoBody => false
  end.

(** A response of a stateless function other than the preflight: the CORS
    and content type headers, one of the six statuses, and a failure body
    unless the status is 200. *)
Definition well_formed (r : Response) : Prop :=
  response_headers r = json_headers
  /\ In (statusCode r) [200; 400; 401; 405; 429; 500]%Z
  /\ (statusCode r <> 200%Z -> failure_shaped (response_body r) = true).

Definition well_formed_reply (r : Server.Reply) : Prop :=
  In (Server.status r) [200; 400; 401; 429; 500]%Z
  /\ (Server.status r <> 200%Z -> failure_shaped (Server.sent r) = true).

(** ** The files of the server *)

(** The files the server saves for a list of emissions, in order: the name
    and the value handed to [Buffer.from]. *)
Fixpoint to_save (env : Env) (baseName : string) (es : list Emission) (t : nat) (i : Z)
  : list (string * value) :=
  match es with
  | [] => []
  | EmitImage d :: r =>
      (file_name baseName (clock env t) i (extension_of env d),
       js_or (opt_prop d "data") (VStr ""))
      :: to_save env baseName r (S t) (i + 1)
  | EmitText _ :: r => to_save env baseName r t i
  end.



(** The file [f] on the disk is the one to save: its name, and its content
    decoded from the value. *)
Definition holds (env : Env) (f : string * string) (nv : string * value) : Prop :=
  fst f = fst nv /\ Buffer_from_base64 env (snd nv) = Ok (snd f).

(** The [url]s of the results that have one. *)
Definition image_urls (rs : list value) : list string :=
  flat_map (fun r => match opt_prop r "url" with VStr u => [u] | _ => [] end) rs.

(** A success: the model was called once, and the body carries
    [success: true] and a non-empty list of results. *)
Definition succeeded (w w' : World) (b : Body) : Prop :=
  (exists request, calls w' = request :: calls w)
  /\ exists j rs,
      b = Document j /\ rs <> []
      /\ member "success" j = Some (JBool true)
      /\ member "results" j = Some (JArr (map json_element rs)).

(** ** Chunks with more than one part *)




(** ** The files of the server over many requests *)

(** A name made by one of the routes from a reading of the clock [now]
    earlier than the reading numbered [ticks]. *)
Definition stamped (now : nat -> Z) (ticks : nat) (name : string) : Prop :=
  exists base k i ext,
    (base = "text_to_image" \/ base = "image_manipulation")
    /\ k < ticks
    /\ name = file_name base (now k) i ext.

(** No name was written twice, and every name is stamped. *)
Definition tidy (now : nat -> Z) (w : World) : Prop :=
  NoDup (map fst (disk w)) /\ Forall (stamped now (ticks w)) (map fst (disk w)).

Definition kept (now : nat -> Z) (w w' : World) : Prop := tidy now w -> tidy now w'.

(** The worlds reached by serving requests one after another, whatever the
    model answers to each, under the clock [now]. *)
Inductive serves (now : nat -> Z) (w : World) : World -> Prop :=
| serves_nothing : serves now w w
| serves_generate (env : Env) (req : Server.Request) (w1 : World) :
    clock env = now -> serves now w w1 ->
    serves now w (snd (Server.api_generate_image env req w1))
| serves_manipulate (env : Env) (req : Server.Request) (w1 : World) :
    clock env = now -> serves now w w1 ->
    serves now w (snd (Server.api_manipulate_image env req w1)).

(** * Properties *)

(** ** Strings and file names *)

Lemma append_cancel (a b c : string) : a ++ b = a ++ c -> b = c.
Proof.
  induction a as [|x a IH]; simpl; intros H.
  - exact H.
  - injection H as H. auto.
Qed.

(** A string is cut in one way only at the first occurrence of a character. *)
Lemma cut_at (c : ascii) (s1 : string) :
  forall s2 r1 r2,
    occurs c s1 = false -> occurs c s2 = false ->
    s1 ++ String c r1 = s2 ++ String c r2 -> s1 = s2 /\ r1 = r2.
Proof.
  induction s1 as [|x s1 IH]; intros [|y s2] r1 r2 H1 H2 E; simpl in *.
  - injection E as E. auto.
  - injection E as E1 E2. subst y. rewrite Ascii.eqb_refl in H2. discriminate.
  - injection E as E1 E2. subst x. rewrite Ascii.eqb_refl in H1. discriminate.
  - injection E as E1 E2. subst y.
    apply orb_false_iff in H1 as [_ H1]. apply orb_false_iff in H2 as [_ H2].
    destruct (IH s2 r1 r2 H1 H2 E2) as [-> ->]. auto.
Qed.

Lemma uint_no_separator (c : ascii) (d : Decimal.uint) :
  c = "_"%char \/ c = "."%char -> occurs c (NilEmpty.string_of_uint d) = false.
Proof.
  intros [-> | ->]; induction d; simpl; auto.
Qed.

Lemma Number_toString_no_separator (c : ascii) (n : Z) :
  c = "_"%char \/ c = "."%char -> occurs c (Number_toString n) = false.
Proof.
  intros H. unfold Number_toString.
  destruct (Z.to_int n) as [d | d]; simpl.
  - apply uint_no_separator, H.
  - rewrite (uint_no_separator c d H). destruct H as [-> | ->]; reflexivity.
Qed.

Lemma Number_toString_inj (a b : Z) : Number_toString a = Number_toString b -> a = b.
Proof.
  unfold Number_toString. intros H.
  apply DecimalZ.to_int_inj.
  assert (E : Some (Z.to_int a) = Some (Z.to_int b)).
  { rewrite <- 2 NilEmpty.isi. now rewrite H. }
  now injection E.
Qed.

(** A file name determines its timestamp, its index and its extension. *)
Lemma file_name_inj (base : string) (t1 t2 i1 i2 : Z) (e1 e2 : string) :
  file_name base t1 i1 e1 = file_name base t2 i2 e2 -> t1 = t2 /\ i1 = i2 /\ e1 = e2.
Proof.
  unfold file_name. intros H.
  apply append_cancel in H. simpl in H. injection H as H.
  apply cut_at in H; try (apply Number_toString_no_separator; auto).
  destruct H as [Ht H]. apply cut_at in H; try (apply Number_toString_no_separator; auto).
  destruct H as [Hi He].
  repeat split; auto using Number_toString_inj.
Qed.

(** ** Reads *)

Lemma truthy_not_nullish (v : value) : truthy v = true -> nullish v = false.
Proof. destruct v; simpl; congruence. Qed.

Lemma get_prop_opt (v : value) (name : string) :
  nullish v = false -> get_prop v name = Ok (opt_prop v name).
Proof. unfold opt_prop. destruct v; simpl; congruence. Qed.

Lemma get_first_opt (v : value) :
  nullish v = false -> get_first v = Ok (opt_first v).
Proof. unfold opt_first. destruct v as [| | | | [|? ?] | |]; simpl; congruence. Qed.

Lemma get_prop_nullish (v : value) (name : string) :
  nullish v = true -> exists e, get_prop v name = Throw e.
Proof. destruct v; simpl; try discriminate; eauto. Qed.

Lemma opt_prop_truthy (v : value) (name : string) :
  truthy (opt_prop v name) = true -> nullish v = false.
Proof. unfold opt_prop. destruct v; simpl; congruence. Qed.

Lemma opt_first_truthy (v : value) : truthy (opt_first v) = true -> nullish v = false.
Proof. unfold opt_first. destruct v; simpl; congruence. Qed.

Lemma opt_prop_defined (v : value) (name : string) :
  nullish (opt_prop v name) = false -> truthy v = true.
Proof. unfold opt_prop. destruct v; simpl; congruence. Qed.

Lemma opt_first_defined (v : value) : nullish (opt_first v) = false -> truthy v = true.
Proof. unfold opt_first. destruct v as [| | | | [|? ?] | |]; simpl; congruence. Qed.

(** Inline data in the first part is found along a candidates/content/parts
    path only. *)
Lemma inline_has_path (chunk : value) :
  truthy (inline_of chunk) = true -> has_path chunk = true.
Proof.
  unfold inline_of, has_path. intros H.
  apply opt_prop_truthy, opt_first_defined in H. rewrite H.
  unfold parts_of in H. apply truthy_not_nullish, opt_prop_defined in H. rewrite H.
  unfold content_of in H. apply truthy_not_nullish, opt_prop_defined in H.
  apply truthy_not_nullish, opt_first_defined in H. now rewrite H.
Qed.


Lemma lacks_parts_reads (chunk : value) (w : World) :
  guard_reads chunk = true ->
  GenerateImage.lacks_parts chunk w = (Ok (negb (has_path chunk)), w).
Proof.
  unfold guard_reads, has_path, parts_of, content_of, candidates_of.
  intros H. apply andb_true_iff in H as [Hn H]. apply negb_true_iff in Hn.
  unfold GenerateImage.lacks_parts, bind, lift, ret.
  rewrite (get_prop_opt _ _ Hn).
  destruct (truthy (opt_prop chunk "candidates")) eqn:Hc; simpl in *; [|reflexivity].
  apply negb_true_iff in H.
  rewrite (get_first_opt _ (truthy_not_nullish _ Hc)), (get_prop_opt _ _ H).
  destruct (truthy (opt_prop (opt_first (opt_prop chunk "candidates")) "content"))
    eqn:Hk; simpl; [|reflexivity].
  rewrite (get_prop_opt _ _ (truthy_not_nullish _ Hk)). reflexivity.
Qed.

Lemma lacks_parts_throws (chunk : value) (w : World) :
  guard_reads chunk = false ->
  exists e, GenerateImage.lacks_parts chunk w = (Throw e, w).
Proof.
  unfold guard_reads, candidates_of. intros H.
  unfold GenerateImage.lacks_parts, bind, lift, ret.
  destruct (nullish chunk) eqn:Hn.
  - destruct (get_prop_nullish chunk "candidates" Hn) as [e ->]. eauto.
  - rewrite (get_prop_opt _ _ Hn). simpl in H.
    apply orb_false_iff in H as [Hc H].
    apply negb_false_iff in Hc, H. rewrite Hc. simpl.
    rewrite (get_first_opt _ (truthy_not_nullish _ Hc)).
    destruct (get_prop_nullish (opt_first (opt_prop chunk "candidates")) "content" H)
      as [e ->]. eauto.
Qed.

Lemma first_inlineData_reads (chunk : value) (w : World) :
  nullish chunk = false ->
  GenerateImage.first_inlineData chunk w = (Ok (inline_of chunk), w).
Proof.
  intros Hn. unfold GenerateImage.first_inlineData, bind, lift, ret.
  rewrite (get_prop_opt _ _ Hn). reflexivity.
Qed.

Lemma read_inlineData_reads (chunk : value) (w : World) :
  truthy (inline_of chunk) = true ->
  GenerateImage.read_inlineData chunk w = (Ok (inline_of chunk), w).
Proof.
  unfold inline_of, parts_of, content_of, candidates_of. intros H.
  pose proof (opt_prop_truthy _ _ H) as H4.
  assert (H3 : nullish (opt_prop (opt_prop (opt_first (opt_prop chunk "candidates"))
                                    "content") "parts") = false).
  { destruct (nullish (opt_prop (opt_prop (opt_first (opt_prop chunk "candidates"))
                                    "content") "parts")) eqn:E; [|reflexivity].
    destruct (opt_prop (opt_prop (opt_first (opt_prop chunk "candidates"))
                                    "content") "parts"); discriminate. }
  assert (H2 : nullish (opt_prop (opt_first (opt_prop chunk "candidates")) "content")
               = false).
  { destruct (opt_prop (opt_first (opt_prop chunk "candidates")) "content");
      try reflexivity; discriminate. }
  assert (H1 : nullish (opt_first (opt_prop chunk "candidates")) = false).
  { destruct (opt_first (opt_prop chunk "candidates")); try reflexivity; discriminate. }
  assert (H0 : nullish (opt_prop chunk "candidates") = false).
  { destruct (opt_prop chunk "candidates"); try reflexivity; discriminate. }
  assert (Hc : nullish chunk = false).
  { destruct chunk; try reflexivity; discriminate. }
  unfold GenerateImage.read_inlineData, bind, lift.
  rewrite (get_prop_opt _ _ Hc), (get_first_opt _ H0), (get_prop_opt _ _ H1),
    (get_prop_opt _ _ H2), (get_first_opt _ H3), (get_prop_opt _ _ H4).
  reflexivity.
Qed.

(** ** The loop of the stateless function *)

Lemma append_assoc (a b c : string) : (a ++ b) ++ c = a ++ (b ++ c).
Proof. induction a as [|x a IH]; simpl; [reflexivity | now rewrite IH]. Qed.

Lemma file_name_assoc (base : string) (t i : Z) (ext : string) :
  (base ++ "_" ++ Number_toString t ++ "_" ++ Number_toString i) ++ "." ++ ext
  = file_name base t i ext.
Proof.
  unfold file_name. rewrite append_assoc. simpl. now rewrite append_assoc.
Qed.

Lemma tick_0 (w : World) : tick 0 w = w.
Proof. destruct w. unfold tick. simpl. now rewrite Nat.add_0_r. Qed.

Lemma tick_tick (a b : nat) (w : World) : tick a (tick b w) = tick (b + a) w.
Proof. unfold tick. simpl. now rewrite Nat.add_assoc. Qed.

Section Stateless.
Context (env : Env).

(** One turn of the loop on a chunk whose guard reads nothing of
    [undefined]: the chunk's emission, if any, is appended. *)
Lemma loop_body_reads (base : string) (chunk : value) (st : LoopState) (w : World) :
  guard_reads chunk = true ->
  GenerateImage.loop_body env base chunk st w =
    match emission chunk with
    | Some (EmitImage d) =>
        (Ok (mkLoop (results st
                       ++ expected env base [EmitImage d] (ticks w) (fileIndex st))
                    (fileIndex st + 1)),
         tick 1 w)
    | Some (EmitText x) =>
        (Ok (mkLoop (results st ++ [GenerateImage.text_result x]) (fileIndex st)), w)
    | None => (Ok st, w)
    end.
Proof.
  intros Hg. unfold GenerateImage.loop_body, bind at 1.
  rewrite (lacks_parts_reads _ _ Hg).
  unfold emission, is_image_chunk, is_text_chunk.
  destruct (has_path chunk) eqn:Hp; simpl; [|reflexivity].
  assert (Hn : nullish chunk = false).
  { unfold guard_reads in Hg. apply andb_true_iff in Hg as [Hg _].
    now apply negb_true_iff in Hg. }
  unfold bind at 1. rewrite (first_inlineData_reads _ _ Hn).
  destruct (truthy (inline_of chunk)) eqn:Hi; simpl.
  - unfold bind, Date_now, lift, ret.
    rewrite (read_inlineData_reads _ _ Hi).
    rewrite (get_prop_opt _ _ (truthy_not_nullish _ Hi)).
    rewrite (get_prop_opt _ _ (truthy_not_nullish _ Hi)).
    rewrite <- file_name_assoc. unfold tick. rewrite Nat.add_1_r. reflexivity.
  - unfold bind, lift, ret. rewrite (get_prop_opt _ _ Hn).
    fold (text_of chunk). destruct (truthy (text_of chunk)); reflexivity.
Qed.

Lemma loop_body_throws (base : string) (chunk : value) (st : LoopState) (w : World) :
  guard_reads chunk = false ->
  exists e, GenerateImage.loop_body env base chunk st w = (Throw e, w).
Proof.
  intros Hg. unfold GenerateImage.loop_body, bind at 1.
  destruct (lacks_parts_throws chunk w Hg) as [e ->]. eauto.
Qed.

Lemma expected_app (base : string) (es1 es2 : list Emission) :
  forall t i,
    expected env base (es1 ++ es2) t i =
    (expected env base es1 t i
       ++ expected env base es2 (t + images_in es1) (i + Z.of_nat (images_in es1)))%list.
Proof.
  unfold images_in.
  induction es1 as [|[d | x] es1 IH]; intros t i; simpl.
  - now rewrite Nat.add_0_r, Z.add_0_r.
  - rewrite IH. do 3 f_equal; lia.
  - now rewrite IH.
Qed.

Lemma images_in_app (es1 es2 : list Emission) :
  images_in (es1 ++ es2) = images_in es1 + images_in es2.
Proof. unfold images_in. now rewrite filter_app, length_app. Qed.

Lemma emissions_cons (c : value) (cs : list value) :
  emissions (c :: cs)
  = (match emission c with Some e => [e] | None => [] end ++ emissions cs)%list.
Proof. reflexivity. Qed.

(** The loop over chunks whose guards all read nothing of [undefined]. *)
Lemma for_await_reads (base : string) (cs : list value) :
  forall st w,
    forallb guard_reads cs = true ->
    GenerateImage.for_await env base cs st w =
      (Ok (mkLoop (results st
                     ++ expected env base (emissions cs) (ticks w) (fileIndex st))
                  (fileIndex st + Z.of_nat (images_in (emissions cs)))),
       tick (images_in (emissions cs)) w).
Proof.
  induction cs as [|c cs IH]; intros st w H.
  - simpl. unfold ret. rewrite app_nil_r, Z.add_0_r, tick_0. now destruct st.
  - cbn [forallb] in H. apply andb_true_iff in H as [Hc H].
    cbn [GenerateImage.for_await]. unfold bind.
    rewrite (loop_body_reads _ _ _ _ Hc).
    rewrite emissions_cons, expected_app, images_in_app.
    destruct (emission c) as [[d | x]|]; rewrite (IH _ _ H); cbn [results fileIndex].
    + rewrite tick_tick, <- app_assoc.
      change (ticks (tick 1 w)) with (ticks w + 1).
      change (images_in [EmitImage d]) with 1.
      rewrite Nat2Z.inj_add, Z.add_assoc. reflexivity.
    + rewrite <- app_assoc. change (images_in [EmitText x]) with 0.
      rewrite Nat.add_0_r, Z.add_0_r. reflexivity.
    + change (images_in []) with 0. rewrite Nat.add_0_r, Z.add_0_r. reflexivity.
Qed.

(** A chunk whose guard reads a property of [undefined] stops the loop. *)
Lemma for_await_returns (base : string) (cs : list value) :
  forall st w st' w',
    GenerateImage.for_await env base cs st w = (Ok st', w') ->
    forallb guard_reads cs = true.
Proof.
  induction cs as [|c cs IH]; intros st w st' w' H; simpl in *; [reflexivity|].
  unfold bind in H.
  destruct (guard_reads c) eqn:Hc; simpl.
  - rewrite (loop_body_reads _ _ _ _ Hc) in H.
    destruct (emission c) as [[d | x]|]; eauto.
  - destruct (loop_body_throws base c st w Hc) as [e He].
    rewrite He in H. discriminate.
Qed.
End Stateless.

Section StatelessResponse.
Context (env : Env).

Lemma processAIResponse_reads (base : string) (cs : list value) (w : World) :
  forallb guard_reads cs = true ->
  GenerateImage.processAIResponse env (mkStream cs None) base w =
    (Ok (expected env base (emissions cs) (ticks w) 0),
     tick (images_in (emissions cs)) w).
Proof.
  intros H. unfold GenerateImage.processAIResponse, bind. simpl.
  rewrite (for_await_reads env base cs _ _ H). reflexivity.
Qed.

(** Whenever the stateless [processAIResponse] returns, it returns the
    expected results of the chunks' emissions, in order. *)
Lemma processAIResponse_returns (base : string) (s : Stream) (w w' : World)
      (rs : list value) :
  GenerateImage.processAIResponse env s base w = (Ok rs, w') ->
  rs = expected env base (emissions (chunks s)) (ticks w) 0
  /\ w' = tick (images_in (emissions (chunks s))) w.
Proof.
  unfold GenerateImage.processAIResponse, bind. intros H.
  destruct (GenerateImage.for_await env base (chunks s) (mkLoop [] 0) w)
    as [[st | e] w1] eqn:E; [|discriminate].
  pose proof (for_await_returns env base _ _ _ _ _ E) as Hg.
  rewrite (for_await_reads env base _ _ _ Hg) in E.
  injection E as <- <-.
  destruct (failure s); [discriminate|].
  unfold ret in H. injection H as <- <-. auto.
Qed.

Lemma loop_body_calls (base : string) (c : value) (st : LoopState) (w : World) :
  calls (snd (GenerateImage.loop_body env base c st w)) = calls w.
Proof.
  destruct (guard_reads c) eqn:Hc.
  - rewrite (loop_body_reads env _ _ _ _ Hc).
    destruct (emission c) as [[d | x]|]; reflexivity.
  - destruct (loop_body_throws env base c st w Hc) as [e ->]. reflexivity.
Qed.

Lemma for_await_calls (base : string) (cs : list value) :
  forall st w, calls (snd (GenerateImage.for_await env base cs st w)) = calls w.
Proof.
  induction cs as [|c cs IH]; intros st w; simpl; [reflexivity|].
  unfold bind. pose proof (loop_body_calls base c st w) as H.
  destruct (GenerateImage.loop_body env base c st w) as [[st' | e] w1]; simpl in *.
  - now rewrite IH.
  - exact H.
Qed.

(** Normalising a response calls the model client no further. *)
Lemma processAIResponse_calls (base : string) (s : Stream) (w : World) :
  calls (snd (GenerateImage.processAIResponse env s base w)) = calls w.
Proof.
  unfold GenerateImage.processAIResponse, bind.
  pose proof (for_await_calls base (chunks s) (mkLoop [] 0) w) as H.
  destruct (GenerateImage.for_await env base (chunks s) (mkLoop [] 0) w)
    as [[st | e] w1]; simpl in *; [|exact H].
  destruct (failure s); exact H.
Qed.
End StatelessResponse.

(** ** The loop of the server *)

Section Disk.
Context (env : Env).

Lemma server_loop_body_reads (base : string) (chunk : value) (st : LoopState)
      (w : World) :
  guard_reads chunk = true ->
  Server.loop_body env base chunk st w =
    match emission chunk with
    | Some (EmitImage d) =>
        let name := file_name base (clock env (ticks w)) (fileIndex st)
                      (extension_of env d) in
        match Buffer_from_base64 env (js_or (opt_prop d "data") (VStr "")) with
        | Throw e => (Throw e, tick 1 w)
        | Ok content =>
            match fs_failure env name with
            | Some e => (Throw e, tick 1 w)
            | None =>
                (Ok (mkLoop (results st
                               ++ expected_server env base [EmitImage d]
                                    (ticks w) (fileIndex st))
                            (fileIndex st + 1)),
                 saved name content (tick 1 w))
            end
        end
    | Some (EmitText x) =>
        (Ok (mkLoop (results st ++ [Server.text_result x]) (fileIndex st)), w)
    | None => (Ok st, w)
    end.
Proof.
  intros Hg. unfold Server.loop_body, bind at 1.
  rewrite (lacks_parts_reads _ _ Hg).
  unfold emission, is_image_chunk, is_text_chunk.
  destruct (has_path chunk) eqn:Hp; simpl; [|reflexivity].
  assert (Hn : nullish chunk = false).
  { unfold guard_reads in Hg. apply andb_true_iff in Hg as [Hg _].
    now apply negb_true_iff in Hg. }
  unfold bind at 1. rewrite (first_inlineData_reads _ _ Hn).
  destruct (truthy (inline_of chunk)) eqn:Hi; simpl.
  - unfold bind, Date_now, lift, ret.
    rewrite (read_inlineData_reads _ _ Hi).
    rewrite !(get_prop_opt _ _ (truthy_not_nullish _ Hi)).
    rewrite <- file_name_assoc. unfold tick. rewrite Nat.add_1_r.
    destruct (Buffer_from_base64 env _) as [content | e]; [|reflexivity].
    unfold Server.saveBinaryFile, extension_of.
    destruct (fs_failure env _) as [e |]; reflexivity.
  - unfold bind, lift, ret. rewrite (get_prop_opt _ _ Hn).
    fold (text_of chunk). destruct (truthy (text_of chunk)); reflexivity.
Qed.

Lemma server_loop_body_throws (base : string) (chunk : value) (st : LoopState)
      (w : World) :
  guard_reads chunk = false ->
  exists e, Server.loop_body env base chunk st w = (Throw e, w).
Proof.
  intros Hg. unfold Server.loop_body, bind at 1.
  destruct (lacks_parts_throws chunk w Hg) as [e ->]. eauto.
Qed.
End Disk.

Section DiskResponse.
Context (env : Env).

Lemma expected_server_app (base : string) (es1 es2 : list Emission) :
  forall t i,
    expected_server env base (es1 ++ es2) t i =
    (expected_server env base es1 t i
       ++ expected_server env base es2 (t + images_in es1)
            (i + Z.of_nat (images_in es1)))%list.
Proof.
  unfold images_in.
  induction es1 as [|[d | x] es1 IH]; intros t i; simpl.
  - now rewrite Nat.add_0_r, Z.add_0_r.
  - rewrite IH. do 3 f_equal; lia.
  - now rewrite IH.
Qed.

(** Whenever the loop of the server returns, it has appended the expected
    results of the chunks' emissions, in order. *)
Lemma server_for_await_returns (base : string) (cs : list value) :
  forall st w st' w',
    Server.for_await env base cs st w = (Ok st', w') ->
    results st' = (results st
                     ++ expected_server env base (emissions cs) (ticks w)
                          (fileIndex st))%list
    /\ ticks w' = ticks w + images_in (emissions cs)
    /\ calls w' = calls w.
Proof.
  induction cs as [|c cs IH]; intros st w st' w' H.
  - simpl in H. unfold ret in H. injection H as <- <-.
    simpl. rewrite app_nil_r. change (images_in []) with 0. auto.
  - cbn [Server.for_await] in H. unfold bind in H.
    destruct (guard_reads c) eqn:Hc.
    2:{ destruct (server_loop_body_throws env base c st w Hc) as [e He].
        rewrite He in H. discriminate. }
    rewrite (server_loop_body_reads env _ _ _ _ Hc) in H.
    rewrite emissions_cons, expected_server_app, images_in_app.
    destruct (emission c) as [[d | x]|].
    + cbv zeta in H.
      destruct (Buffer_from_base64 env _) as [content | e]; [|discriminate].
      destruct (fs_failure env _) as [e |]; [discriminate|].
      apply IH in H. cbn [results fileIndex] in H.
      destruct H as (Hr & Ht & Hk).
      change (images_in [EmitImage d]) with 1.
      change (ticks (saved (file_name base (clock env (ticks w)) (fileIndex st)
                              (extension_of env d)) content (tick 1 w)))
        with (ticks w + 1) in Hr, Ht.
      rewrite Hr, Ht, Hk, <- app_assoc. change (Z.of_nat 1) with 1%Z.
      repeat split. lia.
    + apply IH in H. cbn [results fileIndex] in H.
      destruct H as (Hr & Ht & Hk).
      change (images_in [EmitText x]) with 0.
      rewrite Hr, Ht, Hk, <- app_assoc, Nat.add_0_r, Z.add_0_r. auto.
    + apply IH in H. destruct H as (Hr & Ht & Hk).
      change (images_in []) with 0.
      rewrite Hr, Ht, Hk, Nat.add_0_r, Z.add_0_r. auto.
Qed.

Lemma server_processAIResponse_returns (base : string) (s : Stream) (w w' : World)
      (rs : list value) :
  Server.processAIResponse env s base w = (Ok rs, w') ->
  rs = expected_server env base (emissions (chunks s)) (ticks w) 0
  /\ calls w' = calls w.
Proof.
  unfold Server.processAIResponse, bind. intros H.
  destruct (Server.for_await env base (chunks s) (mkLoop [] 0) w)
    as [[st | e] w1] eqn:E; [|discriminate].
  apply server_for_await_returns in E. destruct E as (Hr & _ & Hk).
  destruct (failure s); [discriminate|].
  unfold ret in H. injection H as <- <-. auto.
Qed.

Lemma server_loop_body_calls (base : string) (c : value) (st : LoopState) (w : World) :
  calls (snd (Server.loop_body env base c st w)) = calls w.
Proof.
  destruct (guard_reads c) eqn:Hc.
  - rewrite (server_loop_body_reads env _ _ _ _ Hc).
    destruct (emission c) as [[d | x]|]; try reflexivity.
    cbv zeta. destruct (Buffer_from_base64 env _); [|reflexivity].
    destruct (fs_failure env _); reflexivity.
  - destruct (server_loop_body_throws env base c st w Hc) as [e ->]. reflexivity.
Qed.

Lemma server_for_await_calls (base : string) (cs : list value) :
  forall st w, calls (snd (Server.for_await env base cs st w)) = calls w.
Proof.
  induction cs as [|c cs IH]; intros st w; simpl; [reflexivity|].
  unfold bind. pose proof (server_loop_body_calls base c st w) as H.
  destruct (Server.loop_body env base c st w) as [[st' | e] w1]; simpl in *.
  - now rewrite IH.
  - exact H.
Qed.

Lemma server_processAIResponse_calls (base : string) (s : Stream) (w : World) :
  calls (snd (Server.processAIResponse env s base w)) = calls w.
Proof.
  unfold Server.processAIResponse, bind.
  pose proof (server_for_await_calls base (chunks s) (mkLoop [] 0) w) as H.
  destruct (Server.for_await env base (chunks s) (mkLoop [] 0) w)
    as [[st | e] w1]; simpl in *; [|exact H].
  destruct (failure s); exact H.
Qed.

(** When decoding and writing never fail, the loop of the server returns. *)
Lemma server_for_await_works (base : string) (cs : list value) :
  (forall v, exists content, Buffer_from_base64 env v = Ok content) ->
  (forall name, fs_failure env name = None) ->
  forall st w,
    forallb guard_reads cs = true ->
    exists st' w', Server.for_await env base cs st w = (Ok st', w').
Proof.
  intros Hb Hf.
  induction cs as [|c cs IH]; intros st w H.
  - simpl. unfold ret. eauto.
  - cbn [forallb] in H. apply andb_true_iff in H as [Hc H].
    cbn [Server.for_await]. unfold bind.
    rewrite (server_loop_body_reads env _ _ _ _ Hc).
    destruct (emission c) as [[d | x]|]; auto.
    cbv zeta. destruct (Hb (js_or (opt_prop d "data") (VStr ""))) as [content ->].
    rewrite Hf. auto.
Qed.

Lemma server_processAIResponse_works (base : string) (cs : list value) (w : World) :
  (forall v, exists content, Buffer_from_base64 env v = Ok content) ->
  (forall name, fs_failure env name = None) ->
  forallb guard_reads cs = true ->
  exists w',
    Server.processAIResponse env (mkStream cs None) base w =
      (Ok (expected_server env base (emissions cs) (ticks w) 0), w').
Proof.
  intros Hb Hf H.
  destruct (server_for_await_works base cs Hb Hf (mkLoop [] 0) w H) as (st' & w' & E).
  exists w'. unfold Server.processAIResponse, bind. simpl. rewrite E.
  apply server_for_await_returns in E. destruct E as (Hr & _). simpl in Hr.
  unfold ret. now rewrite Hr.
Qed.
End DiskResponse.

(** ** The request handlers *)

Ltac run :=
  cbv beta iota zeta delta
    [GenerateImage.handler Server.api_generate_image
     ManipulateImage.handler Server.api_manipulate_image
     try_catch bind lift ret throw parse_body generateContentStream].

Ltac run_in H :=
  cbv beta iota zeta delta
    [GenerateImage.handler Server.api_generate_image
     ManipulateImage.handler Server.api_manipulate_image
     try_catch bind lift ret throw parse_body generateContentStream] in H.

Lemma try_catch_returns {A} (body : M A) (handler : JsError -> A) (w : World) :
  exists a w', try_catch body (fun e => ret (handler e)) w = (Ok a, w').
Proof.
  unfold try_catch, ret. destruct (body w) as [[a | e] w']; eauto.
Qed.

Section GenerateHandlers.
Context (env : Env).

(** The stateless handler always returns a response. *)
Lemma handler_returns (event : Event) (w : World) :
  exists response w', GenerateImage.handler env event w = (Ok response, w').
Proof.
  unfold GenerateImage.handler.
  destruct (httpMethod event =? "OPTIONS"); [unfold ret; eauto|].
  destruct (negb (httpMethod event =? "POST")); [unfold ret; eauto|].
  apply try_catch_returns.
Qed.

Lemma api_generate_image_returns (req : Server.Request) (w : World) :
  exists response w', Server.api_generate_image env req w = (Ok response, w').
Proof. apply try_catch_returns. Qed.

(** Either handler calls the model client at most once. *)
Lemma handler_calls (event : Event) (w : World) :
  calls (snd (GenerateImage.handler env event w)) = calls w
  \/ exists request,
      calls (snd (GenerateImage.handler env event w)) = request :: calls w.
Proof.
  run.
  destruct (httpMethod event =? "OPTIONS"); [auto|].
  destruct (negb (httpMethod event =? "POST")); [auto|].
  destruct (body event) as [text|]; [destruct (JSON_parse env text) as [parsed|]|];
    try (destruct (destructure _ "prompt") as [prompt | e]); auto.
  all: try (destruct (negb (truthy prompt)); auto;
            destruct (negb (truthy (env_value (GEMINI_API_KEY env)))); auto;
            right; eexists;
            destruct (model_client env _) as [e | s]; [reflexivity|];
            match goal with
            | |- context [GenerateImage.processAIResponse env s ?b ?w1] =>
                pose proof (processAIResponse_calls env b s w1) as H;
                destruct (GenerateImage.processAIResponse env s b w1) as [[rs | e] w2]
            end; simpl in H |- *; [destruct (_ =? _)%nat|]; exact H).
Qed.

Lemma api_generate_image_calls (req : Server.Request) (w : World) :
  calls (snd (Server.api_generate_image env req w)) = calls w
  \/ exists request,
      calls (snd (Server.api_generate_image env req w)) = request :: calls w.
Proof.
  run.
  destruct (destructure _ "prompt") as [prompt | e]; auto.
  destruct (negb (truthy prompt)); auto.
  destruct (negb (truthy (env_value (GEMINI_API_KEY env)))); auto.
  right; eexists.
  destruct (model_client env _) as [e | s]; [reflexivity|].
  match goal with
  | |- context [Server.processAIResponse env s ?b ?w1] =>
      pose proof (server_processAIResponse_calls env b s w1) as H;
      destruct (Server.processAIResponse env s b w1) as [[rs | e] w2]
  end; simpl in H |- *; [destruct (_ =? _)%nat|]; exact H.
Qed.
End GenerateHandlers.

Section Accepted.
Context (env : Env).

Lemma handler_accepted (event : Event) (prompt : value) (w : World) :
  posted env event prompt -> truthy prompt = true -> configured env ->
  GenerateImage.handler env event w =
    match model_client env (text_request prompt) with
    | Rejected e => (Ok (GenerateImage.on_error e), called (text_request prompt) w)
    | Streaming s =>
        match GenerateImage.processAIResponse env s "text_to_image"
                (called (text_request prompt) w) with
        | (Ok rs, w2) =>
            (Ok (if (List.length rs =? 0)%nat then reply 500 no_content
                 else reply 200 (success prompt [] rs)), w2)
        | (Throw e, w2) => (Ok (GenerateImage.on_error e), w2)
        end
    end.
Proof.
  intros (Hm & text & parsed & Hb & Hp & Hd) Ht Hk. unfold configured in Hk.
  run. rewrite Hm, Hb, Hp, Hd, Ht, Hk. cbn [String.eqb Ascii.eqb Bool.eqb negb].
  fold (text_request prompt). fold (called (text_request prompt) w).
  destruct (model_client env (text_request prompt)) as [e | s]; [reflexivity|].
  destruct (GenerateImage.processAIResponse env s "text_to_image" _) as [[rs | e] w2];
    [|reflexivity].
  destruct (List.length rs =? 0)%nat; reflexivity.
Qed.

Lemma api_generate_image_accepted (req : Server.Request) (prompt : value) (w : World) :
  destructure (Server.req_body req) "prompt" = Ok prompt ->
  truthy prompt = true -> configured env ->
  Server.api_generate_image env req w =
    match model_client env (text_request prompt) with
    | Rejected e =>
        (Ok (Server.on_error "Failed to generate image" e),
         called (text_request prompt) w)
    | Streaming s =>
        match Server.processAIResponse env s "text_to_image"
                (called (text_request prompt) w) with
        | (Ok rs, w2) =>
            (Ok (if (List.length rs =? 0)%nat then Server.respond 500 no_content
                 else Server.respond 200 (success prompt [] rs)), w2)
        | (Throw e, w2) => (Ok (Server.on_error "Failed to generate image" e), w2)
        end
    end.
Proof.
  intros Hd Ht Hk. unfold configured in Hk.
  run. rewrite Hd, Ht, Hk. cbn [negb].
  fold (text_request prompt). fold (called (text_request prompt) w).
  destruct (model_client env (text_request prompt)) as [e | s]; [reflexivity|].
  destruct (Server.processAIResponse env s "text_to_image" _) as [[rs | e] w2];
    [|reflexivity].
  destruct (List.length rs =? 0)%nat; reflexivity.
Qed.
End Accepted.

Section Manipulate.
Context (env : Env).

Lemma manipulate_handler_form (event : Event) (formData : list (string * value))
      (w : World) :
  uploaded env event formData ->
  ManipulateImage.handler env event w =
    let prompt := own "prompt" formData in
    let imageFile := own "image" formData in
    if negb (truthy prompt)
    then (Ok (reply 400 [("error", VStr "Prompt is required")]), w)
    else if negb (truthy imageFile)
    then (Ok (reply 400 [("error", VStr "Image file is required")]), w)
    else if negb (truthy (env_value (GEMINI_API_KEY env)))
    then (Ok (reply 500 [("error", VStr "GEMINI_API_KEY not configured")]), w)
    else
      let request := image_request prompt (opt_prop imageFile "mimeType")
                       (opt_prop imageFile "data") in
      match model_client env request with
      | Rejected e => (Ok (ManipulateImage.on_error e), called request w)
      | Streaming s =>
          match ManipulateImage.processAIResponse env s "image_manipulation"
                  (called request w) with
          | (Ok rs, w2) =>
              (Ok (if (List.length rs =? 0)%nat then reply 500 no_content
                   else reply 200
                          (success prompt
                             [("originalImage",
                               VObj [("mimeType", opt_prop imageFile "mimeType")])]
                             rs)), w2)
          | (Throw e, w2) => (Ok (ManipulateImage.on_error e), w2)
          end
      end.
Proof.
  intros (Hm & ct & boundary & text & Hc & Hi & Hs & Hn & Hb & ->).
  assert (Ht : truthy (VStr ct) = true) by (destruct ct; [discriminate | reflexivity]).
  assert (Hy : truthy (VStr boundary) = true).
  { simpl. apply negb_true_iff, String.eqb_neq, Hn. }
  run. rewrite Hm, Hc, Ht. cbn [String.eqb Ascii.eqb Bool.eqb negb orb String_of].
  rewrite Hi, Hs. cbn [negb env_value String_of]. rewrite Hy, Hb. cbn [negb].
  destruct (negb (truthy (own "prompt" _))); [reflexivity|].
  destruct (truthy (own "image" _)) eqn:Hf; [|reflexivity]. cbn [negb].
  destruct (negb (truthy (env_value (GEMINI_API_KEY env)))); [reflexivity|].
  rewrite !(get_prop_opt _ _ (truthy_not_nullish _ Hf)).
  unfold image_request, called.
  destruct (model_client env _) as [e | s]; [reflexivity|].
  destruct (ManipulateImage.processAIResponse env s "image_manipulation" _)
    as [[rs | e] w2]; [|reflexivity].
  destruct (List.length rs =? 0)%nat; reflexivity.
Qed.

Lemma api_manipulate_image_without_file (req : Server.Request) (prompt : value)
      (w : World) :
  destructure (Server.req_body req) "prompt" = Ok prompt ->
  truthy prompt = true ->
  Server.req_file req = None ->
  Server.api_manipulate_image env req w
  = (Ok (Server.respond 400 [("error", VStr "Image file is required")]), w).
Proof. intros Hd Ht Hf. run. rewrite Hd, Ht, Hf. reflexivity. Qed.

Lemma api_manipulate_image_accepted (req : Server.Request) (prompt : value)
      (f : Server.UploadedFile) (w : World) :
  destructure (Server.req_body req) "prompt" = Ok prompt ->
  truthy prompt = true ->
  Server.req_file req = Some f ->
  configured env ->
  Server.api_manipulate_image env req w =
    let request := file_request env prompt f in
    match model_client env request with
    | Rejected e =>
        (Ok (Server.on_error "Failed to manipulate image" e), called request w)
    | Streaming s =>
        match Server.processAIResponse env s "image_manipulation"
                (called request w) with
        | (Ok rs, w2) =>
            (Ok (if (List.length rs =? 0)%nat then Server.respond 500 no_content
                 else Server.respond 200 (success prompt (original f) rs)), w2)
        | (Throw e, w2) => (Ok (Server.on_error "Failed to manipulate image" e), w2)
        end
    end.
Proof.
  intros Hd Ht Hf Hk. unfold configured in Hk.
  run. rewrite Hd, Ht, Hf, Hk. cbn [negb].
  unfold file_request, image_request, called. cbv zeta.
  destruct (model_client env _) as [e | s]; [reflexivity|].
  destruct (Server.processAIResponse env s "image_manipulation" _)
    as [[rs | e] w2]; [|reflexivity].
  destruct (List.length rs =? 0)%nat; reflexivity.
Qed.
End Manipulate.

(** ** Chunks of one kind *)







Section Kinds.
Context (env : Env).


Lemma expected_server_texts (base : string) (cs : list value) (t : nat) (i : Z) :
  expected_server env base (map text_emission cs) t i
  = map (fun c => Server.text_result (text_of c)) cs.
Proof. induction cs as [|c cs IH]; simpl; congruence. Qed.



End Kinds.

(** ** The results of [processAIResponse] *)



(** C1 (the code departs from the claim).  A chunk whose [candidates] field is
    an empty array is not skipped: the guard of the loop reads [content] of
    [undefined], so [processAIResponse] throws a [TypeError] in both
    deployments, whatever chunks follow, and returns no result list. *)
Theorem empty_candidates_throws :
  forall (env : Env) (base : string) (rest : list value) (fl : option JsError)
         (w : World),
    GenerateImage.processAIResponse env
        (mkStream (empty_candidates_chunk :: rest) fl) base w
    = (Throw (TypeError "Cannot read properties of undefined (reading 'content')"), w)
    /\ Server.processAIResponse env
        (mkStream (empty_candidates_chunk :: rest) fl) base w
    = (Throw (TypeError "Cannot read properties of undefined (reading 'content')"), w).
Proof. intros. split; reflexivity. Qed.

(** For the handler the stream is lost: it answers 500 with the message of
    the [TypeError]. *)
Lemma empty_candidates_answer_500 (env : Env) (event : Event) (prompt : value)
      (rest : list value) (fl : option JsError) (w : World) :
  posted env event prompt -> truthy prompt = true -> configured env ->
  model_client env (text_request prompt)
  = Streaming (mkStream (empty_candidates_chunk :: rest) fl) ->
  GenerateImage.handler env event w
  = (Ok (mkResponse 500 json_headers
           (Document
              (JObj [("error", JStr "Failed to generate image");
                     ("details",
                      JStr "Cannot read properties of undefined (reading 'content')")]))),
     called (text_request prompt) w).
Proof.
  intros Hp Ht Hk Hc.
  now rewrite (handler_accepted env event prompt w Hp Ht Hk), Hc.
Qed.

(** What holds of the guard: a chunk without a candidates/content/parts path
    whose guard reads nothing of [undefined] adds nothing and leaves the
    results of the other chunks as they are. *)
Lemma chunk_without_path_skipped (env : Env) (base : string)
      (before after : list value) (c : value) (w : World) :
  forallb guard_reads (before ++ c :: after) = true ->
  has_path c = false ->
  GenerateImage.processAIResponse env (mkStream (before ++ c :: after) None) base w
  = GenerateImage.processAIResponse env (mkStream (before ++ after) None) base w.
Proof.
  intros H Hp.
  assert (H' : forallb guard_reads (before ++ after) = true).
  { rewrite forallb_app in *. cbn [forallb] in H.
    apply andb_true_iff in H as [-> H]. now apply andb_true_iff in H as [_ ->]. }
  rewrite !processAIResponse_reads by assumption.
  assert (E : emissions (before ++ c :: after) = emissions (before ++ after)).
  { unfold emissions. rewrite !flat_map_app. cbn [flat_map].
    unfold emission, is_image_chunk, is_text_chunk. now rewrite Hp. }
  now rewrite E.
Qed.


Section Saving.
Context (env : Env).


End Saving.



(** ** File names *)

Section Extensions.
Context (env : Env).

(** The result of one image chunk. *)
Lemma image_chunk_result (base : string) (data mimeType : value) (w : World) :
  GenerateImage.processAIResponse env (mkStream [image_chunk data mimeType] None)
    base w
  = (Ok [GenerateImage.image_result data mimeType
           (file_name base (clock env (ticks w)) 0
              (template_ext (mime_getExtension env
                               (js_or mimeType (VStr "image/png")))))],
     tick 1 w).
Proof.
  rewrite processAIResponse_reads by reflexivity. reflexivity.
Qed.

(** An absent (or empty) media type takes the extension of [image/png]. *)
Lemma absent_media_type_extension (base : string) (data mimeType : value) (w : World) :
  truthy mimeType = false ->
  GenerateImage.processAIResponse env (mkStream [image_chunk data mimeType] None)
    base w
  = (Ok [GenerateImage.image_result data mimeType
           (file_name base (clock env (ticks w)) 0
              (template_ext (mime_getExtension env (VStr "image/png"))))],
     tick 1 w).
Proof. intros H. rewrite image_chunk_result. unfold js_or. now rewrite H. Qed.

(** A media type that [mime] knows gives its extension. *)
Lemma known_media_type_extension (base : string) (data mimeType : value)
      (ext : string) (w : World) :
  truthy mimeType = true ->
  mime_getExtension env mimeType = Some ext ->
  GenerateImage.processAIResponse env (mkStream [image_chunk data mimeType] None)
    base w
  = (Ok [GenerateImage.image_result data mimeType
           (file_name base (clock env (ticks w)) 0 ext)],
     tick 1 w).
Proof.
  intros H E. rewrite image_chunk_result. unfold js_or. now rewrite H, E.
Qed.
End Extensions.

(** C3 (the code departs from the claim).  When the declared media type is
    one that [mime.getExtension] does not know, the file name ends in [.null],
    not in [.png]: the default [image/png] is taken for an absent media type
    only. *)
Theorem unknown_media_type_gives_null :
  forall (env : Env) (base : string) (data mimeType : value) (w : World),
    truthy mimeType = true ->
    mime_getExtension env mimeType = None ->
    GenerateImage.processAIResponse env (mkStream [image_chunk data mimeType] None)
      base w
    = (Ok [GenerateImage.image_result data mimeType
             (file_name base (clock env (ticks w)) 0 "null")],
       tick 1 w).
Proof.
  intros env base data mimeType w H E.
  rewrite image_chunk_result. unfold js_or. now rewrite H, E.
Qed.

Lemma unknown_media_type_gives_null_witness :
  GenerateImage.processAIResponse (sample_env None offline)
    (mkStream [image_chunk (VStr "AAAA") (VStr "image/x-unknown")] None)
    "text_to_image" initial
  = (Ok [GenerateImage.image_result (VStr "AAAA") (VStr "image/x-unknown")
           "text_to_image_1700000000000_0.null"],
     tick 1 initial).
Proof.
  apply (unknown_media_type_gives_null (sample_env None offline) "text_to_image"
           (VStr "AAAA") (VStr "image/x-unknown") initial); reflexivity.
Defined.



(** ** The handlers of /generate-image *)

Lemma strict_eq_num_spec (v : value) (n : Z) :
  strict_eq_num v n = true <-> v = VNum n.
Proof.
  destruct v; simpl; split; try discriminate.
  - intros H. apply Z.eqb_eq in H. now subst.
  - intros [= ->]. apply Z.eqb_refl.
Qed.

Lemma on_error_status (e : JsError) :
  statusCode (GenerateImage.on_error e) = mapped_status e
  /\ statusCode (ManipulateImage.on_error e) = mapped_status e
  /\ forall what, Server.status (Server.on_error what e) = mapped_status e.
Proof.
  unfold GenerateImage.on_error, ManipulateImage.on_error, Server.on_error,
    mapped_status.
  destruct (err_status e) as [| | b | z | s | l | ps]; simpl; auto.
  destruct (Z.eqb_spec z 429) as [-> | H1]; [auto|].
  destruct (Z.eqb_spec z 401) as [-> | H2]; [auto|].
  destruct (Z.eqb_spec z 400) as [-> | H3]; [auto|].
  destruct z as [| p | p]; auto.
  do 9 (destruct p as [p | p |]; auto); congruence.
Qed.

Lemma mapped_status_not_200 (e : JsError) : mapped_status e <> 200%Z.
Proof.
  unfold mapped_status.
  destruct (err_status e) as [| | b | z | s | l | ps]; try discriminate.
  destruct z as [| p | p]; try discriminate.
  do 9 (destruct p as [p | p |]; try discriminate).
Qed.

(** A failure of the stream that follows readable chunks is what the
    stateless [processAIResponse] throws. *)
Lemma stream_failure_thrown (env : Env) (base : string) (cs : list value)
      (e : JsError) (w : World) :
  forallb guard_reads cs = true ->
  GenerateImage.processAIResponse env (mkStream cs (Some e)) base w
  = (Throw e, tick (images_in (emissions cs)) w).
Proof.
  intros H. unfold GenerateImage.processAIResponse, bind. cbn [chunks failure].
  now rewrite (for_await_reads env base cs _ _ H).
Qed.

(** C5.  An empty chunk sequence gives an empty result list, and whenever
    [processAIResponse] returns the empty list the handler answers 500 with
    the message [No content generated], in both deployments. *)
Theorem empty_results_answer_500 :
  (forall (env : Env) (base : string) (w : World),
      GenerateImage.processAIResponse env (mkStream [] None) base w = (Ok [], w)
      /\ Server.processAIResponse env (mkStream [] None) base w = (Ok [], w))
  /\ (forall (env : Env) (event : Event) (prompt : value) (s : Stream) (w w2 : World),
         posted env event prompt -> truthy prompt = true -> configured env ->
         model_client env (text_request prompt) = Streaming s ->
         GenerateImage.processAIResponse env s "text_to_image"
           (called (text_request prompt) w) = (Ok [], w2) ->
         GenerateImage.handler env event w
         = (Ok (mkResponse 500 json_headers (error_body "No content generated")), w2))
  /\ (forall (env : Env) (req : Server.Request) (prompt : value) (s : Stream)
             (w w2 : World),
         destructure (Server.req_body req) "prompt" = Ok prompt ->
         truthy prompt = true -> configured env ->
         model_client env (text_request prompt) = Streaming s ->
         Server.processAIResponse env s "text_to_image"
           (called (text_request prompt) w) = (Ok [], w2) ->
         Server.api_generate_image env req w
         = (Ok (Server.mkReply 500 (error_body "No content generated")), w2)).
Proof.
  repeat split.
  - intros env event prompt s w w2 Hp Ht Hk Hc Hr.
    now rewrite (handler_accepted env event prompt w Hp Ht Hk), Hc, Hr.
  - intros env req prompt s w w2 Hp Ht Hk Hc Hr.
    now rewrite (api_generate_image_accepted env req prompt w Hp Ht Hk), Hc, Hr.
Qed.

Lemma red_circle_posted (key : option string) (answer : ModelReply) :
  posted (sample_env key answer) red_circle_event (VStr "a red circle").
Proof.
  split; [reflexivity|].
  exists red_circle_json, (VObj [("prompt", VStr "a red circle")]).
  repeat split; reflexivity.
Defined.

Lemma empty_results_answer_500_witness :
  GenerateImage.handler (sample_env (Some "key") (Streaming (mkStream [] None)))
    red_circle_event initial
  = (Ok (mkResponse 500 json_headers (error_body "No content generated")),
     called (text_request (VStr "a red circle")) initial)
  /\ Server.api_generate_image (sample_env (Some "key") (Streaming (mkStream [] None)))
       red_circle_request initial
     = (Ok (Server.mkReply 500 (error_body "No content generated")),
        called (text_request (VStr "a red circle")) initial).
Proof.
  split.
  - apply (proj1 (proj2 empty_results_answer_500)
             (sample_env (Some "key") (Streaming (mkStream [] None)))
             red_circle_event (VStr "a red circle") (mkStream [] None) initial).
    + apply red_circle_posted.
    + reflexivity.
    + reflexivity.
    + reflexivity.
    + reflexivity.
  - apply (proj2 (proj2 empty_results_answer_500)
             (sample_env (Some "key") (Streaming (mkStream [] None)))
             red_circle_request (VStr "a red circle") (mkStream [] None) initial);
      reflexivity.
Defined.

Lemma at_most_one_call_of_snd {A} (w : World) (r : outcome A * World) (a : outcome A)
      (w' : World) :
  (calls (snd r) = calls w \/ exists request, calls (snd r) = request :: calls w) ->
  r = (a, w') -> at_most_one_call w w'.
Proof. intros H ->. exact H. Qed.

(** C6.  A failure of the model client, whether the call is rejected or the
    normaliser throws while reading the stream, is answered with the status
    mapped from [error.status]: 429 with the hint to retry later, 401, 400
    with the message of the failure, 500 otherwise.  Either handler always
    returns a response and calls the model client at most once. *)
Theorem upstream_failures_mapped :
  (forall (env : Env) (event : Event) (prompt : value) (e : JsError) (w : World),
      posted env event prompt -> truthy prompt = true -> configured env ->
      model_client env (text_request prompt) = Rejected e ->
      GenerateImage.handler env event w
      = (Ok (GenerateImage.on_error e), called (text_request prompt) w))
  /\ (forall (env : Env) (event : Event) (prompt : value) (s : Stream) (e : JsError)
             (w w2 : World),
         posted env event prompt -> truthy prompt = true -> configured env ->
         model_client env (text_request prompt) = Streaming s ->
         GenerateImage.processAIResponse env s "text_to_image"
           (called (text_request prompt) w) = (Throw e, w2) ->
         GenerateImage.handler env event w = (Ok (GenerateImage.on_error e), w2))
  /\ (forall (env : Env) (req : Server.Request) (prompt : value) (e : JsError)
             (w : World),
         destructure (Server.req_body req) "prompt" = Ok prompt ->
         truthy prompt = true -> configured env ->
         model_client env (text_request prompt) = Rejected e ->
         Server.api_generate_image env req w
         = (Ok (Server.on_error "Failed to generate image" e),
            called (text_request prompt) w))
  /\ (forall (env : Env) (req : Server.Request) (prompt : value) (s : Stream)
             (e : JsError) (w w2 : World),
         destructure (Server.req_body req) "prompt" = Ok prompt ->
         truthy prompt = true -> configured env ->
         model_client env (text_request prompt) = Streaming s ->
         Server.processAIResponse env s "text_to_image"
           (called (text_request prompt) w) = (Throw e, w2) ->
         Server.api_generate_image env req w
         = (Ok (Server.on_error "Failed to generate image" e), w2))
  /\ (forall e : JsError,
         statusCode (GenerateImage.on_error e) = mapped_status e
         /\ Server.status (Server.on_error "Failed to generate image" e)
            = mapped_status e)
  /\ (forall e : JsError,
         err_status e = VNum 429 ->
         response_body (GenerateImage.on_error e) = rate_limit_body
         /\ Server.sent (Server.on_error "Failed to generate image" e)
            = rate_limit_body)
  /\ (forall (e : JsError) (message : string),
         err_status e = VNum 400 -> err_message e = VStr message -> message <> "" ->
         response_body (GenerateImage.on_error e)
         = Document (JObj [("error", JStr "Invalid request");
                           ("details", JStr message)])
         /\ Server.sent (Server.on_error "Failed to generate image" e)
            = Document (JObj [("error", JStr "Invalid request");
                              ("details", JStr message)]))
  /\ (forall (env : Env) (event : Event) (w : World),
         exists response w',
           GenerateImage.handler env event w = (Ok response, w')
           /\ at_most_one_call w w')
  /\ (forall (env : Env) (req : Server.Request) (w : World),
         exists response w',
           Server.api_generate_image env req w = (Ok response, w')
           /\ at_most_one_call w w').
Proof.
  split; [|split; [|split; [|split; [|split; [|split; [|split; [|split]]]]]]].
  - intros env event prompt e w Hp Ht Hk Hc.
    now rewrite (handler_accepted env event prompt w Hp Ht Hk), Hc.
  - intros env event prompt s e w w2 Hp Ht Hk Hc Hr.
    now rewrite (handler_accepted env event prompt w Hp Ht Hk), Hc, Hr.
  - intros env req prompt e w Hp Ht Hk Hc.
    now rewrite (api_generate_image_accepted env req prompt w Hp Ht Hk), Hc.
  - intros env req prompt s e w w2 Hp Ht Hk Hc Hr.
    now rewrite (api_generate_image_accepted env req prompt w Hp Ht Hk), Hc, Hr.
  - intros e. destruct (on_error_status e) as (H1 & _ & H3). auto.
  - intros e H. unfold GenerateImage.on_error, Server.on_error. rewrite H.
    split; reflexivity.
  - intros e message Hs Hm Hn.
    unfold GenerateImage.on_error, Server.on_error. rewrite Hs, Hm.
    apply String.eqb_neq in Hn.
    split; cbn; unfold js_or; cbn; rewrite Hn; reflexivity.
  - intros env event w.
    destruct (handler_returns env event w) as (response & w' & E).
    exists response, w'. split; [exact E|].
    exact (at_most_one_call_of_snd w _ _ _ (handler_calls env event w) E).
  - intros env req w.
    destruct (api_generate_image_returns env req w) as (response & w' & E).
    exists response, w'. split; [exact E|].
    exact (at_most_one_call_of_snd w _ _ _ (api_generate_image_calls env req w) E).
Qed.

Lemma upstream_failures_mapped_witness :
  GenerateImage.handler (sample_env (Some "key") (Rejected rate_limited))
    red_circle_event initial
  = (Ok (mkResponse 429 json_headers rate_limit_body),
     called (text_request (VStr "a red circle")) initial)
  /\ Server.api_generate_image
       (sample_env (Some "key") (Streaming (mkStream [text_chunk "a"] (Some bad_request))))
       red_circle_request initial
     = (Ok (Server.mkReply 400
              (Document (JObj [("error", JStr "Invalid request");
                               ("details", JStr "prompt too long")]))),
        called (text_request (VStr "a red circle")) initial)
  /\ response_body (GenerateImage.on_error bad_request)
     = Document (JObj [("error", JStr "Invalid request");
                       ("details", JStr "prompt too long")]).
Proof.
  split; [|split].
  - apply (proj1 upstream_failures_mapped
             (sample_env (Some "key") (Rejected rate_limited))
             red_circle_event (VStr "a red circle") rate_limited initial).
    + apply red_circle_posted.
    + reflexivity.
    + reflexivity.
    + reflexivity.
  - apply (proj1 (proj2 (proj2 (proj2 upstream_failures_mapped)))
             (sample_env (Some "key")
                (Streaming (mkStream [text_chunk "a"] (Some bad_request))))
             red_circle_request (VStr "a red circle")
             (mkStream [text_chunk "a"] (Some bad_request)) bad_request initial);
      reflexivity.
  - destruct (proj1 (proj2 (proj2 (proj2 (proj2 (proj2 (proj2
                upstream_failures_mapped))))))
                bad_request "prompt too long") as [H _];
      [reflexivity | reflexivity | discriminate | exact H].
Defined.

(** C7.  A POST whose body lacks [prompt] is answered 400, and one with a
    prompt while [GEMINI_API_KEY] is unset is answered 500; in both cases the
    world is left as it was: the model client is not called. *)
Theorem missing_prompt_or_key :
  (forall (env : Env) (event : Event) (text : string) (props : list (string * value))
          (w : World),
      httpMethod event = "POST" ->
      body event = Some text ->
      JSON_parse env text = Some (VObj props) ->
      lookup "prompt" props = None ->
      GenerateImage.handler env event w
      = (Ok (mkResponse 400 json_headers (error_body "Prompt is required")), w))
  /\ (forall (env : Env) (event : Event) (prompt : value) (w : World),
         posted env event prompt -> truthy prompt = true ->
         GEMINI_API_KEY env = None ->
         GenerateImage.handler env event w
         = (Ok (mkResponse 500 json_headers (error_body "GEMINI_API_KEY not configured")),
            w))
  /\ (forall (env : Env) (req : Server.Request) (props : list (string * value))
             (w : World),
         Server.req_body req = VObj props ->
         lookup "prompt" props = None ->
         Server.api_generate_image env req w
         = (Ok (Server.mkReply 400 (error_body "Prompt is required")), w))
  /\ (forall (env : Env) (req : Server.Request) (prompt : value) (w : World),
         destructure (Server.req_body req) "prompt" = Ok prompt ->
         truthy prompt = true ->
         GEMINI_API_KEY env = None ->
         Server.api_generate_image env req w
         = (Ok (Server.mkReply 500 (error_body "GEMINI_API_KEY not configured")), w)).
Proof.
  split; [|split; [|split]].
  - intros env event text props w Hm Hb Hp Hl.
    run. rewrite Hm, Hb, Hp. cbn. unfold own. rewrite Hl. reflexivity.
  - intros env event prompt w (Hm & text & parsed & Hb & Hp & Hd) Ht Hk.
    run. rewrite Hm, Hb, Hp, Hd, Ht, Hk. reflexivity.
  - intros env req props w Hb Hl.
    run. rewrite Hb. cbn. unfold own. rewrite Hl. reflexivity.
  - intros env req prompt w Hd Ht Hk.
    run. rewrite Hd, Ht, Hk. reflexivity.
Qed.

Lemma missing_prompt_or_key_witness :
  GenerateImage.handler (sample_env (Some "key") offline)
    (mkEvent "POST" [] (Some "{}")) initial
  = (Ok (mkResponse 400 json_headers (error_body "Prompt is required")), initial)
  /\ GenerateImage.handler (sample_env None offline) red_circle_event initial
     = (Ok (mkResponse 500 json_headers (error_body "GEMINI_API_KEY not configured")),
        initial)
  /\ Server.api_generate_image (sample_env (Some "key") offline)
       (Server.mkRequest (VObj []) None) initial
     = (Ok (Server.mkReply 400 (error_body "Prompt is required")), initial)
  /\ Server.api_generate_image (sample_env None offline) red_circle_request initial
     = (Ok (Server.mkReply 500 (error_body "GEMINI_API_KEY not configured")), initial).
Proof.
  split; [|split; [|split]].
  - apply (proj1 missing_prompt_or_key (sample_env (Some "key") offline)
             (mkEvent "POST" [] (Some "{}")) "{}" [] initial); reflexivity.
  - apply (proj1 (proj2 missing_prompt_or_key) (sample_env None offline)
             red_circle_event (VStr "a red circle") initial).
    + apply red_circle_posted.
    + reflexivity.
    + reflexivity.
  - apply (proj1 (proj2 (proj2 missing_prompt_or_key)) (sample_env (Some "key") offline)
             (Server.mkRequest (VObj []) None) [] initial); reflexivity.
  - apply (proj2 (proj2 (proj2 missing_prompt_or_key)) (sample_env None offline)
             red_circle_request (VStr "a red circle") initial); reflexivity.
Defined.

(** ** The handlers of /manipulate-image *)

Lemma lookup_set_own_other (k k' : string) (v : value) (ps : list (string * value)) :
  k' <> k -> lookup k' (set_own k v ps) = lookup k' ps.
Proof.
  intros Hn. induction ps as [|[k0 v0] ps IH]; cbn [set_own lookup].
  - destruct (String.eqb_spec k' k); [contradiction | reflexivity].
  - destruct (String.eqb_spec k k0) as [-> | Hk]; cbn [lookup].
    + destruct (String.eqb_spec k' k0); [contradiction | reflexivity].
    + destruct (k' =? k0); [reflexivity | exact IH].
Qed.


Lemma own_assign_other (k k' : string) (v : value) (ps : list (string * value)) :
  k' <> k -> own k' (assign k v ps) = own k' ps.
Proof.
  intros Hn. unfold own, assign. destruct (k =? "__proto__"); [reflexivity|].
  now rewrite lookup_set_own_other.
Qed.


Section Multipart.
Context (env : Env).

Lemma parse_part_keeps_image (part : string) (formData : list (string * value)) :
  ManipulateImage.match_name part <> Some "image" ->
  own "image" (ManipulateImage.parse_part env part formData) = own "image" formData.
Proof.
  intros H. unfold ManipulateImage.parse_part.
  destruct (includes "Content-Disposition" part); [|reflexivity].
  destruct (ManipulateImage.match_name part) as [fieldName|]; [|reflexivity].
  destruct (String.eqb_spec fieldName "image") as [-> | Hn]; [congruence|].
  destruct (_ && _); [|reflexivity].
  apply own_assign_other. congruence.
Qed.

(** A body none of whose parts is named [image] gives no [formData.image]. *)
Lemma parse_without_image_part (text boundary : string) :
  Forall (fun part => ManipulateImage.match_name part <> Some "image")
         (split ("--" ++ boundary) text) ->
  own "image" (ManipulateImage.parseMultipartFormData env text boundary) = VUndefined.
Proof.
  unfold ManipulateImage.parseMultipartFormData.
  assert (G : forall parts formData,
             Forall (fun part => ManipulateImage.match_name part <> Some "image") parts ->
             own "image"
               (fold_left (fun fd part => ManipulateImage.parse_part env part fd)
                          parts formData)
             = own "image" formData).
  { induction parts as [|part parts IH]; intros formData F; [reflexivity|].
    inversion F as [|? ? Hp Hr]; subst. simpl.
    now rewrite (IH _ Hr), (parse_part_keeps_image _ _ Hp). }
  intros F. now rewrite (G _ _ F).
Qed.
End Multipart.

(** C9.  A multipart request whose form data holds a prompt and no image is
    answered 400 with [{error: "Image file is required"}], in both
    deployments; the world is left as it was: the model client is not
    called. *)
Theorem manipulate_without_image :
  (forall (env : Env) (event : Event) (formData : list (string * value)) (w : World),
      uploaded env event formData ->
      truthy (own "prompt" formData) = true ->
      own "image" formData = VUndefined ->
      ManipulateImage.handler env event w
      = (Ok (mkResponse 400 json_headers (error_body "Image file is required")), w))
  /\ (forall (env : Env) (req : Server.Request) (prompt : value) (w : World),
         destructure (Server.req_body req) "prompt" = Ok prompt ->
         truthy prompt = true ->
         Server.req_file req = None ->
         Server.api_manipulate_image env req w
         = (Ok (Server.mkReply 400 (error_body "Image file is required")), w)).
Proof.
  split.
  - intros env event formData w Hu Hp Hi.
    rewrite (manipulate_handler_form env event formData w Hu).
    cbv zeta. now rewrite Hp, Hi.
  - intros env req prompt w Hd Ht Hf.
    now rewrite (api_manipulate_image_without_file env req prompt w Hd Ht Hf).
Qed.

Lemma form_uploaded (env : Env) (text : string) :
  uploaded env (form_event text) (ManipulateImage.parseMultipartFormData env text "XX").
Proof.
  split; [reflexivity|].
  exists "multipart/form-data; boundary=XX", "XX", text.
  repeat split; try reflexivity. discriminate.
Defined.

Lemma manipulate_without_image_witness :
  ManipulateImage.handler (sample_env (Some "key") offline)
    (form_event prompt_only_form) initial
  = (Ok (mkResponse 400 json_headers (error_body "Image file is required")), initial)
  /\ Server.api_manipulate_image (sample_env (Some "key") offline)
       (Server.mkRequest (VObj [("prompt", VStr "make it blue")]) None) initial
     = (Ok (Server.mkReply 400 (error_body "Image file is required")), initial).
Proof.
  split.
  - apply (proj1 manipulate_without_image (sample_env (Some "key") offline)
             (form_event prompt_only_form)
             (ManipulateImage.parseMultipartFormData (sample_env (Some "key") offline)
                prompt_only_form "XX") initial).
    + apply form_uploaded.
    + reflexivity.
    + reflexivity.
  - apply (proj2 manipulate_without_image (sample_env (Some "key") offline)
             (Server.mkRequest (VObj [("prompt", VStr "make it blue")]) None)
             (VStr "make it blue") initial); reflexivity.
Defined.

Lemma calls_after {A} (w1 : World) (r : outcome A * World) (a : outcome A) (w2 : World) :
  calls (snd r) = calls w1 -> r = (a, w2) -> calls w2 = calls w1.
Proof. now intros H ->. Qed.

(** C10.  For a /manipulate-image request with prompt [p] that passes the
    checks, the request handed to the model client carries, as the text of
    the first part of its one content, ["Based on the uploaded image, "]
    followed by [p], before the part with the image; and the prompt in a
    success body is [p] itself, in both deployments. *)
Theorem manipulate_prompt_prefixed :
  (forall (env : Env) (event : Event) (formData : list (string * value)) (p : string)
          (w : World),
      uploaded env event formData ->
      own "prompt" formData = VStr p -> p <> "" ->
      truthy (own "image" formData) = true ->
      configured env ->
      exists response w',
        ManipulateImage.handler env event w = (Ok response, w')
        /\ calls w'
           = VObj [("model", VStr "gemini-2.5-flash-image-preview");
                   ("config",
                    VObj [("responseModalities", VArr [VStr "IMAGE"; VStr "TEXT"])]);
                   ("contents",
                    VArr
                      [VObj
                         [("role", VStr "user");
                          ("parts",
                           VArr
                             [VObj [("text", VStr ("Based on the uploaded image, " ++ p))];
                              VObj [("inlineData",
                                     VObj [("mimeType", opt_prop (own "image" formData) "mimeType");
                                           ("data", opt_prop (own "image" formData) "data")])]])]])]
             :: calls w
        /\ (statusCode response = 200%Z ->
            exists j, response_body response = Document j
                      /\ member "prompt" j = Some (JStr p)))
  /\ (forall (env : Env) (req : Server.Request) (p : string) (f : Server.UploadedFile)
             (w : World),
         destructure (Server.req_body req) "prompt" = Ok (VStr p) -> p <> "" ->
         Server.req_file req = Some f ->
         configured env ->
         exists response w',
           Server.api_manipulate_image env req w = (Ok response, w')
           /\ calls w'
              = VObj [("model", VStr "gemini-2.5-flash-image-preview");
                      ("config",
                       VObj [("responseModalities", VArr [VStr "IMAGE"; VStr "TEXT"])]);
                      ("contents",
                       VArr
                         [VObj
                            [("role", VStr "user");
                             ("parts",
                              VArr
                                [VObj [("text", VStr ("Based on the uploaded image, " ++ p))];
                                 VObj [("inlineData",
                                        VObj [("mimeType", VStr (Server.mimetype f));
                                              ("data", VStr (Buffer_to_base64 env (Server.buffer f)))])]])]])]
                :: calls w
           /\ (Server.status response = 200%Z ->
               exists j, Server.sent response = Document j
                         /\ member "prompt" j = Some (JStr p))).
Proof.
  split.
  - intros env event formData p w Hu Hp Hn Hi Hk.
    assert (Ht : truthy (VStr p) = true).
    { simpl. apply negb_true_iff, String.eqb_neq, Hn. }
    rewrite (manipulate_handler_form env event formData w Hu).
    cbv zeta. rewrite Hp, Ht, Hi. unfold configured in Hk. rewrite Hk. cbn [negb].
    unfold image_request at 1. cbn [String_of].
    destruct (model_client env _) as [e | s].
    + do 2 eexists. split; [reflexivity|]. split; [reflexivity|].
      intros Hs. destruct (on_error_status e) as (_ & H2 & _).
      rewrite H2 in Hs. now apply mapped_status_not_200 in Hs.
    + destruct (ManipulateImage.processAIResponse env s _ _) as [[rs | e] w2] eqn:E.
      * pose proof (calls_after _ _ _ _ (processAIResponse_calls env _ s _) E) as Hc.
        do 2 eexists. split; [reflexivity|]. split; [exact Hc|].
        destruct (List.length rs =? 0)%nat; [discriminate|].
        intros _. eexists. split; reflexivity.
      * pose proof (calls_after _ _ _ _ (processAIResponse_calls env _ s _) E) as Hc.
        do 2 eexists. split; [reflexivity|]. split; [exact Hc|].
        intros Hs. destruct (on_error_status e) as (_ & H2 & _).
        rewrite H2 in Hs. now apply mapped_status_not_200 in Hs.
  - intros env req p f w Hd Hn Hf Hk.
    assert (Ht : truthy (VStr p) = true).
    { simpl. apply negb_true_iff, String.eqb_neq, Hn. }
    rewrite (api_manipulate_image_accepted env req (VStr p) f w Hd Ht Hf Hk).
    cbv zeta. unfold file_request, image_request. cbn [String_of].
    destruct (model_client env _) as [e | s].
    + do 2 eexists. split; [reflexivity|]. split; [reflexivity|].
      intros Hs. destruct (on_error_status e) as (_ & _ & H3).
      rewrite H3 in Hs. now apply mapped_status_not_200 in Hs.
    + destruct (Server.processAIResponse env s _ _) as [[rs | e] w2] eqn:E.
      * pose proof (calls_after _ _ _ _ (server_processAIResponse_calls env _ s _) E)
          as Hc.
        do 2 eexists. split; [reflexivity|]. split; [exact Hc|].
        destruct (List.length rs =? 0)%nat; [discriminate|].
        intros _. eexists. split; reflexivity.
      * pose proof (calls_after _ _ _ _ (server_processAIResponse_calls env _ s _) E)
          as Hc.
        do 2 eexists. split; [reflexivity|]. split; [exact Hc|].
        intros Hs. destruct (on_error_status e) as (_ & _ & H3).
        rewrite H3 in Hs. now apply mapped_status_not_200 in Hs.
Qed.

Lemma manipulate_prompt_prefixed_witness :
  (exists response w',
      ManipulateImage.handler (sample_env (Some "key") (Streaming red_circle_stream))
        (form_event full_form) initial = (Ok response, w')
      /\ calls w'
         = VObj [("model", VStr "gemini-2.5-flash-image-preview");
                 ("config",
                  VObj [("responseModalities", VArr [VStr "IMAGE"; VStr "TEXT"])]);
                 ("contents",
                  VArr
                    [VObj
                       [("role", VStr "user");
                        ("parts",
                         VArr
                           [VObj [("text", VStr ("Based on the uploaded image, " ++ "make it blue"))];
                            VObj [("inlineData",
                                   VObj [("mimeType", VStr "image/png");
                                         ("data", VStr "PNGDATA")])]])]])]
           :: calls initial
      /\ (statusCode response = 200%Z ->
          exists j, response_body response = Document j
                    /\ member "prompt" j = Some (JStr "make it blue")))
  /\ (exists response w',
         Server.api_manipulate_image
           (sample_env (Some "key") (Streaming red_circle_stream))
           (Server.mkRequest (VObj [("prompt", VStr "make it blue")]) (Some sample_file))
           initial = (Ok response, w')
         /\ calls w'
            = VObj [("model", VStr "gemini-2.5-flash-image-preview");
                    ("config",
                     VObj [("responseModalities", VArr [VStr "IMAGE"; VStr "TEXT"])]);
                    ("contents",
                     VArr
                       [VObj
                          [("role", VStr "user");
                           ("parts",
                            VArr
                              [VObj [("text", VStr ("Based on the uploaded image, " ++ "make it blue"))];
                               VObj [("inlineData",
                                      VObj [("mimeType", VStr "image/png");
                                            ("data", VStr "PNGDATA")])]])]])]
              :: calls initial
         /\ (Server.status response = 200%Z ->
             exists j, Server.sent response = Document j
                       /\ member "prompt" j = Some (JStr "make it blue"))).
Proof.
  split.
  - apply (proj1 manipulate_prompt_prefixed
             (sample_env (Some "key") (Streaming red_circle_stream))
             (form_event full_form)
             (ManipulateImage.parseMultipartFormData
                (sample_env (Some "key") (Streaming red_circle_stream)) full_form "XX")
             "make it blue" initial).
    + apply form_uploaded.
    + reflexivity.
    + discriminate.
    + reflexivity.
    + reflexivity.
  - apply (proj2 manipulate_prompt_prefixed
             (sample_env (Some "key") (Streaming red_circle_stream))
             (Server.mkRequest (VObj [("prompt", VStr "make it blue")]) (Some sample_file))
             "make it blue" sample_file initial).
    + reflexivity.
    + discriminate.
    + reflexivity.
    + reflexivity.
Defined.

(** ** The shape of a success body *)

Lemma truthy_written (v : value) : truthy v = true -> exists j, to_json v = Some j.
Proof. destruct v; simpl; try discriminate; eauto. Qed.

Lemma emissions_sound (cs : list value) : forallb sound (emissions cs) = true.
Proof.
  induction cs as [|c cs IH]; [reflexivity|].
  rewrite emissions_cons, forallb_app, IH, andb_true_r.
  unfold emission. destruct (is_image_chunk c); [reflexivity|].
  destruct (is_text_chunk c) eqn:H; [|reflexivity].
  unfold is_text_chunk in H. apply andb_true_iff in H as [_ H].
  simpl. now rewrite H.
Qed.

Section Shapes.
Context (env : Env).

Lemma expected_shaped (base : string) (es : list Emission) :
  forall t i,
    forallb sound es = true ->
    forallb (fun r => stateless_image r || carries_text r)
            (map json_element (expected env base es t i)) = true.
Proof.
  induction es as [|[d | x] es IH]; intros t i H; [reflexivity| |];
    cbn [forallb sound] in H; cbn [expected map forallb].
  - rewrite (IH _ _ H), andb_true_r.
    unfold json_element, GenerateImage.image_result. cbn.
    destruct (to_json (opt_prop d "data")), (to_json (opt_prop d "mimeType"));
      reflexivity.
  - apply andb_true_iff in H as [Hx H]. rewrite (IH _ _ H), andb_true_r.
    destruct (truthy_written x Hx) as [j Hj].
    unfold json_element, GenerateImage.text_result. cbn. rewrite Hj.
    reflexivity.
Qed.

Lemma expected_server_shaped (base : string) (es : list Emission) :
  forall t i,
    forallb sound es = true ->
    forallb (fun r => server_image r || carries_text r)
            (map json_element (expected_server env base es t i)) = true.
Proof.
  induction es as [|[d | x] es IH]; intros t i H; [reflexivity| |];
    cbn [forallb sound] in H; cbn [expected_server map forallb].
  - rewrite (IH _ _ H), andb_true_r.
    unfold json_element, Server.image_result. cbn.
    destruct (to_json (opt_prop d "mimeType")); reflexivity.
  - apply andb_true_iff in H as [Hx H]. rewrite (IH _ _ H), andb_true_r.
    destruct (truthy_written x Hx) as [j Hj].
    unfold json_element, Server.text_result. cbn. rewrite Hj.
    reflexivity.
Qed.

Lemma success_shaped (image : json -> bool) (prompt : value) (rs : list value) :
  truthy prompt = true ->
  forallb (fun r => image r || carries_text r) (map json_element rs) = true ->
  shaped image (JSON_stringify (VObj (success prompt [] rs))) = true.
Proof.
  intros Hp Hr. destruct (truthy_written prompt Hp) as [j Hj].
  unfold JSON_stringify, success. cbn. rewrite Hj. cbn. exact Hr.
Qed.

Lemma success_with_original_shaped (image : json -> bool) (prompt original : value)
      (rs : list value) :
  truthy prompt = true ->
  forallb (fun r => image r || carries_text r) (map json_element rs) = true ->
  shaped image (JSON_stringify
                  (VObj (success prompt [("originalImage", original)] rs))) = true.
Proof.
  intros Hp Hr. destruct (truthy_written prompt Hp) as [j Hj].
  unfold JSON_stringify, success. cbn. rewrite Hj.
  destruct (to_json original); cbn; exact Hr.
Qed.
End Shapes.

Ltac not_success Hs :=
  cbn in Hs;
  first
    [ discriminate Hs
    | exfalso;
      match type of Hs with
      | context [GenerateImage.on_error ?e] =>
          rewrite (proj1 (on_error_status e)) in Hs
      | context [ManipulateImage.on_error ?e] =>
          rewrite (proj1 (proj2 (on_error_status e))) in Hs
      | context [Server.on_error ?what ?e] =>
          rewrite (proj2 (proj2 (on_error_status e)) what) in Hs
      end;
      exact (mapped_status_not_200 _ Hs) ].

Ltac fails H Hs := injection H as <- <-; not_success Hs.

Section Written.
Context (env : Env).

Lemma expected_written (base : string) (es : list Emission) :
  forall t i,
    forallb sound es = true ->
    Forall2 written_stateless es (map json_element (expected env base es t i)).
Proof.
  induction es as [|[d | x] es IH]; intros t i H; [constructor| |];
    cbn [forallb sound] in H; cbn [expected map].
  - constructor; [|exact (IH _ _ H)].
    unfold json_element, GenerateImage.image_result. cbn.
    destruct (to_json (opt_prop d "data")), (to_json (opt_prop d "mimeType"));
      repeat split; try reflexivity; eexists; reflexivity.
  - apply andb_prop in H as [Hx H]. constructor; [|exact (IH _ _ H)].
    destruct (truthy_written x Hx) as [j Hj].
    unfold json_element, GenerateImage.text_result. cbn. rewrite Hj.
    split; [reflexivity|]. exists j. split; [reflexivity | exact Hj].
Qed.

Lemma expected_server_written (base : string) (es : list Emission) :
  forall t i,
    forallb sound es = true ->
    Forall2 written_server es (map json_element (expected_server env base es t i)).
Proof.
  induction es as [|[d | x] es IH]; intros t i H; [constructor| |];
    cbn [forallb sound] in H; cbn [expected_server map].
  - constructor; [|exact (IH _ _ H)].
    unfold json_element, Server.image_result. cbn.
    destruct (to_json (opt_prop d "mimeType"));
      repeat split; try reflexivity; eexists; reflexivity.
  - apply andb_prop in H as [Hx H]. constructor; [|exact (IH _ _ H)].
    destruct (truthy_written x Hx) as [j Hj].
    unfold json_element, Server.text_result. cbn. rewrite Hj.
    split; [reflexivity|]. exists j. split; [reflexivity | exact Hj].
Qed.

Lemma success_written (written : Emission -> json -> Prop) (es : list Emission)
      (prompt : value) (rs : list value) :
  truthy prompt = true ->
  Forall2 written es (map json_element rs) ->
  success_body false written es (JSON_stringify (VObj (success prompt [] rs))).
Proof.
  intros Hp Hr. destruct (truthy_written prompt Hp) as [j Hj].
  unfold JSON_stringify, success. cbn. rewrite Hj.
  do 2 eexists. repeat split; try reflexivity. exact Hr.
Qed.

Lemma success_with_original_written (written : Emission -> json -> Prop)
      (es : list Emission) (prompt : value) (original : list (string * value))
      (rs : list value) :
  truthy prompt = true ->
  Forall2 written es (map json_element rs) ->
  success_body true written es
    (JSON_stringify (VObj (success prompt [("originalImage", VObj original)] rs))).
Proof.
  intros Hp Hr. destruct (truthy_written prompt Hp) as [j Hj].
  unfold JSON_stringify, success. cbn. rewrite Hj.
  do 2 eexists. repeat split; try reflexivity. exact Hr.
Qed.

(** What a 200 of each handler comes from: a truthy prompt, one call of the
    model client, the stream it answered, and the body made of the expected
    results for the stream. *)
Lemma handler_success_from (event : Event) (w w' : World) (response : Response) :
  GenerateImage.handler env event w = (Ok response, w') ->
  statusCode response = 200%Z ->
  httpMethod event <> "OPTIONS" ->
  exists prompt s,
    truthy prompt = true
    /\ model_client env (text_request prompt) = Streaming s
    /\ calls w' = text_request prompt :: calls w
    /\ response_body response
       = JSON_stringify
           (VObj (success prompt []
                    (expected env "text_to_image" (emissions (chunks s)) (ticks w) 0))).
Proof.
  intros H Hs Hm. run_in H.
  destruct (String.eqb_spec (httpMethod event) "OPTIONS") as [E | _]; [contradiction|].
  destruct (negb (httpMethod event =? "POST")); [fails H Hs|].
  destruct (body event) as [text|];
    [destruct (JSON_parse env text) as [v|]; [|fails H Hs]|].
  all: destruct (destructure _ "prompt") as [prompt | e]; [|fails H Hs].
  all: destruct (truthy prompt) eqn:Hp; cbn [negb] in H; [|fails H Hs].
  all: destruct (negb (truthy (env_value (GEMINI_API_KEY env)))); [fails H Hs|].
  all: destruct (model_client env _) as [e | s] eqn:Hc; [fails H Hs|].
  all: destruct (GenerateImage.processAIResponse env s _ _) as [[rs | e] w2] eqn:E;
    [|fails H Hs].
  all: destruct (List.length rs =? 0)%nat; [fails H Hs|].
  all: injection H as <- <-.
  all: pose proof (calls_after _ _ _ _ (processAIResponse_calls env _ s _) E) as Hk.
  all: apply processAIResponse_returns in E; destruct E as [-> _].
  all: exists prompt, s; repeat split; auto.
Qed.

Lemma manipulate_success_from (event : Event) (w w' : World) (response : Response) :
  ManipulateImage.handler env event w = (Ok response, w') ->
  statusCode response = 200%Z ->
  httpMethod event <> "OPTIONS" ->
  exists prompt mimeType data s,
    truthy prompt = true
    /\ model_client env (image_request prompt mimeType data) = Streaming s
    /\ calls w' = image_request prompt mimeType data :: calls w
    /\ response_body response
       = JSON_stringify
           (VObj (success prompt [("originalImage", VObj [("mimeType", mimeType)])]
                    (expected env "image_manipulation" (emissions (chunks s))
                       (ticks w) 0))).
Proof.
  intros H Hs Hm. run_in H.
  destruct (String.eqb_spec (httpMethod event) "OPTIONS") as [E | _]; [contradiction|].
  destruct (negb (httpMethod event =? "POST")); [fails H Hs|].
  destruct (negb (truthy _) || _); [fails H Hs|].
  destruct (negb (truthy (env_value _))); [fails H Hs|].
  destruct (body event) as [text|]; [|fails H Hs].
  destruct (truthy (own "prompt" _)) eqn:Hp; cbn [negb] in H; [|fails H Hs].
  destruct (negb (truthy (own "image" _))); [fails H Hs|].
  destruct (negb (truthy (env_value (GEMINI_API_KEY env)))); [fails H Hs|].
  destruct (get_prop _ "mimeType") as [mimeType | e]; [|fails H Hs].
  destruct (get_prop _ "data") as [data | e]; [|fails H Hs].
  destruct (model_client env _) as [e | s] eqn:Hc; [fails H Hs|].
  destruct (ManipulateImage.processAIResponse env s _ _) as [[rs | e] w2] eqn:E;
    [|fails H Hs].
  destruct (List.length rs =? 0)%nat; [fails H Hs|].
  injection H as <- <-.
  pose proof (calls_after _ _ _ _ (processAIResponse_calls env _ s _) E) as Hk.
  apply processAIResponse_returns in E. destruct E as [-> _].
  do 4 eexists. repeat split; [exact Hp | exact Hc | exact Hk].
Qed.

Lemma api_generate_image_success_from (req : Server.Request) (w w' : World)
      (response : Server.Reply) :
  Server.api_generate_image env req w = (Ok response, w') ->
  Server.status response = 200%Z ->
  exists prompt s,
    truthy prompt = true
    /\ model_client env (text_request prompt) = Streaming s
    /\ calls w' = text_request prompt :: calls w
    /\ Server.sent response
       = JSON_stringify
           (VObj (success prompt []
                    (expected_server env "text_to_image" (emissions (chunks s))
                       (ticks w) 0))).
Proof.
  intros H Hs. run_in H.
  destruct (destructure _ "prompt") as [prompt | e]; [|fails H Hs].
  destruct (truthy prompt) eqn:Hp; cbn [negb] in H; [|fails H Hs].
  destruct (negb (truthy (env_value (GEMINI_API_KEY env)))); [fails H Hs|].
  destruct (model_client env _) as [e | s] eqn:Hc; [fails H Hs|].
  destruct (Server.processAIResponse env s _ _) as [[rs | e] w2] eqn:E; [|fails H Hs].
  destruct (List.length rs =? 0)%nat; [fails H Hs|].
  injection H as <- <-.
  apply server_processAIResponse_returns in E. destruct E as [-> Hk].
  exists prompt, s. repeat split; auto.
Qed.

Lemma api_manipulate_image_success_from (req : Server.Request) (w w' : World)
      (response : Server.Reply) :
  Server.api_manipulate_image env req w = (Ok response, w') ->
  Server.status response = 200%Z ->
  exists prompt f s,
    truthy prompt = true
    /\ model_client env (file_request env prompt f) = Streaming s
    /\ calls w' = file_request env prompt f :: calls w
    /\ Server.sent response
       = JSON_stringify
           (VObj (success prompt (original f)
                    (expected_server env "image_manipulation" (emissions (chunks s))
                       (ticks w) 0))).
Proof.
  intros H Hs. run_in H.
  destruct (destructure _ "prompt") as [prompt | e]; [|fails H Hs].
  destruct (truthy prompt) eqn:Hp; cbn [negb] in H; [|fails H Hs].
  destruct (Server.req_file req) as [f|]; [|fails H Hs].
  destruct (negb (truthy (env_value (GEMINI_API_KEY env)))); [fails H Hs|].
  destruct (model_client env _) as [e | s] eqn:Hc; [fails H Hs|].
  destruct (Server.processAIResponse env s _ _) as [[rs | e] w2] eqn:E; [|fails H Hs].
  destruct (List.length rs =? 0)%nat; [fails H Hs|].
  injection H as <- <-.
  apply server_processAIResponse_returns in E. destruct E as [-> Hk].
  exists prompt, f, s. repeat split; auto.
Qed.
End Written.

Section SuccessBodies.
Context (env : Env).

Lemma handler_success_shaped (event : Event) (w w' : World) (response : Response) :
  GenerateImage.handler env event w = (Ok response, w') ->
  statusCode response = 200%Z ->
  httpMethod event <> "OPTIONS" ->
  shaped stateless_image (response_body response) = true.
Proof.
  intros H Hs Hm. run_in H.
  destruct (String.eqb_spec (httpMethod event) "OPTIONS") as [E | _]; [contradiction|].
  destruct (negb (httpMethod event =? "POST")); [fails H Hs|].
  destruct (body event) as [text|];
    [destruct (JSON_parse env text) as [v|]; [|fails H Hs]|].
  all: destruct (destructure _ "prompt") as [prompt | e]; [|fails H Hs].
  all: destruct (truthy prompt) eqn:Hp; cbn [negb] in H; [|fails H Hs].
  all: destruct (negb (truthy (env_value (GEMINI_API_KEY env)))); [fails H Hs|].
  all: destruct (model_client env _) as [e | s]; [fails H Hs|].
  all: destruct (GenerateImage.processAIResponse env s _ _) as [[rs | e] w2] eqn:E;
    [|fails H Hs].
  all: destruct (List.length rs =? 0)%nat; [fails H Hs|].
  all: injection H as <- <-.
  all: apply processAIResponse_returns in E; destruct E as [-> _].
  all: apply (success_shaped stateless_image prompt _ Hp).
  all: apply expected_shaped, emissions_sound.
Qed.

Lemma manipulate_success_shaped (event : Event) (w w' : World) (response : Response) :
  ManipulateImage.handler env event w = (Ok response, w') ->
  statusCode response = 200%Z ->
  httpMethod event <> "OPTIONS" ->
  shaped stateless_image (response_body response) = true.
Proof.
  intros H Hs Hm. run_in H.
  destruct (String.eqb_spec (httpMethod event) "OPTIONS") as [E | _]; [contradiction|].
  destruct (negb (httpMethod event =? "POST")); [fails H Hs|].
  destruct (negb (truthy _) || _); [fails H Hs|].
  destruct (negb (truthy (env_value _))); [fails H Hs|].
  destruct (body event) as [text|]; [|fails H Hs].
  destruct (truthy (own "prompt" _)) eqn:Hp; cbn [negb] in H; [|fails H Hs].
  destruct (negb (truthy (own "image" _))); [fails H Hs|].
  destruct (negb (truthy (env_value (GEMINI_API_KEY env)))); [fails H Hs|].
  destruct (get_prop _ "mimeType") as [mimeType | e]; [|fails H Hs].
  destruct (get_prop _ "data") as [data | e]; [|fails H Hs].
  destruct (model_client env _) as [e | s]; [fails H Hs|].
  destruct (ManipulateImage.processAIResponse env s _ _) as [[rs | e] w2] eqn:E;
    [|fails H Hs].
  destruct (List.length rs =? 0)%nat; [fails H Hs|].
  injection H as <- <-.
  apply processAIResponse_returns in E. destruct E as [-> _].
  apply (success_with_original_shaped stateless_image _ _ _ Hp).
  apply expected_shaped, emissions_sound.
Qed.

Lemma api_generate_image_success_shaped (req : Server.Request) (w w' : World)
      (response : Server.Reply) :
  Server.api_generate_image env req w = (Ok response, w') ->
  Server.status response = 200%Z ->
  shaped server_image (Server.sent response) = true.
Proof.
  intros H Hs. run_in H.
  destruct (destructure _ "prompt") as [prompt | e]; [|fails H Hs].
  destruct (truthy prompt) eqn:Hp; cbn [negb] in H; [|fails H Hs].
  destruct (negb (truthy (env_value (GEMINI_API_KEY env)))); [fails H Hs|].
  destruct (model_client env _) as [e | s]; [fails H Hs|].
  destruct (Server.processAIResponse env s _ _) as [[rs | e] w2] eqn:E; [|fails H Hs].
  destruct (List.length rs =? 0)%nat; [fails H Hs|].
  injection H as <- <-.
  apply server_processAIResponse_returns in E. destruct E as [-> _].
  apply (success_shaped server_image prompt _ Hp).
  apply expected_server_shaped, emissions_sound.
Qed.

Lemma api_manipulate_image_success_shaped (req : Server.Request) (w w' : World)
      (response : Server.Reply) :
  Server.api_manipulate_image env req w = (Ok response, w') ->
  Server.status response = 200%Z ->
  shaped server_image (Server.sent response) = true.
Proof.
  intros H Hs. run_in H.
  destruct (destructure _ "prompt") as [prompt | e]; [|fails H Hs].
  destruct (truthy prompt) eqn:Hp; cbn [negb] in H; [|fails H Hs].
  destruct (Server.req_file req) as [f|]; [|fails H Hs].
  destruct (negb (truthy (env_value (GEMINI_API_KEY env)))); [fails H Hs|].
  destruct (model_client env _) as [e | s]; [fails H Hs|].
  destruct (Server.processAIResponse env s _ _) as [[rs | e] w2] eqn:E; [|fails H Hs].
  destruct (List.length rs =? 0)%nat; [fails H Hs|].
  injection H as <- <-.
  apply server_processAIResponse_returns in E. destruct E as [-> _].
  apply (success_with_original_shaped server_image _ _ _ Hp).
  apply expected_server_shaped, emissions_sound.
Qed.
End SuccessBodies.

(** The members of an Image result are those of the inline data: a member
    whose value is [undefined] is not written. *)
Lemma image_result_members (data mimeType : value) (name : string) :
  exists j,
    JSON_stringify (GenerateImage.image_result data mimeType name) = Document j
    /\ member "type" j = Some (JStr "image")
    /\ member "data" j = to_json data
    /\ member "mimeType" j = to_json mimeType
    /\ member "filename" j = Some (JStr name)
    /\ member "url" j = None.
Proof.
  unfold JSON_stringify, GenerateImage.image_result. cbn.
  destruct (to_json data), (to_json mimeType); eexists; repeat split; reflexivity.
Qed.

Lemma server_image_result_members (url : string) (mimeType : value) :
  exists j,
    JSON_stringify (Server.image_result url mimeType) = Document j
    /\ member "type" j = Some (JStr "image")
    /\ member "url" j = Some (JStr url)
    /\ member "mimeType" j = to_json mimeType
    /\ member "filename" j = None
    /\ member "data" j = None.
Proof.
  unfold JSON_stringify, Server.image_result. cbn.
  destruct (to_json mimeType); eexists; repeat split; reflexivity.
Qed.

(** C8, as the claim words it, fails in the server deployment: the Image
    result of a success body has [type], [url] and [mimeType] and no
    [filename]. *)
Lemma server_image_has_no_filename :
  exists response w',
    Server.api_generate_image (sample_env (Some "key") (Streaming red_circle_stream))
      red_circle_request initial = (Ok response, w')
    /\ Server.status response = 200%Z
    /\ shaped stated_image (Server.sent response) = false.
Proof.
  do 2 eexists. split; [vm_compute; reflexivity|]. split; reflexivity.
Qed.

(** C8 (amended).  Every success body is [{ success: true, prompt, results }],
    with [originalImage] besides on /manipulate-image and only there.  A 200
    comes from one call of the model client, and the results stand one for
    one for the emissions of the stream it answered: each Text result
    carries the tag ["text"] and the text as [content]; each Image result
    carries the tag ["image"] and, in the stateless functions, [filename]
    and no [url], together with [data] and [mimeType] where the inline data
    defines them; in the server it carries [url], [mimeType] where defined,
    and neither [filename] nor [data]. *)
Theorem success_bodies_shaped :
  (forall (env : Env) (event : Event) (w w' : World) (response : Response),
      GenerateImage.handler env event w = (Ok response, w') ->
      statusCode response = 200%Z -> httpMethod event <> "OPTIONS" ->
      exists request s,
        calls w' = request :: calls w
        /\ model_client env request = Streaming s
        /\ success_body false written_stateless (emissions (chunks s))
             (response_body response))
  /\ (forall (env : Env) (event : Event) (w w' : World) (response : Response),
         ManipulateImage.handler env event w = (Ok response, w') ->
         statusCode response = 200%Z -> httpMethod event <> "OPTIONS" ->
         exists request s,
           calls w' = request :: calls w
           /\ model_client env request = Streaming s
           /\ success_body true written_stateless (emissions (chunks s))
                (response_body response))
  /\ (forall (env : Env) (req : Server.Request) (w w' : World) (response : Server.Reply),
         Server.api_generate_image env req w = (Ok response, w') ->
         Server.status response = 200%Z ->
         exists request s,
           calls w' = request :: calls w
           /\ model_client env request = Streaming s
           /\ success_body false written_server (emissions (chunks s))
                (Server.sent response))
  /\ (forall (env : Env) (req : Server.Request) (w w' : World) (response : Server.Reply),
         Server.api_manipulate_image env req w = (Ok response, w') ->
         Server.status response = 200%Z ->
         exists request s,
           calls w' = request :: calls w
           /\ model_client env request = Streaming s
           /\ success_body true written_server (emissions (chunks s))
                (Server.sent response)).
Proof.
  split; [|split; [|split]].
  - intros env event w w' response H Hs Hm.
    destruct (handler_success_from env event w w' response H Hs Hm)
      as (prompt & s & Hp & Hc & Hk & ->).
    exists (text_request prompt), s. repeat split; [exact Hk | exact Hc|].
    apply success_written; [exact Hp|]. apply expected_written, emissions_sound.
  - intros env event w w' response H Hs Hm.
    destruct (manipulate_success_from env event w w' response H Hs Hm)
      as (prompt & mimeType & data & s & Hp & Hc & Hk & ->).
    exists (image_request prompt mimeType data), s.
    repeat split; [exact Hk | exact Hc|].
    apply success_with_original_written; [exact Hp|].
    apply expected_written, emissions_sound.
  - intros env req w w' response H Hs.
    destruct (api_generate_image_success_from env req w w' response H Hs)
      as (prompt & s & Hp & Hc & Hk & ->).
    exists (text_request prompt), s. repeat split; [exact Hk | exact Hc|].
    apply success_written; [exact Hp|].
    apply expected_server_written, emissions_sound.
  - intros env req w w' response H Hs.
    destruct (api_manipulate_image_success_from env req w w' response H Hs)
      as (prompt & f & s & Hp & Hc & Hk & ->).
    exists (file_request env prompt f), s. repeat split; [exact Hk | exact Hc|].
    apply success_with_original_written; [exact Hp|].
    apply expected_server_written, emissions_sound.
Qed.

Lemma success_bodies_shaped_witness :
  (exists request s,
      calls (tick 1 (called (text_request (VStr "a red circle")) initial))
      = request :: calls initial
      /\ model_client (sample_env (Some "key") (Streaming red_circle_stream)) request
         = Streaming s
      /\ success_body false written_stateless (emissions (chunks s))
           (response_body
              (reply 200
                 (success (VStr "a red circle") []
                    [GenerateImage.image_result (VStr "iVBORw0KGgo=") (VStr "image/png")
                       "text_to_image_1700000000000_0.png";
                     GenerateImage.text_result (VStr "done")]))))
  /\ (exists request s,
         calls (saved "text_to_image_1700000000000_0.png" "iVBORw0KGgo="
                  (tick 1 (called (text_request (VStr "a red circle")) initial)))
         = request :: calls initial
         /\ model_client (sample_env (Some "key") (Streaming red_circle_stream)) request
            = Streaming s
         /\ success_body false written_server (emissions (chunks s))
              (Server.sent
                 (Server.respond 200
                    (success (VStr "a red circle") []
                       [Server.image_result
                          "/generated/text_to_image_1700000000000_0.png"
                          (VStr "image/png");
                        Server.text_result (VStr "done")])))).
Proof.
  split.
  - apply (proj1 success_bodies_shaped
             (sample_env (Some "key") (Streaming red_circle_stream))
             red_circle_event initial
             (tick 1 (called (text_request (VStr "a red circle")) initial))).
    + reflexivity.
    + reflexivity.
    + discriminate.
  - apply (proj1 (proj2 (proj2 success_bodies_shaped))
             (sample_env (Some "key") (Streaming red_circle_stream))
             red_circle_request initial
             (saved "text_to_image_1700000000000_0.png" "iVBORw0KGgo="
                (tick 1 (called (text_request (VStr "a red circle")) initial)))).
    + reflexivity.
    + reflexivity.
Defined.

(** * Further properties *)

(** ** Frames *)

Lemma preserves_ret {A} (R : World -> World -> Prop) (a : A) :
  (forall w, R w w) -> preserves R (ret a).
Proof. intros H w. apply H. Qed.

Lemma preserves_throw {A} (R : World -> World -> Prop) (e : JsError) :
  (forall w, R w w) -> preserves R (@throw A e).
Proof. intros H w. apply H. Qed.

Lemma preserves_lift {A} (R : World -> World -> Prop) (o : outcome A) :
  (forall w, R w w) -> preserves R (lift o).
Proof. intros H w. apply H. Qed.

Lemma preserves_bind {A B} (R : World -> World -> Prop) (m : M A) (k : A -> M B) :
  (forall w1 w2 w3, R w1 w2 -> R w2 w3 -> R w1 w3) ->
  preserves R m -> (forall a, preserves R (k a)) -> preserves R (bind m k).
Proof.
  intros T Hm Hk w. unfold bind. specialize (Hm w).
  destruct (m w) as [[a | e] w1]; simpl in *; [|exact Hm].
  exact (T _ _ _ Hm (Hk a w1)).
Qed.

Lemma preserves_try_catch {A} (R : World -> World -> Prop) (m : M A)
      (h : JsError -> M A) :
  (forall w1 w2 w3, R w1 w2 -> R w2 w3 -> R w1 w3) ->
  preserves R m -> (forall e, preserves R (h e)) -> preserves R (try_catch m h).
Proof.
  intros T Hm Hh w. unfold try_catch. specialize (Hm w).
  destruct (m w) as [[a | e] w1]; simpl in *; [exact Hm|].
  exact (T _ _ _ Hm (Hh e w1)).
Qed.

Lemma answers_ret {A} (Q : A -> Prop) (a : A) : Q a -> answers Q (ret a).
Proof. intros H w a' w' [= <- _]. exact H. Qed.

Lemma answers_throw {A} (Q : A -> Prop) (e : JsError) : answers Q (throw e).
Proof. intros w a w' H. discriminate. Qed.

Lemma answers_bind {A B} (Q : B -> Prop) (m : M A) (k : A -> M B) :
  (forall a, answers Q (k a)) -> answers Q (bind m k).
Proof.
  intros Hk w b w' H. unfold bind in H.
  destruct (m w) as [[a | e] w1]; [|discriminate].
  exact (Hk a w1 b w' H).
Qed.

Lemma answers_try_catch {A} (Q : A -> Prop) (m : M A) (h : JsError -> M A) :
  answers Q m -> (forall e, answers Q (h e)) -> answers Q (try_catch m h).
Proof.
  intros Hm Hh w a w' H. unfold try_catch in H.
  destruct (m w) as [[a1 | e] w1] eqn:E.
  - injection H as <- <-. exact (Hm w a1 w1 E).
  - exact (Hh e w1 a w' H).
Qed.

Lemma same_disk_refl (w : World) : same_disk w w.
Proof. reflexivity. Qed.

Lemma same_disk_trans (w1 w2 w3 : World) :
  same_disk w1 w2 -> same_disk w2 w3 -> same_disk w1 w3.
Proof. unfold same_disk. congruence. Qed.




Ltac frame_step refl trans leaf :=
  first
    [ leaf
    | apply preserves_ret; exact refl
    | apply preserves_throw; exact refl
    | apply preserves_lift; exact refl
    | apply preserves_bind; [exact trans | | intros ?]
    | apply preserves_try_catch; [exact trans | | intros ?]
    | match goal with
      | |- preserves _ (if ?b then _ else _) => destruct b
      | |- preserves _ (match ?x with _ => _ end) => destruct x
      end ].

Ltac frame refl trans leaf := repeat frame_step refl trans leaf.

Section StatelessDisk.
Context (env : Env).

Lemma Date_now_same_disk : preserves same_disk (Date_now env).
Proof. intros w. reflexivity. Qed.

Lemma generateContentStream_same_disk (request : value) :
  preserves same_disk (generateContentStream env request).
Proof.
  intros w. unfold generateContentStream. destruct (model_client env request); reflexivity.
Qed.

Lemma loop_body_same_disk (base : string) (chunk : value) (st : LoopState) :
  preserves same_disk (GenerateImage.loop_body env base chunk st).
Proof.
  unfold GenerateImage.loop_body, GenerateImage.lacks_parts,
    GenerateImage.first_inlineData, GenerateImage.read_inlineData.
  frame same_disk_refl same_disk_trans ltac:(apply Date_now_same_disk).
Qed.

Lemma for_await_same_disk (base : string) (cs : list value) :
  forall st, preserves same_disk (GenerateImage.for_await env base cs st).
Proof.
  induction cs as [|c cs IH]; intros st; cbn [GenerateImage.for_await].
  - apply preserves_ret, same_disk_refl.
  - apply preserves_bind; [exact same_disk_trans | apply loop_body_same_disk | auto].
Qed.

Lemma processAIResponse_same_disk (s : Stream) (base : string) :
  preserves same_disk (GenerateImage.processAIResponse env s base).
Proof.
  unfold GenerateImage.processAIResponse.
  frame same_disk_refl same_disk_trans ltac:(apply for_await_same_disk).
Qed.

Lemma handler_same_disk (event : Event) :
  preserves same_disk (GenerateImage.handler env event).
Proof.
  unfold GenerateImage.handler, parse_body.
  frame same_disk_refl same_disk_trans
    ltac:(first [apply generateContentStream_same_disk
                | apply processAIResponse_same_disk]).
Qed.

Lemma manipulate_handler_same_disk (event : Event) :
  preserves same_disk (ManipulateImage.handler env event).
Proof.
  unfold ManipulateImage.handler, ManipulateImage.processAIResponse.
  frame same_disk_refl same_disk_trans
    ltac:(first [apply generateContentStream_same_disk
                | apply processAIResponse_same_disk]).
Qed.
End StatelessDisk.

(** ** The disk of the server *)

Section ServerDisk.
Context (env : Env).







Lemma to_save_app (base : string) (es1 es2 : list Emission) :
  forall t i,
    to_save env base (es1 ++ es2) t i =
    (to_save env base es1 t i
       ++ to_save env base es2 (t + images_in es1) (i + Z.of_nat (images_in es1)))%list.
Proof.
  unfold images_in.
  induction es1 as [|[d | x] es1 IH]; intros t i; simpl.
  - now rewrite Nat.add_0_r, Z.add_0_r.
  - rewrite IH. do 3 f_equal; lia.
  - now rewrite IH.
Qed.

(** Whenever the loop of the server returns, the disk has gained the files
    to save for the chunks, the newest first. *)
Lemma server_for_await_saves (base : string) (cs : list value) :
  forall st w st' w',
    Server.for_await env base cs st w = (Ok st', w') ->
    exists files,
      disk w' = (rev files ++ disk w)%list
      /\ Forall2 (holds env) files
           (to_save env base (emissions cs) (ticks w) (fileIndex st)).
Proof.
  induction cs as [|c cs IH]; intros st w st' w' H.
  - simpl in H. unfold ret in H. injection H as <- <-. exists []. split; constructor.
  - cbn [Server.for_await] in H. unfold bind in H.
    destruct (guard_reads c) eqn:Hc.
    2:{ destruct (server_loop_body_throws env base c st w Hc) as [e He].
        rewrite He in H. discriminate. }
    rewrite (server_loop_body_reads env _ _ _ _ Hc) in H.
    rewrite emissions_cons, to_save_app.
    destruct (emission c) as [[d | x]|].
    + cbv zeta in H.
      destruct (Buffer_from_base64 env _) as [content | e] eqn:Hb; [|discriminate].
      destruct (fs_failure env _) as [e |]; [discriminate|].
      apply IH in H. destruct H as (files & Hd & Hf).
      exists ((file_name base (clock env (ticks w)) (fileIndex st) (extension_of env d),
               content) :: files).
      split.
      * rewrite Hd. cbn [rev saved disk tick]. now rewrite <- app_assoc.
      * cbn [to_save app]. constructor; [split; [reflexivity | exact Hb]|].
        change (images_in [EmitImage d]) with 1. change (Z.of_nat 1) with 1%Z.
        cbn [fileIndex] in Hf.
        change (ticks (saved (file_name base (clock env (ticks w)) (fileIndex st)
                                (extension_of env d)) content (tick 1 w)))
          with (ticks w + 1) in Hf.
        now rewrite Nat.add_1_r in *.
    + apply IH in H. cbn [fileIndex] in H. cbn [to_save app].
      change (images_in [EmitText x]) with 0. now rewrite Nat.add_0_r, Z.add_0_r.
    + apply IH in H. cbn [to_save app].
      change (images_in []) with 0. now rewrite Nat.add_0_r, Z.add_0_r.
Qed.

Lemma to_save_urls (base : string) (es : list Emission) :
  forall t i,
    image_urls (expected_server env base es t i)
    = map (fun nv => "/generated/" ++ fst nv) (to_save env base es t i).
Proof.
  induction es as [|[d | x] es IH]; intros t i; [reflexivity| |].
  - cbn [expected_server to_save map]. unfold image_urls in *. cbn [flat_map].
    rewrite IH. reflexivity.
  - cbn [expected_server to_save]. unfold image_urls in *. cbn [flat_map].
    rewrite IH. reflexivity.
Qed.

(** The names to save carry indices from [i] on. *)
Lemma to_save_indices (base : string) (es : list Emission) :
  forall t i name,
    In name (map fst (to_save env base es t i)) ->
    exists t' k ext, name = file_name base t' k ext /\ (i <= k)%Z.
Proof.
  induction es as [|[d | x] es IH]; intros t i name H; simpl in H.
  - contradiction.
  - destruct H as [<- | H].
    + do 3 eexists. split; [reflexivity | lia].
    + destruct (IH _ _ _ H) as (t' & k & ext & -> & Hk).
      do 3 eexists. split; [reflexivity | lia].
  - eauto.
Qed.

Lemma to_save_distinct (base : string) (es : list Emission) :
  forall t i, NoDup (map fst (to_save env base es t i)).
Proof.
  induction es as [|[d | x] es IH]; intros t i; simpl; [constructor| |auto].
  constructor; [|auto].
  intros H. destruct (to_save_indices _ _ _ _ _ H) as (t' & k & ext & E & Hk).
  apply file_name_inj in E. lia.
Qed.

Lemma holds_names (files : list (string * string)) (nvs : list (string * value)) :
  Forall2 (holds env) files nvs -> map fst files = map fst nvs.
Proof.
  induction 1 as [|f nv files nvs [Hn _] _ IH]; simpl; congruence.
Qed.
End ServerDisk.

Lemma to_save_length (env : Env) (base : string) (es : list Emission) :
  forall t i, List.length (to_save env base es t i) = images_in es.
Proof.
  unfold images_in. induction es as [|[d | x] es IH]; intros t i; simpl; auto.
Qed.



(** X1.  The stateless functions write no file: whatever the event and
    whatever the model answers, the two handlers and their
    [processAIResponse] leave the disk as it was. *)
Theorem stateless_functions_write_no_file :
  forall (env : Env) (event : Event) (s : Stream) (base : string) (w : World),
    disk (snd (GenerateImage.handler env event w)) = disk w
    /\ disk (snd (ManipulateImage.handler env event w)) = disk w
    /\ disk (snd (GenerateImage.processAIResponse env s base w)) = disk w.
Proof.
  intros env event s base w. repeat split.
  - apply handler_same_disk.
  - apply manipulate_handler_same_disk.
  - apply processAIResponse_same_disk.
Qed.

(** X2.  When the [processAIResponse] of the server returns, the disk has
    gained one file per Image result and nothing else; the [url]s of the
    results are, in order, ["/generated/"] followed by the names of these
    files; each file holds what [Buffer.from] decoded from the inline data;
    and the names are pairwise distinct, so no file of the call overwrote
    another. *)
Theorem server_urls_name_saved_files :
  forall (env : Env) (s : Stream) (base : string) (w w' : World) (rs : list value),
    Server.processAIResponse env s base w = (Ok rs, w') ->
    exists files,
      disk w' = (rev files ++ disk w)%list
      /\ image_urls rs = map (fun f => "/generated/" ++ fst f) files
      /\ Forall2 (holds env) files
           (to_save env base (emissions (chunks s)) (ticks w) 0)
      /\ NoDup (map fst files).
Proof.
  intros env s base w w' rs H.
  pose proof (server_processAIResponse_returns env base s w w' rs H) as [-> _].
  unfold Server.processAIResponse, bind in H.
  destruct (Server.for_await env base (chunks s) (mkLoop [] 0) w)
    as [[st | e] w1] eqn:E; [|discriminate].
  destruct (failure s); [discriminate|]. unfold ret in H. injection H as _ <-.
  apply server_for_await_saves in E. destruct E as (files & Hd & Hf).
  cbn [fileIndex] in Hf. exists files.
  pose proof (holds_names env _ _ Hf) as Hn.
  repeat split; auto.
  - rewrite to_save_urls, <- !map_map with (f := fst), Hn.
    now rewrite !map_map.
  - rewrite Hn. apply to_save_distinct.
Qed.

Lemma server_urls_name_saved_files_witness :
  exists files,
    disk (saved "text_to_image_1700000000000_0.png" "iVBORw0KGgo=" (tick 1 initial))
    = (rev files ++ disk initial)%list
    /\ image_urls [Server.image_result "/generated/text_to_image_1700000000000_0.png"
                     (VStr "image/png");
                   Server.text_result (VStr "done")]
       = map (fun f => "/generated/" ++ fst f) files
    /\ Forall2 (holds (sample_env None offline)) files
         (to_save (sample_env None offline) "text_to_image"
            (emissions (chunks red_circle_stream)) (ticks initial) 0)
    /\ NoDup (map fst files).
Proof.
  apply (server_urls_name_saved_files (sample_env None offline) red_circle_stream
           "text_to_image" initial).
  reflexivity.
Defined.

(** ** The files after a request *)




Section FilesAfter.
Context (env : Env).





End FilesAfter.



(** ** Every response of a handler *)

Ltac answer_step leaf :=
  first
    [ leaf
    | apply answers_throw
    | apply answers_ret
    | apply answers_bind; intros ?
    | apply answers_try_catch; [|intros ?]
    | match goal with
      | |- answers _ (if ?b then _ else _) => destruct b eqn:?
      | |- answers _ (match ?x with _ => _ end) => destruct x eqn:?
      end ].

Ltac answer leaf := repeat answer_step leaf.

Ltac shaped_reply :=
  repeat split;
  [ cbn; tauto | intros; first [reflexivity | cbn in *; congruence] ].

Lemma on_error_well_formed (e : JsError) :
  well_formed (GenerateImage.on_error e)
  /\ well_formed (ManipulateImage.on_error e)
  /\ forall what, well_formed_reply (Server.on_error what e).
Proof.
  unfold GenerateImage.on_error, ManipulateImage.on_error, Server.on_error,
    well_formed, well_formed_reply, reply, Server.respond, JSON_stringify, js_or.
  destruct (strict_eq_num (err_status e) 429);
    [repeat split; cbn; intros; tauto|].
  destruct (strict_eq_num (err_status e) 401);
    [repeat split; cbn; intros; tauto|].
  destruct (strict_eq_num (err_status e) 400).
  - destruct (truthy (err_message e)); cbn;
      [destruct (to_json (err_message e))|]; repeat split; cbn; intros; tauto.
  - cbn. destruct (to_json (err_message e)); repeat split; cbn; intros; tauto.
Qed.

Ltac well_formed_leaf :=
  idtac;
  match goal with
  | |- well_formed (GenerateImage.on_error ?e) => exact (proj1 (on_error_well_formed e))
  | |- well_formed (ManipulateImage.on_error ?e) =>
      exact (proj1 (proj2 (on_error_well_formed e)))
  | |- well_formed_reply (Server.on_error ?what ?e) =>
      exact (proj2 (proj2 (on_error_well_formed e)) what)
  | |- well_formed (reply _ _) =>
      repeat split; cbn; intros; first [tauto | congruence]
  | |- well_formed_reply (Server.respond _ _) =>
      repeat split; cbn; intros; first [tauto | congruence]
  end.

Section WellFormed.
Context (env : Env).

Lemma handler_well_formed (event : Event) :
  httpMethod event <> "OPTIONS" ->
  answers well_formed (GenerateImage.handler env event).
Proof.
  intros Hm. unfold GenerateImage.handler.
  destruct (String.eqb_spec (httpMethod event) "OPTIONS"); [contradiction|].
  answer well_formed_leaf.
Qed.

Lemma manipulate_handler_well_formed (event : Event) :
  httpMethod event <> "OPTIONS" ->
  answers well_formed (ManipulateImage.handler env event).
Proof.
  intros Hm. unfold ManipulateImage.handler.
  destruct (String.eqb_spec (httpMethod event) "OPTIONS"); [contradiction|].
  answer well_formed_leaf.
Qed.

Lemma api_generate_image_well_formed (req : Server.Request) :
  answers well_formed_reply (Server.api_generate_image env req).
Proof. unfold Server.api_generate_image. answer well_formed_leaf. Qed.

Lemma api_manipulate_image_well_formed (req : Server.Request) :
  answers well_formed_reply (Server.api_manipulate_image env req).
Proof. unfold Server.api_manipulate_image. answer well_formed_leaf. Qed.
End WellFormed.

(** X4.  The responses of the four handlers.  A stateless function answers
    OPTIONS with 200, the preflight headers and an empty body, and any method
    other than OPTIONS and POST with 405, touching nothing.  Every other
    response carries the CORS and JSON headers; every status is one of 200,
    400, 401, 405, 429, 500 (the server: without 405); and every body sent
    with a status other than 200 is [{ error: string, ... }] with neither
    [success] nor [results]. *)
Theorem responses_well_formed :
  forall (env : Env),
    (forall (event : Event) (w : World),
        httpMethod event = "OPTIONS" ->
        GenerateImage.handler env event w
        = (Ok (mkResponse 200 preflight_headers NoBody), w)
        /\ ManipulateImage.handler env event w
           = (Ok (mkResponse 200 preflight_headers NoBody), w))
    /\ (forall (event : Event) (w : World),
           httpMethod event <> "OPTIONS" -> httpMethod event <> "POST" ->
           GenerateImage.handler env event w
           = (Ok (mkResponse 405 json_headers (error_body "Method not allowed")), w)
           /\ ManipulateImage.handler env event w
              = (Ok (mkResponse 405 json_headers (error_body "Method not allowed")), w))
    /\ (forall (event : Event) (w w' : World) (response : Response),
           httpMethod event <> "OPTIONS" ->
           GenerateImage.handler env event w = (Ok response, w')
           \/ ManipulateImage.handler env event w = (Ok response, w') ->
           well_formed response)
    /\ (forall (req : Server.Request) (w w' : World) (response : Server.Reply),
           Server.api_generate_image env req w = (Ok response, w')
           \/ Server.api_manipulate_image env req w = (Ok response, w') ->
           well_formed_reply response).
Proof.
  intros env. split; [|split; [|split]].
  - intros event w Hm. unfold GenerateImage.handler, ManipulateImage.handler.
    rewrite Hm. split; reflexivity.
  - intros event w Ho Hp. unfold GenerateImage.handler, ManipulateImage.handler.
    apply String.eqb_neq in Ho, Hp. rewrite Ho, Hp. split; reflexivity.
  - intros event w w' response Hm [H | H].
    + exact (handler_well_formed env event Hm w response w' H).
    + exact (manipulate_handler_well_formed env event Hm w response w' H).
  - intros req w w' response [H | H].
    + exact (api_generate_image_well_formed env req w response w' H).
    + exact (api_manipulate_image_well_formed env req w response w' H).
Qed.

Lemma responses_well_formed_witness :
  GenerateImage.handler (sample_env (Some "key") offline) (mkEvent "GET" [] None) initial
  = (Ok (mkResponse 405 json_headers (error_body "Method not allowed")), initial)
  /\ well_formed (mkResponse 429 json_headers rate_limit_body)
  /\ well_formed_reply (Server.mkReply 500 (error_body "No content generated")).
Proof.
  split; [|split].
  - apply (proj1 (proj2 (responses_well_formed (sample_env (Some "key") offline)))
             (mkEvent "GET" [] None) initial); discriminate.
  - apply (proj1 (proj2 (proj2 (responses_well_formed
                                  (sample_env (Some "key") (Rejected rate_limited)))))
             red_circle_event initial
             (called (text_request (VStr "a red circle")) initial)).
    + discriminate.
    + left. reflexivity.
  - apply (proj2 (proj2 (proj2 (responses_well_formed
                                  (sample_env (Some "key")
                                     (Streaming (mkStream [] None))))))
             red_circle_request initial
             (called (text_request (VStr "a red circle")) initial)).
    left. reflexivity.
Defined.

(** ** Success *)

Lemma success_results (prompt : value) (rs : list value) :
  truthy prompt = true ->
  exists j,
    JSON_stringify (VObj (success prompt [] rs)) = Document j
    /\ member "success" j = Some (JBool true)
    /\ member "results" j = Some (JArr (map json_element rs)).
Proof.
  intros Hp. destruct (truthy_written prompt Hp) as [jp Hj].
  unfold JSON_stringify, success. cbn. rewrite Hj.
  eexists. repeat split; reflexivity.
Qed.

Lemma success_with_original_results (prompt original : value) (rs : list value) :
  truthy prompt = true ->
  exists j,
    JSON_stringify (VObj (success prompt [("originalImage", original)] rs)) = Document j
    /\ member "success" j = Some (JBool true)
    /\ member "results" j = Some (JArr (map json_element rs)).
Proof.
  intros Hp. destruct (truthy_written prompt Hp) as [jp Hj].
  unfold JSON_stringify, success. cbn. rewrite Hj.
  destruct (to_json original); eexists; repeat split; reflexivity.
Qed.

Lemma length_not_zero {A} (l : list A) : (List.length l =? 0)%nat = false -> l <> [].
Proof. destruct l; [discriminate | congruence]. Qed.

Section Succeeded.
Context (env : Env).

Lemma succeeded_intro (w w2 : World) (request : value) (b : Body) (rs : list value) :
  calls w2 = calls (called request w) ->
  (List.length rs =? 0)%nat = false ->
  (exists j, b = Document j
             /\ member "success" j = Some (JBool true)
             /\ member "results" j = Some (JArr (map json_element rs))) ->
  succeeded w w2 b.
Proof.
  intros Hc Hl (j & Hb & Hs & Hm). split; [exists request; exact Hc|].
  exists j, rs. repeat split; auto using length_not_zero.
Qed.

Lemma handler_succeeded (event : Event) (w w' : World) (response : Response) :
  GenerateImage.handler env event w = (Ok response, w') ->
  statusCode response = 200%Z ->
  httpMethod event <> "OPTIONS" ->
  succeeded w w' (response_body response).
Proof.
  intros H Hs Hm. run_in H.
  destruct (String.eqb_spec (httpMethod event) "OPTIONS") as [E | _]; [contradiction|].
  destruct (negb (httpMethod event =? "POST")); [fails H Hs|].
  destruct (body event) as [text|];
    [destruct (JSON_parse env text) as [v|]; [|fails H Hs]|].
  all: destruct (destructure _ "prompt") as [prompt | e]; [|fails H Hs].
  all: destruct (truthy prompt) eqn:Hp; cbn [negb] in H; [|fails H Hs].
  all: destruct (negb (truthy (env_value (GEMINI_API_KEY env)))); [fails H Hs|].
  all: destruct (model_client env _) as [e | s]; [fails H Hs|].
  all: destruct (GenerateImage.processAIResponse env s _ _) as [[rs | e] w2] eqn:E;
    [|fails H Hs].
  all: destruct (List.length rs =? 0)%nat eqn:Hl; [fails H Hs|].
  all: injection H as <- <-.
  all: apply (succeeded_intro _ _ _ _ rs
                (calls_after _ _ _ _ (processAIResponse_calls env _ s _) E) Hl).
  all: apply (success_results prompt rs Hp).
Qed.

Lemma manipulate_handler_succeeded (event : Event) (w w' : World) (response : Response) :
  ManipulateImage.handler env event w = (Ok response, w') ->
  statusCode response = 200%Z ->
  httpMethod event <> "OPTIONS" ->
  succeeded w w' (response_body response).
Proof.
  intros H Hs Hm. run_in H.
  destruct (String.eqb_spec (httpMethod event) "OPTIONS") as [E | _]; [contradiction|].
  destruct (negb (httpMethod event =? "POST")); [fails H Hs|].
  destruct (negb (truthy _) || _); [fails H Hs|].
  destruct (negb (truthy (env_value _))); [fails H Hs|].
  destruct (body event) as [text|]; [|fails H Hs].
  destruct (truthy (own "prompt" _)) eqn:Hp; cbn [negb] in H; [|fails H Hs].
  destruct (negb (truthy (own "image" _))); [fails H Hs|].
  destruct (negb (truthy (env_value (GEMINI_API_KEY env)))); [fails H Hs|].
  destruct (get_prop _ "mimeType") as [mimeType | e]; [|fails H Hs].
  destruct (get_prop _ "data") as [data | e]; [|fails H Hs].
  destruct (model_client env _) as [e | s]; [fails H Hs|].
  destruct (ManipulateImage.processAIResponse env s _ _) as [[rs | e] w2] eqn:E;
    [|fails H Hs].
  destruct (List.length rs =? 0)%nat eqn:Hl; [fails H Hs|].
  injection H as <- <-.
  apply (succeeded_intro _ _ _ _ rs
           (calls_after _ _ _ _ (processAIResponse_calls env _ s _) E) Hl).
  apply (success_with_original_results _ _ rs Hp).
Qed.

Lemma api_generate_image_succeeded (req : Server.Request) (w w' : World)
      (response : Server.Reply) :
  Server.api_generate_image env req w = (Ok response, w') ->
  Server.status response = 200%Z ->
  succeeded w w' (Server.sent response).
Proof.
  intros H Hs. run_in H.
  destruct (destructure _ "prompt") as [prompt | e]; [|fails H Hs].
  destruct (truthy prompt) eqn:Hp; cbn [negb] in H; [|fails H Hs].
  destruct (negb (truthy (env_value (GEMINI_API_KEY env)))); [fails H Hs|].
  destruct (model_client env _) as [e | s]; [fails H Hs|].
  destruct (Server.processAIResponse env s _ _) as [[rs | e] w2] eqn:E; [|fails H Hs].
  destruct (List.length rs =? 0)%nat eqn:Hl; [fails H Hs|].
  injection H as <- <-.
  apply (succeeded_intro _ _ _ _ rs
           (calls_after _ _ _ _ (server_processAIResponse_calls env _ s _) E) Hl).
  apply (success_results prompt rs Hp).
Qed.

Lemma api_manipulate_image_succeeded (req : Server.Request) (w w' : World)
      (response : Server.Reply) :
  Server.api_manipulate_image env req w = (Ok response, w') ->
  Server.status response = 200%Z ->
  succeeded w w' (Server.sent response).
Proof.
  intros H Hs. run_in H.
  destruct (destructure _ "prompt") as [prompt | e]; [|fails H Hs].
  destruct (truthy prompt) eqn:Hp; cbn [negb] in H; [|fails H Hs].
  destruct (Server.req_file req) as [f|]; [|fails H Hs].
  destruct (negb (truthy (env_value (GEMINI_API_KEY env)))); [fails H Hs|].
  destruct (model_client env _) as [e | s]; [fails H Hs|].
  destruct (Server.processAIResponse env s _ _) as [[rs | e] w2] eqn:E; [|fails H Hs].
  destruct (List.length rs =? 0)%nat eqn:Hl; [fails H Hs|].
  injection H as <- <-.
  apply (succeeded_intro _ _ _ _ rs
           (calls_after _ _ _ _ (server_processAIResponse_calls env _ s _) E) Hl).
  apply (success_with_original_results _ _ rs Hp).
Qed.
End Succeeded.

(** X5.  No partial success: whenever one of the four handlers answers 200
    to a request (the preflight apart), it has called the model client
    exactly once and its body carries [success: true] and a list of results
    that is not empty. *)
Theorem success_means_one_call_and_results :
  forall (env : Env),
    (forall (event : Event) (w w' : World) (response : Response),
        httpMethod event <> "OPTIONS" ->
        statusCode response = 200%Z ->
        GenerateImage.handler env event w = (Ok response, w')
        \/ ManipulateImage.handler env event w = (Ok response, w') ->
        succeeded w w' (response_body response))
    /\ (forall (req : Server.Request) (w w' : World) (response : Server.Reply),
           Server.status response = 200%Z ->
           Server.api_generate_image env req w = (Ok response, w')
           \/ Server.api_manipulate_image env req w = (Ok response, w') ->
           succeeded w w' (Server.sent response)).
Proof.
  intros env. split.
  - intros event w w' response Hm Hs [H | H].
    + exact (handler_succeeded env event w w' response H Hs Hm).
    + exact (manipulate_handler_succeeded env event w w' response H Hs Hm).
  - intros req w w' response Hs [H | H].
    + exact (api_generate_image_succeeded env req w w' response H Hs).
    + exact (api_manipulate_image_succeeded env req w w' response H Hs).
Qed.

Lemma success_means_one_call_and_results_witness :
  succeeded initial (tick 1 (called (text_request (VStr "a red circle")) initial))
    (response_body
       (reply 200
          (success (VStr "a red circle") []
             [GenerateImage.image_result (VStr "iVBORw0KGgo=") (VStr "image/png")
                "text_to_image_1700000000000_0.png";
              GenerateImage.text_result (VStr "done")]))).
Proof.
  apply (proj1 (success_means_one_call_and_results
                  (sample_env (Some "key") (Streaming red_circle_stream)))
           red_circle_event initial
           (tick 1 (called (text_request (VStr "a red circle")) initial))).
  - discriminate.
  - reflexivity.
  - left. reflexivity.
Defined.

(** ** The handlers of /manipulate-image, continued *)

Section ManipulateCalls.
Context (env : Env).




End ManipulateCalls.



(** ** The order of the checks *)

(** X7.  A prompt that is there but falsy (the empty string, [null], [0],
    [false]) counts as missing, and the prompt is checked first: each of the
    four handlers answers 400 with [Prompt is required] whatever the key and
    the image are, and leaves the world as it was. *)
Theorem falsy_prompt_rejected_first :
  forall (env : Env) (w : World),
    (forall (event : Event) (prompt : value),
        posted env event prompt -> truthy prompt = false ->
        GenerateImage.handler env event w
        = (Ok (mkResponse 400 json_headers (error_body "Prompt is required")), w))
    /\ (forall (event : Event) (formData : list (string * value)),
           uploaded env event formData ->
           truthy (own "prompt" formData) = false ->
           ManipulateImage.handler env event w
           = (Ok (mkResponse 400 json_headers (error_body "Prompt is required")), w))
    /\ (forall (req : Server.Request) (prompt : value),
           destructure (Server.req_body req) "prompt" = Ok prompt ->
           truthy prompt = false ->
           Server.api_generate_image env req w
           = (Ok (Server.mkReply 400 (error_body "Prompt is required")), w)
           /\ Server.api_manipulate_image env req w
              = (Ok (Server.mkReply 400 (error_body "Prompt is required")), w)).
Proof.
  intros env w. split; [|split].
  - intros event prompt (Hm & text & parsed & Hb & Hp & Hd) Ht.
    run. rewrite Hm, Hb, Hp, Hd, Ht. reflexivity.
  - intros event formData Hu Ht.
    rewrite (manipulate_handler_form env event formData w Hu).
    cbv zeta. now rewrite Ht.
  - intros req prompt Hd Ht. split; run; rewrite Hd, Ht; reflexivity.
Qed.

Lemma falsy_prompt_rejected_first_witness :
  Server.api_manipulate_image (sample_env None offline)
    (Server.mkRequest (VObj [("prompt", VStr "")]) (Some sample_file)) initial
  = (Ok (Server.mkReply 400 (error_body "Prompt is required")), initial).
Proof.
  refine (proj2 (proj2 (proj2 (falsy_prompt_rejected_first (sample_env None offline)
                                 initial))
                   (Server.mkRequest (VObj [("prompt", VStr "")]) (Some sample_file))
                   (VStr "") _ _));
    reflexivity.
Defined.

(** ** Requests that cannot be read *)

(** X8.  What cannot be read is answered before any check of the prompt,
    and the model client is not called.  The stateless /generate-image
    answers 500 with [Failed to generate image], not 400, when the body is
    absent, is not JSON or is the JSON [null], and so does the route of the
    server when [req.body] is [undefined] or [null].  The stateless
    /manipulate-image answers 400 when neither [content-type] nor
    [Content-Type] is a header or the header does not mention
    [multipart/form-data], 400 when nothing follows [boundary=], and 500
    when the body is absent. *)
Theorem unreadable_requests :
  forall (env : Env) (w : World),
    (forall event : Event,
        httpMethod event = "POST" ->
        body event = None
        \/ (exists text, body event = Some text
                         /\ (JSON_parse env text = None
                             \/ JSON_parse env text = Some VNull)) ->
        exists details,
          GenerateImage.handler env event w
          = (Ok (reply 500 [("error", VStr "Failed to generate image");
                            ("details", VStr details)]), w))
    /\ (forall req : Server.Request,
           nullish (Server.req_body req) = true ->
           exists details,
             Server.api_generate_image env req w
             = (Ok (Server.respond 500 [("error", VStr "Failed to generate image");
                                        ("details", VStr details)]), w))
    /\ (forall event : Event,
           httpMethod event = "POST" ->
           let contentType := js_or (ManipulateImage.header event "content-type")
                                    (ManipulateImage.header event "Content-Type") in
           (lookup "content-type" (headers event) = None ->
            lookup "Content-Type" (headers event) = None ->
            contentType = VUndefined)
           /\ (truthy contentType = false
               \/ includes "multipart/form-data" (String_of contentType) = false ->
               ManipulateImage.handler env event w
               = (Ok (mkResponse 400 json_headers
                        (error_body "Content-Type must be multipart/form-data")), w))
           /\ (forall text : string,
                  contentType = VStr text ->
                  includes "multipart/form-data" text = true ->
                  (nth_error (split "boundary=" text) 1 = None
                   \/ nth_error (split "boundary=" text) 1 = Some "" ->
                   ManipulateImage.handler env event w
                   = (Ok (mkResponse 400 json_headers
                            (error_body "Missing boundary in Content-Type")), w))
                  /\ (forall boundary,
                         nth_error (split "boundary=" text) 1 = Some boundary ->
                         boundary <> "" ->
                         body event = None ->
                         exists details,
                           ManipulateImage.handler env event w
                           = (Ok (reply 500
                                    [("error", VStr "Failed to manipulate image");
                                     ("details", VStr details)]), w)))).
Proof.
  intros env w. split; [|split].
  - intros event Hm [Hb | (text & Hb & [Hp | Hp])]; eexists;
      run; rewrite Hm, Hb, ?Hp; reflexivity.
  - intros req Hn. destruct (Server.req_body req) eqn:Hb; try discriminate;
      eexists; run; rewrite Hb; reflexivity.
  - intros event Hm contentType. subst contentType. split; [|split].
    + intros H1 H2. unfold ManipulateImage.header. now rewrite H1, H2.
    + intros H. unfold ManipulateImage.handler. rewrite Hm.
      cbn [String.eqb Ascii.eqb Bool.eqb negb]. unfold try_catch, ret.
      destruct H as [H | H]; rewrite H; cbn [negb orb]; [reflexivity|].
      now rewrite Bool.orb_true_r.
    + intros text Ht Hi. split.
      * intros H. unfold ManipulateImage.handler. rewrite Hm.
        cbn [String.eqb Ascii.eqb Bool.eqb negb]. unfold try_catch, ret.
        rewrite Ht. cbn [truthy String_of negb orb]. rewrite Hi.
        destruct text as [|c text]; [discriminate|]. cbn [truthy negb orb].
        destruct H as [H | H]; cbn [String_of] in *; rewrite H; reflexivity.
      * intros boundary Hs Hne Hb. eexists.
        unfold ManipulateImage.handler. rewrite Hm.
        cbn [String.eqb Ascii.eqb Bool.eqb negb]. unfold try_catch, ret, bind, throw.
        rewrite Ht. destruct text as [|c text]; [discriminate|].
        cbn [truthy String_of negb orb] in *. rewrite Hi, Hs, Hb.
        destruct boundary; [congruence|]. reflexivity.
Qed.

(** ** Strings, continued *)

Lemma length_append (a b : string) :
  String.length (a ++ b) = String.length a + String.length b.
Proof. induction a as [|x a IH]; simpl; [reflexivity | now rewrite IH]. Qed.

Lemma occurs_app (c : ascii) (a b : string) :
  occurs c (a ++ b) = occurs c a || occurs c b.
Proof.
  induction a as [|x a IH]; simpl; [reflexivity|].
  now rewrite IH, Bool.orb_assoc.
Qed.

Lemma prefix_head (c x : ascii) (s r : string) :
  Ascii.eqb x c = false -> prefix (String c s) (String x r) = false.
Proof.
  intros H. simpl. destruct (ascii_dec c x) as [-> | _]; [|reflexivity].
  now rewrite Ascii.eqb_refl in H.
Qed.

Lemma prefix_short (sub : string) :
  forall s, String.length s < String.length sub -> prefix sub s = false.
Proof.
  induction sub as [|c sub IH]; intros [|x s] H; simpl in *; try lia;
    try reflexivity.
  destruct (ascii_dec c x); [apply IH; lia | reflexivity].
Qed.

Lemma prefix_app (sub : string) :
  forall s rest, String.length sub <= String.length s ->
                 prefix sub (s ++ rest) = prefix sub s.
Proof.
  induction sub as [|c sub IH]; intros [|x s] rest H; simpl in *; try lia;
    try reflexivity.
  - now destruct rest.
  - destruct (ascii_dec c x); [apply IH; lia | reflexivity].
Qed.

Lemma prefix_here (sub rest : string) : prefix sub (sub ++ rest) = true.
Proof.
  induction sub as [|c sub IH]; simpl; [now destruct rest|].
  destruct (ascii_dec c c); [exact IH | congruence].
Qed.

(** A character foreign to [sub] ends every attempt to match [sub]. *)
Lemma prefix_foreign (c : ascii) (sub : string) :
  forall s rest, occurs c sub = false ->
                 prefix sub (s ++ String c rest) = prefix sub s.
Proof.
  induction sub as [|p sub IH]; intros [|x s] rest H; simpl in *; try reflexivity.
  - apply Bool.orb_false_iff in H as [H _].
    destruct (ascii_dec p c) as [-> | _]; [|reflexivity].
    now rewrite Ascii.eqb_refl in H.
  - apply Bool.orb_false_iff in H as [_ H].
    destruct (ascii_dec p x); [now apply IH | reflexivity].
Qed.

Lemma substring_from (a s : string) (n : nat) :
  substring (String.length a) n (a ++ s) = substring 0 n s.
Proof. induction a as [|x a IH]; simpl; [reflexivity | exact IH]. Qed.

Lemma substring_head (v b : string) : substring 0 (String.length v) (v ++ b) = v.
Proof.
  induction v as [|x v IH]; simpl; [now destruct b | now rewrite IH].
Qed.

Lemma substring_length (s : string) :
  forall a n, a + n <= String.length s -> String.length (substring a n s) = n.
Proof.
  induction s as [|x s IH]; intros [|a] [|n] H; simpl in *; try lia; try reflexivity.
  - rewrite IH; lia.
  - apply IH; lia.
  - apply IH; lia.
Qed.

Lemma rev_string_acc (a : string) :
  forall b, rev_string b a = rev_string "" a ++ b.
Proof.
  induction a as [|x a IH]; intros b; simpl; [reflexivity|].
  rewrite (IH (String x b)), (IH (String x "")), append_assoc. reflexivity.
Qed.

Lemma rev_string_twice (p : string) :
  forall cur, rev_string "" (rev_string cur p) = rev_string "" cur ++ p.
Proof.
  induction p as [|x p IH]; intros cur; simpl.
  - clear. induction (rev_string "" cur) as [|y r IH]; simpl; [reflexivity|].
    now rewrite <- IH.
  - rewrite IH. simpl. rewrite (rev_string_acc cur (String x "")), append_assoc.
    reflexivity.
Qed.

(** ** [indexOf] and [lastIndexOf] *)

Lemma indexOf_from_skip (c : ascii) (sub a rest : string) :
  forall i, occurs c a = false ->
            indexOf_from (String c sub) (a ++ rest) i
            = indexOf_from (String c sub) rest (i + Z.of_nat (String.length a)).
Proof.
  induction a as [|x a IH]; intros i H.
  - simpl. now rewrite Z.add_0_r.
  - simpl in H. apply Bool.orb_false_iff in H as [Hx Ha].
    cbn [append indexOf_from]. rewrite (prefix_head _ _ _ _ Hx), (IH _ Ha).
    cbn [String.length].
    replace (i + 1 + Z.of_nat (String.length a))%Z
      with (i + Z.of_nat (S (String.length a)))%Z by lia.
    reflexivity.
Qed.

Lemma indexOf_from_here (sub rest : string) (i : Z) :
  indexOf_from sub (sub ++ rest) i = i.
Proof.
  destruct sub as [|c sub]; [now destruct rest|].
  cbn [append indexOf_from].
  change (String c (sub ++ rest)) with (String c sub ++ rest).
  now rewrite prefix_here.
Qed.

(** A line break before a line that is not empty is no blank line. *)
Lemma indexOf_from_line (x : ascii) (a rest : string) (i : Z) :
  Ascii.eqb x CR = false ->
  indexOf_from (CRLF ++ CRLF) (CRLF ++ String x a ++ rest) i
  = indexOf_from (CRLF ++ CRLF) (String x a ++ rest) (i + 2).
Proof.
  intros H. unfold CRLF at 3. cbn [append indexOf_from].
  assert (P1 : prefix (CRLF ++ CRLF) (String CR (String LF (String x (a ++ rest))))
               = false).
  { change (CRLF ++ CRLF) with (String CR (String LF (String CR (String LF "")))).
    cbn [prefix]. destruct (ascii_dec CR CR); [|congruence].
    destruct (ascii_dec LF LF); [|congruence].
    destruct (ascii_dec CR x) as [<- | _]; [|reflexivity].
    now rewrite Ascii.eqb_refl in H. }
  rewrite P1.
  assert (P2 : prefix (CRLF ++ CRLF) (String LF (String x (a ++ rest))) = false).
  { apply prefix_head. reflexivity. }
  rewrite P2. replace (i + 1 + 1)%Z with (i + 2)%Z by lia. reflexivity.
Qed.

Lemma lastIndexOf_from_short (sub : string) :
  forall s i last, String.length s < String.length sub ->
                   lastIndexOf_from sub s i last = last.
Proof.
  induction s as [|x s IH]; intros i last H; cbn [lastIndexOf_from].
  - now rewrite prefix_short.
  - rewrite prefix_short by exact H. apply IH. simpl in H. lia.
Qed.

Lemma lastIndexOf_from_end (sub : string) :
  sub <> "" ->
  forall a i last,
    lastIndexOf_from sub (a ++ sub) i last = (i + Z.of_nat (String.length a))%Z.
Proof.
  intros Hs. induction a as [|x a IH]; intros i last.
  - destruct sub as [|c sub]; [congruence|]. cbn [append lastIndexOf_from].
    pose proof (prefix_here (String c sub) "") as P.
    assert (E : String c sub ++ "" = String c sub).
    { clear. induction (String c sub) as [|y r IH]; simpl; [reflexivity|].
      now rewrite IH. }
    rewrite E in P. rewrite P, lastIndexOf_from_short; simpl; lia.
  - cbn [append lastIndexOf_from String.length]. rewrite IH. lia.
Qed.

(** A match lies inside the string. *)
Lemma lastIndexOf_from_bound (sub : string) :
  forall s i last,
    lastIndexOf_from sub s i last = last
    \/ (i <= lastIndexOf_from sub s i last
        /\ lastIndexOf_from sub s i last + Z.of_nat (String.length sub)
           <= i + Z.of_nat (String.length s))%Z.
Proof.
  induction s as [|x s IH]; intros i last; cbn [lastIndexOf_from].
  - destruct (prefix sub "") eqn:P; [|now left].
    right. destruct sub; [simpl; lia | discriminate].
  - destruct (prefix sub (String x s)) eqn:P.
    + destruct (IH (i + 1)%Z i) as [E | [H1 H2]]; right.
      * rewrite E. split; [lia|].
        destruct (Nat.lt_ge_cases (String.length (String x s)) (String.length sub))
          as [L | L]; [now rewrite prefix_short in P|]. lia.
      * cbn [String.length]. lia.
    + destruct (IH (i + 1)%Z last) as [E | [H1 H2]]; [now left | right].
      cbn [String.length]. lia.
Qed.

Lemma append_empty (s : string) : s ++ "" = s.
Proof. induction s as [|x s IH]; simpl; [reflexivity | now rewrite IH]. Qed.

Lemma indexOf_from_step (c x : ascii) (sub r : string) (i : Z) :
  Ascii.eqb x c = false ->
  indexOf_from (String c sub) (String x r) i = indexOf_from (String c sub) r (i + 1).
Proof. intros H. cbn [indexOf_from]. now rewrite prefix_head. Qed.

Lemma indexOf_from_found (sub s : string) (i : Z) :
  prefix sub s = true -> indexOf_from sub s i = i.
Proof. intros H. destruct s; cbn [indexOf_from]; now rewrite H. Qed.

Lemma indexOf_from_break (x : ascii) (sub r : string) (i : Z) :
  Ascii.eqb x CR = false ->
  indexOf_from (String CR (String LF (String CR sub)))
               (String CR (String LF (String x r))) i
  = indexOf_from (String CR (String LF (String CR sub))) (String x r) (i + 2).
Proof.
  intros H.
  pose proof (indexOf_from_line x "" r i H) as E.
  unfold CRLF in E. cbn [append] in E.
  cbn [indexOf_from].
  assert (P1 : prefix (String CR (String LF (String CR sub)))
                      (String CR (String LF (String x r))) = false).
  { cbn [prefix]. destruct (ascii_dec CR CR); [|congruence].
    destruct (ascii_dec LF LF); [|congruence].
    destruct (ascii_dec CR x) as [<- | _]; [|reflexivity].
    now rewrite Ascii.eqb_refl in H. }
  rewrite P1.
  assert (P2 : prefix (String CR (String LF (String CR sub))) (String LF (String x r))
               = false) by (apply prefix_head; reflexivity).
  rewrite P2. replace (i + 1 + 1)%Z with (i + 2)%Z by lia. reflexivity.
Qed.

(** ** [split] *)

Lemma split_go_skip (sep : string) :
  forall s1 s2 cur,
    split_go sep (String.length s1) cur (s1 ++ s2) = split_go sep 0 cur s2.
Proof. induction s1 as [|x s1 IH]; intros s2 cur; simpl; [reflexivity | apply IH]. Qed.

Lemma split_go_piece (sep : string) :
  sep <> "" ->
  forall p cur rest,
    free_of sep p = true ->
    split_go sep 0 cur (p ++ sep ++ rest)
    = (rev_string "" cur ++ p) :: split_go sep 0 "" rest.
Proof.
  intros Hs. induction p as [|x p IH]; intros cur rest F.
  - destruct sep as [|c sep]; [congruence|].
    cbn [append split_go].
    change (String c (sep ++ rest)) with (String c sep ++ rest).
    rewrite prefix_here, append_empty. cbn [String.length].
    rewrite Nat.sub_succ, Nat.sub_0_r, split_go_skip. reflexivity.
  - cbn [free_of] in F. apply andb_prop in F as [P F].
    apply negb_true_iff in P.
    cbn [append split_go].
    change (String x (p ++ sep ++ rest)) with (String x p ++ sep ++ rest).
    rewrite <- append_assoc, prefix_app, P.
    + rewrite (IH _ _ F). cbn [rev_string].
      rewrite (rev_string_acc cur (String x "")), append_assoc. reflexivity.
    + rewrite length_append. lia.
Qed.

Lemma split_go_last (sep : string) :
  forall s cur, includes sep s = false ->
                split_go sep 0 cur s = [rev_string "" cur ++ s].
Proof.
  induction s as [|x s IH]; intros cur H.
  - cbn [split_go]. now rewrite append_empty.
  - cbn [includes] in H. apply Bool.orb_false_iff in H as [P H].
    cbn [split_go]. rewrite P, (IH _ H). cbn [rev_string].
    rewrite (rev_string_acc cur (String x "")), append_assoc. reflexivity.
Qed.

(** Splitting a body at its delimiter gives what stands before the first
    delimiter, the parts, and what stands after the last delimiter. *)
Lemma split_delimited (sep tail : string) (parts : list string) :
  sep <> "" ->
  Forall (fun p => free_of sep p = true) parts ->
  includes sep tail = false ->
  split sep (delimited sep parts ++ sep ++ tail) = ("" :: parts ++ [tail])%list.
Proof.
  intros Hs F Ht.
  assert (G : forall parts p,
             free_of sep p = true ->
             Forall (fun p => free_of sep p = true) parts ->
             split_go sep 0 "" (p ++ delimited sep parts ++ sep ++ tail)
             = (p :: parts ++ [tail])%list).
  { clear parts F. induction parts as [|q parts IH]; intros p Fp F.
    - cbn [delimited append app].
      rewrite (split_go_piece sep Hs p "" tail Fp), (split_go_last sep tail "" Ht).
      reflexivity.
    - inversion F as [|? ? Fq Fr]; subst.
      cbn [delimited]. rewrite !append_assoc.
      rewrite (split_go_piece sep Hs p "" _ Fp).
      rewrite (IH q Fq Fr). reflexivity. }
  exact (G parts "" eq_refl F).
Qed.

(** ** The parts of a multipart body *)

Lemma until_quote_app (n rest : string) :
  occurs DQUOTE n = false ->
  ManipulateImage.until_quote (n ++ String DQUOTE rest) = Some n.
Proof.
  induction n as [|x n IH]; intros H; cbn [append ManipulateImage.until_quote].
  - now rewrite Ascii.eqb_refl.
  - simpl in H. apply Bool.orb_false_iff in H as [Hx Hn].
    now rewrite Hx, (IH Hn).
Qed.

Lemma match_name_skip (x : ascii) (r : string) :
  prefix ManipulateImage.name_eq_quote (String x r) = false ->
  ManipulateImage.match_name (String x r) = ManipulateImage.match_name r.
Proof. intros H. cbn [ManipulateImage.match_name]. now rewrite H. Qed.

Lemma match_name_found (s n rest : string) :
  prefix ManipulateImage.name_eq_quote s = true ->
  drop 6 s = n ++ String DQUOTE rest ->
  n <> "" -> occurs DQUOTE n = false ->
  ManipulateImage.match_name s = Some n.
Proof.
  intros P D Hn Hq.
  destruct s as [|x r]; cbn [ManipulateImage.match_name];
    rewrite P, D, (until_quote_app _ _ Hq);
    destruct n; [congruence | reflexivity | congruence | reflexivity].
Qed.

Lemma line_run_app (m rest : string) :
  occurs CR m = false -> occurs LF m = false ->
  ManipulateImage.line_run (m ++ String CR rest) = m.
Proof.
  induction m as [|x m IH]; intros H1 H2; cbn [append ManipulateImage.line_run].
  - now rewrite Ascii.eqb_refl.
  - simpl in H1, H2.
    apply Bool.orb_false_iff in H1 as [H1 H1'].
    apply Bool.orb_false_iff in H2 as [H2 H2'].
    now rewrite H1, H2, (IH H1' H2').
Qed.

Lemma match_content_type_skip (x : ascii) (r : string) :
  prefix "Content-Type: " (String x r) = false ->
  ManipulateImage.match_content_type (String x r)
  = ManipulateImage.match_content_type r.
Proof. intros H. cbn [ManipulateImage.match_content_type]. now rewrite H. Qed.

Lemma match_content_type_run (a rest : string) :
  includes "Content-Type: " a = false ->
  ManipulateImage.match_content_type (a ++ String DQUOTE rest)
  = ManipulateImage.match_content_type (String DQUOTE rest).
Proof.
  induction a as [|x a IH]; intros H; [reflexivity|].
  cbn [includes] in H. apply Bool.orb_false_iff in H as [P H].
  cbn [append]. rewrite match_content_type_skip; [exact (IH H)|].
  change (String x (a ++ String DQUOTE rest)) with (String x a ++ String DQUOTE rest).
  rewrite prefix_foreign; [exact P | reflexivity].
Qed.

Lemma match_content_type_found (s m rest : string) :
  prefix "Content-Type: " s = true ->
  drop 14 s = m ++ String CR rest ->
  m <> "" -> occurs CR m = false -> occurs LF m = false ->
  ManipulateImage.match_content_type s = Some m.
Proof.
  intros P D Hm H1 H2.
  destruct s as [|x r]; cbn [ManipulateImage.match_content_type];
    rewrite P, D, (line_run_app _ _ H1 H2);
    destruct m; [congruence | reflexivity | congruence | reflexivity].
Qed.

(** The value between the blank line and the last line break of a part. *)
Lemma payload (hdr value : string) :
  indexOf (CRLF ++ CRLF) (hdr ++ (CRLF ++ CRLF) ++ value ++ CRLF)
  = Z.of_nat (String.length hdr) ->
  value <> "" ->
  let part := hdr ++ (CRLF ++ CRLF) ++ value ++ CRLF in
  ((3 <? indexOf (CRLF ++ CRLF) part + 4)%Z
   && (indexOf (CRLF ++ CRLF) part + 4 <? lastIndexOf CRLF part)%Z = true)
  /\ slice (indexOf (CRLF ++ CRLF) part + 4) (lastIndexOf CRLF part) part = value.
Proof.
  intros Hi Hv part. subst part. rewrite Hi.
  assert (L : lastIndexOf CRLF (hdr ++ (CRLF ++ CRLF) ++ value ++ CRLF)
              = Z.of_nat (String.length hdr + 4 + String.length value)).
  { rewrite <- !append_assoc. unfold lastIndexOf.
    rewrite lastIndexOf_from_end by discriminate.
    rewrite !length_append. simpl. lia. }
  rewrite L. split.
  - apply andb_true_intro. split; [apply Z.ltb_lt; lia|].
    apply Z.ltb_lt. destruct value; [congruence|]. simpl. lia.
  - unfold slice.
    replace (Z.to_nat (Z.of_nat (String.length hdr) + 4))
      with (String.length (hdr ++ CRLF ++ CRLF)) by (rewrite length_append; simpl; lia).
    replace (Z.to_nat (Z.of_nat (String.length hdr + 4 + String.length value)
                       - (Z.of_nat (String.length hdr) + 4)))
      with (String.length value) by lia.
    rewrite <- (append_assoc hdr (CRLF ++ CRLF) (value ++ CRLF)).
    rewrite substring_from. apply substring_head.
Qed.

Lemma text_part_layout (name value : string) :
  text_part name value = text_header name ++ (CRLF ++ CRLF) ++ value ++ CRLF.
Proof. unfold text_part, text_header. now rewrite !append_assoc. Qed.

Lemma file_part_layout (filename mimeType data : string) :
  file_part filename mimeType data
  = file_header filename mimeType ++ (CRLF ++ CRLF) ++ data ++ CRLF.
Proof. unfold file_part, file_header. now rewrite !append_assoc. Qed.

Ltac spell := unfold CRLF, QUOTE; cbn [append].

Lemma text_part_blank_line (name value : string) :
  occurs CR name = false ->
  indexOf (CRLF ++ CRLF) (text_part name value)
  = Z.of_nat (String.length (text_header name)).
Proof.
  intros H. unfold indexOf, text_part, text_header. spell.
  rewrite indexOf_from_break by reflexivity.
  repeat rewrite indexOf_from_step by reflexivity.
  rewrite indexOf_from_skip by exact H.
  rewrite indexOf_from_step by reflexivity.
  rewrite indexOf_from_found by exact (prefix_here (CRLF ++ CRLF) _).
  cbn [String.length]. rewrite length_append. cbn [String.length]. lia.
Qed.

Lemma file_part_blank_line (filename mimeType data : string) :
  occurs CR filename = false -> mimeType <> "" -> occurs CR mimeType = false ->
  indexOf (CRLF ++ CRLF) (file_part filename mimeType data)
  = Z.of_nat (String.length (file_header filename mimeType)).
Proof.
  intros H Hm H'. unfold indexOf, file_part, file_header. spell.
  rewrite indexOf_from_break by reflexivity.
  repeat rewrite indexOf_from_step by reflexivity.
  rewrite indexOf_from_skip by exact H.
  rewrite indexOf_from_step by reflexivity.
  rewrite indexOf_from_break by reflexivity.
  repeat rewrite indexOf_from_step by reflexivity.
  rewrite indexOf_from_skip by exact H'.
  rewrite indexOf_from_found by exact (prefix_here (CRLF ++ CRLF) _).
  cbn [String.length]. rewrite length_append. cbn [String.length]. lia.
Qed.

Lemma text_part_name (name value : string) :
  name <> "" -> occurs DQUOTE name = false ->
  ManipulateImage.match_name (text_part name value) = Some name.
Proof.
  intros Hn Hq. unfold text_part. spell.
  repeat rewrite match_name_skip by reflexivity.
  eapply match_name_found;
    [exact (prefix_here ManipulateImage.name_eq_quote _) | reflexivity
     | exact Hn | exact Hq].
Qed.

Lemma file_part_name (filename mimeType data : string) :
  ManipulateImage.match_name (file_part filename mimeType data) = Some "image".
Proof.
  unfold file_part. spell.
  repeat rewrite match_name_skip by reflexivity.
  eapply (match_name_found _ "image");
    [exact (prefix_here ManipulateImage.name_eq_quote _) | reflexivity
     | discriminate | reflexivity].
Qed.

Lemma file_part_content_type (filename mimeType data : string) :
  includes "Content-Type: " filename = false ->
  mimeType <> "" -> occurs CR mimeType = false -> occurs LF mimeType = false ->
  ManipulateImage.match_content_type (file_part filename mimeType data)
  = Some mimeType.
Proof.
  intros Hf Hm H1 H2. unfold file_part. spell.
  repeat rewrite match_content_type_skip by reflexivity.
  rewrite match_content_type_run by exact Hf.
  repeat rewrite match_content_type_skip by reflexivity.
  eapply match_content_type_found;
    [exact (prefix_here "Content-Type: " _) | reflexivity
     | exact Hm | exact H1 | exact H2].
Qed.

Section Forms.
Context (env : Env).

Lemma parse_part_text (name content : string) (formData : list (string * value)) :
  plain (TextField name content) = true ->
  ManipulateImage.parse_part env (text_part name content) formData
  = assign name (VStr content) formData.
Proof.
  intros H. cbn [plain] in H.
  repeat (apply andb_prop in H as [H ?]).
  repeat match goal with
         | H : negb _ = true |- _ => apply negb_true_iff in H
         end.
  assert (Hn : name <> "") by now apply String.eqb_neq.
  assert (Hv : content <> "") by now apply String.eqb_neq.
  assert (Hi : includes "Content-Disposition" (text_part name content) = true)
    by reflexivity.
  unfold ManipulateImage.parse_part.
  rewrite Hi, (text_part_name name content Hn) by assumption.
  match goal with H : (name =? "image") = false |- _ => rewrite H end.
  pose proof (text_part_blank_line name content) as B.
  rewrite text_part_layout in *.
  destruct (payload (text_header name) content) as [P S]; auto.
  cbv zeta in P, S. now rewrite P, S.
Qed.

Lemma parse_part_file (filename mimeType data : string)
      (formData : list (string * value)) :
  plain (FileField filename mimeType data) = true ->
  ManipulateImage.parse_part env (file_part filename mimeType data) formData
  = assign "image" (VObj [("data", VStr (Buffer_to_base64 env data));
                          ("mimeType", VStr mimeType)]) formData.
Proof.
  intros H. cbn [plain] in H.
  repeat (apply andb_prop in H as [H ?]).
  repeat match goal with
         | H : negb _ = true |- _ => apply negb_true_iff in H
         end.
  assert (Hm : mimeType <> "") by now apply String.eqb_neq.
  assert (Hd : data <> "") by now apply String.eqb_neq.
  assert (Hi : includes "Content-Disposition" (file_part filename mimeType data) = true)
    by reflexivity.
  unfold ManipulateImage.parse_part.
  rewrite Hi, file_part_name, file_part_content_type by assumption.
  cbn [String.eqb Ascii.eqb Bool.eqb].
  pose proof (file_part_blank_line filename mimeType data) as B.
  rewrite file_part_layout in *.
  destruct (payload (file_header filename mimeType) data) as [P S]; auto.
  cbv zeta in P, S. now rewrite P, S.
Qed.

Lemma parse_part_encode (f : Field) (formData : list (string * value)) :
  plain f = true ->
  ManipulateImage.parse_part env (encode f) formData
  = assign (fst (entry env f)) (snd (entry env f)) formData.
Proof.
  destruct f; intros H; [now apply parse_part_text | now apply parse_part_file].
Qed.

Lemma closing_dashes (boundary : string) :
  boundary <> "" -> occurs CR boundary = false ->
  includes ("--" ++ boundary) ("--" ++ CRLF) = false.
Proof.
  intros Hb Hc. destruct boundary as [|x b]; [congruence|].
  simpl in Hc. apply Bool.orb_false_iff in Hc as [Hx _].
  unfold CRLF. cbn [append includes].
  assert (P : prefix (String x b) (String CR (String LF "")) = false)
    by now apply prefix_head.
  assert (E : prefix (String "-" (String "-" (String x b)))
                     (String "-" (String "-" (String CR (String LF "")))) = false).
  { cbn [prefix] in P |- *.
    destruct (ascii_dec "-" "-"); [exact P | congruence]. }
  rewrite E. reflexivity.
Qed.

(** The parser reads a laid out body back: it assigns the entry of each
    field, in the order of the fields. *)
Lemma parse_form_body (boundary : string) (fields : list Field) :
  boundary <> "" -> occurs CR boundary = false ->
  Forall (fun f => plain f = true) fields ->
  Forall (fun f => free_of ("--" ++ boundary) (encode f) = true) fields ->
  ManipulateImage.parseMultipartFormData env
    (form_body boundary (map encode fields)) boundary
  = form_data env fields.
Proof.
  intros Hb Hc Hp Hf. unfold ManipulateImage.parseMultipartFormData, form_body.
  replace ("--" ++ boundary ++ "--" ++ CRLF)
    with (("--" ++ boundary) ++ "--" ++ CRLF) by now rewrite append_assoc.
  rewrite split_delimited.
  - cbn [fold_left]. change (ManipulateImage.parse_part env "" []) with (@nil (string * value)).
    assert (G : forall fields formData,
               Forall (fun f => plain f = true) fields ->
               fold_left (fun fd part => ManipulateImage.parse_part env part fd)
                         (map encode fields ++ [("--" ++ CRLF)%string])%list formData
               = fold_left (fun fd f => assign (fst (entry env f)) (snd (entry env f)) fd)
                           fields formData).
    { clear. induction fields as [|f fields IH]; intros formData F; [reflexivity|].
      inversion F as [|? ? Hf Hr]; subst.
      cbn [map app fold_left]. now rewrite (parse_part_encode f _ Hf), (IH _ Hr). }
    exact (G fields [] Hp).
  - discriminate.
  - clear Hp. induction Hf; cbn [map]; constructor; assumption.
  - now apply closing_dashes.
Qed.

Lemma match_name_not_empty (s n : string) :
  ManipulateImage.match_name s = Some n -> n <> "".
Proof.
  induction s as [|x s IH]; cbn [ManipulateImage.match_name].
  - destruct (prefix ManipulateImage.name_eq_quote "");
      [destruct (ManipulateImage.until_quote _) as [[|c r]|] | ]; congruence.
  - destruct (prefix ManipulateImage.name_eq_quote (String x s));
      [destruct (ManipulateImage.until_quote _) as [[|c r]|] | ];
      try exact IH; congruence.
Qed.

Lemma match_content_type_not_empty (s t : string) :
  ManipulateImage.match_content_type s = Some t -> t <> "".
Proof.
  induction s as [|x s IH]; cbn [ManipulateImage.match_content_type].
  - destruct (prefix "Content-Type: " "");
      [destruct (ManipulateImage.line_run _) as [|c r] | ]; congruence.
  - destruct (prefix "Content-Type: " (String x s));
      [destruct (ManipulateImage.line_run _) as [|c r] | ];
      try exact IH; congruence.
Qed.

Lemma slice_not_empty (part : string) (dataStart : Z) :
  (3 <? dataStart)%Z && (dataStart <? lastIndexOf CRLF part)%Z = true ->
  slice dataStart (lastIndexOf CRLF part) part <> "".
Proof.
  intros H. apply andb_prop in H as [H1 H2].
  apply Z.ltb_lt in H1. apply Z.ltb_lt in H2.
  unfold lastIndexOf in *.
  destruct (lastIndexOf_from_bound CRLF part 0 (-1)) as [E | [L U]]; [lia|].
  simpl in U.
  assert (N : String.length (slice dataStart (lastIndexOf_from CRLF part 0 (-1)) part)
              = Z.to_nat (lastIndexOf_from CRLF part 0 (-1) - dataStart)).
  { unfold slice. apply substring_length. lia. }
  intros E. rewrite E in N. simpl in N. lia.
Qed.

Lemma assign_stored (k : string) (v : value) (formData : list (string * value)) :
  stored (k, v) -> Forall stored formData -> Forall stored (assign k v formData).
Proof.
  intros S F. unfold assign. destruct (k =? "__proto__"); [exact F|].
  induction F as [|[k0 v0] formData S0 F IH]; cbn [set_own].
  - constructor; [exact S | constructor].
  - destruct (k =? k0); constructor; assumption.
Qed.

Lemma parse_part_stored (part : string) (formData : list (string * value)) :
  Forall stored formData ->
  Forall stored (ManipulateImage.parse_part env part formData).
Proof.
  intros F. unfold ManipulateImage.parse_part.
  destruct (includes "Content-Disposition" part); [|exact F].
  destruct (ManipulateImage.match_name part) as [fieldName|] eqn:N; [|exact F].
  apply match_name_not_empty in N.
  destruct (fieldName =? "image") eqn:I.
  - destruct (_ && _); [|exact F].
    apply assign_stored; [|exact F]. split; [discriminate|].
    cbn [fst snd String.eqb Ascii.eqb Bool.eqb].
    do 2 eexists. split; [reflexivity|].
    destruct (ManipulateImage.match_content_type part) as [t|] eqn:T;
      [exact (match_content_type_not_empty _ _ T) | discriminate].
  - destruct (_ && _) eqn:B; [|exact F].
    apply assign_stored; [|exact F]. split; [exact N|]. cbn [fst snd]. rewrite I.
    eexists. split; [reflexivity|]. now apply slice_not_empty.
Qed.

Lemma parsed_stored (body boundary : string) :
  Forall stored (ManipulateImage.parseMultipartFormData env body boundary).
Proof.
  unfold ManipulateImage.parseMultipartFormData.
  assert (G : forall parts formData,
             Forall stored formData ->
             Forall stored
               (fold_left (fun fd part => ManipulateImage.parse_part env part fd)
                          parts formData)).
  { induction parts as [|part parts IH]; intros formData F; [exact F|].
    cbn [fold_left]. apply IH, parse_part_stored, F. }
  apply G. constructor.
Qed.
End Forms.

Section FormData.
Context (env : Env).





End FormData.



Lemma lookup_stored (k : string) (v : value) (formData : list (string * value)) :
  Forall stored formData -> lookup k formData = Some v -> stored (k, v).
Proof.
  induction 1 as [|[k' v'] formData S F IH]; cbn [lookup]; [discriminate|].
  destruct (String.eqb_spec k k') as [-> | _]; [|exact IH].
  intros E. injection E as <-. exact S.
Qed.

(** X10.  Whatever the body and the boundary, every entry of the parsed form
    data is a non-empty string under a name that is not empty, or, under
    [image], an object with a string [data] and a non-empty string
    [mimeType].  So a field read from the form data is [undefined] or
    truthy: [!prompt] and [!imageFile] hold only for fields that were not
    stored, an empty value being never stored. *)
Theorem parsed_fields_stored :
  forall (env : Env) (body boundary : string),
    let formData := ManipulateImage.parseMultipartFormData env body boundary in
    Forall stored formData
    /\ (forall k, own k formData = VUndefined \/ truthy (own k formData) = true)
    /\ (forall k, k <> "image" ->
                  own k formData = VUndefined
                  \/ exists text, own k formData = VStr text /\ text <> "")
    /\ (own "image" formData = VUndefined
        \/ exists data mimeType,
             own "image" formData
             = VObj [("data", VStr data); ("mimeType", VStr mimeType)]
             /\ mimeType <> "").
Proof.
  intros env body boundary formData.
  pose proof (parsed_stored env body boundary) as F. fold formData in F.
  assert (G : forall k, lookup k formData = None
                        \/ exists v, lookup k formData = Some v /\ stored (k, v)).
  { intros k. destruct (lookup k formData) as [v|] eqn:L; [right | now left].
    exists v. split; [reflexivity|]. exact (lookup_stored k v formData F L). }
  split; [exact F|]. split; [|split].
  - intros k. unfold own.
    destruct (G k) as [-> | (v & -> & _ & S)]; [now left | right].
    cbn [fst snd] in S. destruct (k =? "image").
    + destruct S as (data & mimeType & -> & _). reflexivity.
    + destruct S as (text & -> & Ht). simpl.
      now apply negb_true_iff, String.eqb_neq.
  - intros k Hk. unfold own.
    destruct (G k) as [-> | (v & -> & _ & S)]; [now left | right].
    cbn [fst snd] in S. apply String.eqb_neq in Hk. rewrite Hk in S. exact S.
  - unfold own.
    destruct (G "image") as [-> | (v & -> & _ & S)]; [now left | right].
    exact S.
Qed.

Section Called.
Context (env : Env).

Lemma manipulate_handler_called (event : Event) (formData : list (string * value))
      (w : World) :
  uploaded env event formData ->
  truthy (own "prompt" formData) = true ->
  truthy (own "image" formData) = true ->
  configured env ->
  calls (snd (ManipulateImage.handler env event w))
  = image_request (own "prompt" formData)
      (opt_prop (own "image" formData) "mimeType")
      (opt_prop (own "image" formData) "data") :: calls w.
Proof.
  intros Hu Hp Hi Hk. unfold configured in Hk.
  rewrite (manipulate_handler_form env event formData w Hu).
  cbv zeta. rewrite Hp, Hi, Hk. cbn [negb].
  destruct (model_client env _) as [e | s]; [reflexivity|].
  match goal with
  | |- context [ManipulateImage.processAIResponse env s ?b ?w1] =>
      pose proof (processAIResponse_calls env b s w1) as H;
      fold (ManipulateImage.processAIResponse env) in H;
      destruct (ManipulateImage.processAIResponse env s b w1) as [[rs | e] w2]
  end; exact H.
Qed.

Lemma api_manipulate_image_called (req : Server.Request) (prompt : value)
      (f : Server.UploadedFile) (w : World) :
  destructure (Server.req_body req) "prompt" = Ok prompt ->
  truthy prompt = true ->
  Server.req_file req = Some f ->
  configured env ->
  calls (snd (Server.api_manipulate_image env req w))
  = file_request env prompt f :: calls w.
Proof.
  intros Hd Ht Hf Hk.
  rewrite (api_manipulate_image_accepted env req prompt f w Hd Ht Hf Hk).
  cbv zeta.
  destruct (model_client env _) as [e | s]; [reflexivity|].
  match goal with
  | |- context [Server.processAIResponse env s ?b ?w1] =>
      pose proof (server_processAIResponse_calls env b s w1) as H;
      destruct (Server.processAIResponse env s b w1) as [[rs | e] w2]
  end; exact H.
Qed.

Lemma upload_event_uploaded (boundary text : string) :
  boundary <> "" -> includes "boundary=" boundary = false ->
  uploaded env (upload_event boundary text)
    (ManipulateImage.parseMultipartFormData env text boundary).
Proof.
  intros Hb Hi. split; [reflexivity|].
  exists ("multipart/form-data; boundary=" ++ boundary), boundary, text.
  repeat split; try reflexivity; [|exact Hb].
  unfold split.
  change ("multipart/form-data; boundary=" ++ boundary)
    with ("multipart/form-data; " ++ "boundary=" ++ boundary).
  rewrite split_go_piece; [|discriminate|reflexivity].
  now rewrite split_go_last.
Qed.
End Called.

(** X11.  The two deployments ask the model the same thing for the same
    upload, when the file and the prompt are not empty.  For the form the
    page sends (the file, then the prompt; both plain, so neither empty)
    under a boundary named in the [content-type] header, the stateless
    function hands the model client the very request the route of the server
    hands it for the file and the prompt as multer and [express.json] give
    them: the model, the two modalities, and one content of the user whose
    parts are the prompt after ["Based on the uploaded image, "] and the
    media type with the content in base64.  (For an empty file the
    deployments differ: the stateless parser drops the part.) *)
Theorem deployments_give_same_request :
  forall (env : Env) (boundary filename mimeType data prompt : string)
         (req : Server.Request) (f : Server.UploadedFile) (w : World),
    boundary <> "" -> occurs CR boundary = false ->
    includes "boundary=" boundary = false ->
    Forall (fun f => plain f = true) (page_form filename mimeType data prompt) ->
    Forall (fun f => free_of ("--" ++ boundary) (encode f) = true)
           (page_form filename mimeType data prompt) ->
    destructure (Server.req_body req) "prompt" = Ok (VStr prompt) ->
    Server.req_file req = Some f ->
    Server.mimetype f = mimeType -> Server.buffer f = data ->
    configured env ->
    let request :=
      VObj [("model", VStr "gemini-2.5-flash-image-preview");
            ("config",
             VObj [("responseModalities", VArr [VStr "IMAGE"; VStr "TEXT"])]);
            ("contents",
             VArr
               [VObj
                  [("role", VStr "user");
                   ("parts",
                    VArr
                      [VObj [("text",
                              VStr ("Based on the uploaded image, " ++ prompt))];
                       VObj [("inlineData",
                              VObj [("mimeType", VStr mimeType);
                                    ("data", VStr (Buffer_to_base64 env data))])]])]])] in
    calls (snd (ManipulateImage.handler env
                  (upload_event boundary
                     (form_body boundary
                        (map encode (page_form filename mimeType data prompt))))
                  w))
    = request :: calls w
    /\ calls (snd (Server.api_manipulate_image env req w)) = request :: calls w.
Proof.
  intros env boundary filename mimeType data prompt req f w
         Hb Hc Hi Hp Hf Hd Hr Hm Hu Hk request.
  assert (Ht : truthy (VStr prompt) = true).
  { inversion Hp as [|? ? _ Hp']; subst. inversion Hp' as [|? ? H _]; subst.
    cbn [plain] in H. repeat (apply andb_prop in H as [H ?]). assumption. }
  split.
  - rewrite (manipulate_handler_called env _ _ w
               (upload_event_uploaded env boundary _ Hb Hi));
      rewrite ?(parse_form_body env boundary _ Hb Hc Hp Hf);
      [reflexivity | exact Ht | reflexivity | exact Hk].
  - rewrite (api_manipulate_image_called env req (VStr prompt) f w Hd Ht Hr Hk).
    unfold file_request. now rewrite Hm, Hu.
Qed.

Lemma deployments_give_same_request_witness :
  calls (snd (ManipulateImage.handler (sample_env (Some "key") offline)
                (upload_event "XX"
                   (form_body "XX"
                      (map encode (page_form "cat.png" "image/png" "PNGDATA"
                                             "make it blue"))))
                initial))
  = [VObj [("model", VStr "gemini-2.5-flash-image-preview");
            ("config",
             VObj [("responseModalities", VArr [VStr "IMAGE"; VStr "TEXT"])]);
            ("contents",
             VArr
               [VObj
                  [("role", VStr "user");
                   ("parts",
                    VArr
                      [VObj [("text",
                              VStr ("Based on the uploaded image, " ++ "make it blue"))];
                       VObj [("inlineData",
                              VObj [("mimeType", VStr "image/png");
                                    ("data", VStr "PNGDATA")])]])]])]].
Proof.
  refine (proj1 (deployments_give_same_request (sample_env (Some "key") offline)
                   "XX" "cat.png" "image/png" "PNGDATA" "make it blue"
                   (Server.mkRequest (VObj [("prompt", VStr "make it blue")])
                                     (Some sample_file))
                   sample_file initial _ _ _ _ _ _ _ _ _ _));
    try reflexivity; try discriminate; repeat constructor.
Defined.

Lemma unreadable_requests_witness :
  exists details,
    GenerateImage.handler (sample_env (Some "key") offline) (mkEvent "POST" [] None)
      initial
    = (Ok (reply 500 [("error", VStr "Failed to generate image");
                      ("details", VStr details)]), initial).
Proof.
  apply (proj1 (unreadable_requests (sample_env (Some "key") offline) initial)
           (mkEvent "POST" [] None)); [reflexivity | left; reflexivity].
Defined.

(** ** The page and the failures of the handlers *)

Lemma on_error_explained (e : JsError) :
  explained (statusCode (GenerateImage.on_error e))
            (response_body (GenerateImage.on_error e))
  /\ explained (statusCode (ManipulateImage.on_error e))
               (response_body (ManipulateImage.on_error e))
  /\ explained (Server.status (Server.on_error "Failed to generate image" e))
               (Server.sent (Server.on_error "Failed to generate image" e))
  /\ explained (Server.status (Server.on_error "Failed to manipulate image" e))
               (Server.sent (Server.on_error "Failed to manipulate image" e)).
Proof.
  unfold GenerateImage.on_error, ManipulateImage.on_error, Server.on_error,
    explained, reply, Server.respond, JSON_stringify, js_or.
  destruct (strict_eq_num (err_status e) 429);
    [repeat split; intros; reflexivity|].
  destruct (strict_eq_num (err_status e) 401);
    [repeat split; intros; reflexivity|].
  destruct (strict_eq_num (err_status e) 400).
  - destruct (truthy (err_message e)); cbn;
      [destruct (to_json (err_message e))|]; repeat split; intros; reflexivity.
  - cbn. destruct (to_json (err_message e)); repeat split; intros; reflexivity.
Qed.

Ltac explained_leaf :=
  idtac;
  match goal with
  | |- _ \/ explained _ (response_body (GenerateImage.on_error ?e)) =>
      right; exact (proj1 (on_error_explained e))
  | |- _ \/ explained _ (response_body (ManipulateImage.on_error ?e)) =>
      right; exact (proj1 (proj2 (on_error_explained e)))
  | |- _ \/ explained _ (Server.sent (Server.on_error "Failed to generate image" ?e)) =>
      right; exact (proj1 (proj2 (proj2 (on_error_explained e))))
  | |- _ \/ explained _ (Server.sent (Server.on_error "Failed to manipulate image" ?e)) =>
      right; exact (proj2 (proj2 (proj2 (on_error_explained e))))
  | |- _ \/ explained _ (response_body (reply 200 _)) => left; reflexivity
  | |- _ \/ explained _ (Server.sent (Server.respond 200 _)) => left; reflexivity
  | |- _ \/ explained _ (response_body (reply _ _)) =>
      right; intros ? ? ?; reflexivity
  | |- _ \/ explained _ (Server.sent (Server.respond _ _)) =>
      right; intros ? ? ?; reflexivity
  end.

Section Explained.
Context (env : Env).

Lemma handler_explained (event : Event) :
  httpMethod event <> "OPTIONS" ->
  answers (fun r => statusCode r = 200%Z \/ explained (statusCode r) (response_body r))
          (GenerateImage.handler env event).
Proof.
  intros Hm. unfold GenerateImage.handler.
  destruct (String.eqb_spec (httpMethod event) "OPTIONS"); [contradiction|].
  answer explained_leaf.
Qed.

Lemma manipulate_handler_explained (event : Event) :
  httpMethod event <> "OPTIONS" ->
  answers (fun r => statusCode r = 200%Z \/ explained (statusCode r) (response_body r))
          (ManipulateImage.handler env event).
Proof.
  intros Hm. unfold ManipulateImage.handler.
  destruct (String.eqb_spec (httpMethod event) "OPTIONS"); [contradiction|].
  answer explained_leaf.
Qed.

Lemma api_generate_image_explained (req : Server.Request) :
  answers (fun r => Server.status r = 200%Z
                    \/ explained (Server.status r) (Server.sent r))
          (Server.api_generate_image env req).
Proof. unfold Server.api_generate_image. answer explained_leaf. Qed.

Lemma api_manipulate_image_explained (req : Server.Request) :
  answers (fun r => Server.status r = 200%Z
                    \/ explained (Server.status r) (Server.sent r))
          (Server.api_manipulate_image env req).
Proof. unfold Server.api_manipulate_image. answer explained_leaf. Qed.
End Explained.

(** X12.  The page and the handlers, on failure.  Whatever response other
    than 200 one of the four handlers gives (the preflight apart), the page
    shows one message, chosen by the status alone: the rate limit message
    for 429, the API key message for 401, and [Failed to ... Please try
    again.] for every other status, a missing [GEMINI_API_KEY] on the server
    included; it shows no result and throws nothing. *)
Theorem page_explains_failures :
  forall (env : Env),
    (forall (event : Event) (w w' : World) (response : Response),
        httpMethod event <> "OPTIONS" ->
        statusCode response <> 200%Z ->
        GenerateImage.handler env event w = (Ok response, w')
        \/ ManipulateImage.handler env event w = (Ok response, w') ->
        forall (browser : Env) (what : string) (w0 : World),
          Client.received browser what
            (Client.Responded (statusCode response) (response_body response)) w0
          = (Ok (Client.Message (shown_for what (statusCode response))), w0))
    /\ (forall (req : Server.Request) (w w' : World) (response : Server.Reply),
           Server.status response <> 200%Z ->
           Server.api_generate_image env req w = (Ok response, w')
           \/ Server.api_manipulate_image env req w = (Ok response, w') ->
           forall (browser : Env) (what : string) (w0 : World),
             Client.received browser what
               (Client.Responded (Server.status response) (Server.sent response)) w0
             = (Ok (Client.Message (shown_for what (Server.status response))), w0)).
Proof.
  intros env. split.
  - intros event w w' response Hm Hs [H | H].
    + destruct (handler_explained env event Hm w response w' H) as [E | E];
        [contradiction | exact E].
    + destruct (manipulate_handler_explained env event Hm w response w' H) as [E | E];
        [contradiction | exact E].
  - intros req w w' response Hs [H | H].
    + destruct (api_generate_image_explained env req w response w' H) as [E | E];
        [contradiction | exact E].
    + destruct (api_manipulate_image_explained env req w response w' H) as [E | E];
        [contradiction | exact E].
Qed.

Lemma page_explains_failures_witness :
  Client.received (sample_env None offline) "generate image"
    (Client.Responded 429 rate_limit_body) initial
  = (Ok (Client.Message
           "API rate limit exceeded. Please wait a few minutes and try again."),
     initial).
Proof.
  apply (proj1 (page_explains_failures
                  (sample_env (Some "key") (Rejected rate_limited)))
           red_circle_event initial
           (called (text_request (VStr "a red circle")) initial)
           (mkResponse 429 json_headers rate_limit_body));
    [discriminate | discriminate | left; reflexivity].
Defined.

(** ** The upload configuration of the server *)

Lemma strict_eq_str_spec (a : value) (s : string) :
  (a = VStr s -> Upload.strict_eq_str a s = true)
  /\ (a <> VStr s -> Upload.strict_eq_str a s = false).
Proof.
  split.
  - intros ->. simpl. apply String.eqb_refl.
  - intros H. destruct a; try reflexivity. simpl.
    apply String.eqb_neq. congruence.
Qed.

(** X13.  Uploads that are refused.  A file the filter rejects is answered
    by the error middleware with 400 and the message of the filter; a file
    over the size limit is answered 400 with [File too large]; every other
    error, whether of multer or not, is answered 500 with [Internal server
    error] and nothing of the error itself, unless its message is the very
    message of the filter, which is answered 400 like a rejection by the
    filter.  The page applies the same test of the media type and the same
    limit of 10 MB before it uploads. *)
Theorem refused_uploads :
  (forall file : Server.UploadedFile,
      (prefix "image/" (Server.mimetype file) = true /\ Upload.fileFilter file = Ok true)
      \/ (prefix "image/" (Server.mimetype file) = false
          /\ exists e, Upload.fileFilter file = Throw e
                       /\ Upload.error_middleware (Upload.Other e)
                          = Server.mkReply 400 (error_body "Only image files are allowed!")))
  /\ (forall message,
         Upload.error_middleware (Upload.MulterError "LIMIT_FILE_SIZE" message)
         = Server.mkReply 400 (error_body "File too large. Maximum size is 10MB."))
  /\ (forall (code : string) (message : value),
         code <> "LIMIT_FILE_SIZE" ->
         (message <> VStr "Only image files are allowed!" ->
          Upload.error_middleware (Upload.MulterError code message)
          = Server.mkReply 500 (error_body "Internal server error"))
         /\ (message = VStr "Only image files are allowed!" ->
             Upload.error_middleware (Upload.MulterError code message)
             = Server.mkReply 400 (error_body "Only image files are allowed!")))
  /\ (forall e : JsError,
         (err_message e <> VStr "Only image files are allowed!" ->
          Upload.error_middleware (Upload.Other e)
          = Server.mkReply 500 (error_body "Internal server error"))
         /\ (err_message e = VStr "Only image files are allowed!" ->
             Upload.error_middleware (Upload.Other e)
             = Server.mkReply 400 (error_body "Only image files are allowed!")))
  /\ (forall (picked : Client.File) (file : Server.UploadedFile),
         Server.mimetype file = Client.file_type picked ->
         Server.size file = Client.file_size picked ->
         (Client.handleFile picked = Client.Selected
          <-> Upload.fileFilter file = Ok true
              /\ (Server.size file <= Upload.fileSize)%Z)).
Proof.
  split; [|split; [|split; [|split]]].
  - intros file. unfold Upload.fileFilter.
    destruct (prefix "image/" (Server.mimetype file)); [left | right]; split; auto.
    eexists. split; reflexivity.
  - reflexivity.
  - intros code message Hc. apply String.eqb_neq in Hc.
    unfold Upload.error_middleware. rewrite Hc. cbn [Upload.message_of].
    split; intros H.
    + now rewrite (proj2 (strict_eq_str_spec _ _) H).
    + now rewrite (proj1 (strict_eq_str_spec _ _) H).
  - intros e. unfold Upload.error_middleware. cbn [Upload.message_of].
    split; intros H.
    + now rewrite (proj2 (strict_eq_str_spec _ _) H).
    + now rewrite (proj1 (strict_eq_str_spec _ _) H).
  - intros picked file Hm Hs. unfold Client.handleFile, Upload.fileFilter, Upload.fileSize.
    rewrite Hm, Hs.
    destruct (prefix "image/" (Client.file_type picked)); cbn [negb].
    + destruct (Z.ltb_spec (10 * 1024 * 1024) (Client.file_size picked)); split;
        try discriminate; try (intros [_ ?]; lia); auto.
    + split; [discriminate | intros [? _]; discriminate].
Qed.

Lemma refused_uploads_witness :
  Upload.error_middleware
    (Upload.Other (mkError "Error" VUndefined (VStr "ENOSPC: no space left on device")))
  = Server.mkReply 500 (error_body "Internal server error")
  /\ Client.handleFile (Client.mkFile "image/png" 7) = Client.Selected.
Proof.
  split.
  - apply (proj1 (proj1 (proj2 (proj2 (proj2 refused_uploads)))
                    (mkError "Error" VUndefined
                       (VStr "ENOSPC: no space left on device")))).
    discriminate.
  - apply (proj2 (proj2 (proj2 (proj2 refused_uploads)))
             (Client.mkFile "image/png" 7) sample_file);
      [reflexivity | reflexivity | split; [reflexivity | discriminate]].
Defined.

(** ** What the page reads back *)

Lemma String_of_read_back : forall v : value, String_of (read_back v) = String_of v.
Proof.
  fix IH 1. intros [ | | b | z | s | l | ps]; try reflexivity.
  unfold read_back. cbn [to_json of_json].
  induction l as [|x l IHl]; [reflexivity|].
  cbn [map]. cbn [String_of] in IHl |- *.
  assert (Hx : (if nullish (of_json match to_json x with Some j => j | None => JNull end)
                then ""
                else String_of (of_json match to_json x with
                                        | Some j => j | None => JNull end))
               = (if nullish x then "" else String_of x)).
  { pose proof (IH x) as E. unfold read_back in E.
    destruct x; try reflexivity; cbn [to_json nullish] in *; try exact E.
    all: cbn [of_json nullish]; exact E. }
  destruct l as [|y l]; cbn [map] in *.
  - exact Hx.
  - rewrite Hx. f_equal. f_equal. exact IHl.
Qed.

Lemma truthy_read_back (v : value) : truthy (read_back v) = truthy v.
Proof. destruct v; reflexivity. Qed.

Lemma String_of_written (v : value) :
  String_of match to_json v with Some j => of_json j | None => VUndefined end
  = String_of v.
Proof. exact (String_of_read_back v). Qed.

Lemma file_name_not_empty (base : string) (t i : Z) (ext : string) :
  file_name base t i ext <> "".
Proof. unfold file_name. destruct base; discriminate. Qed.

Section Page.
Context (browser : Env).

Lemma element_text (data x : value) (w0 : World) :
  truthy x = true ->
  Client.element browser data (of_json (json_element (GenerateImage.text_result x))) w0
  = (Ok (Client.Text (String_of x)), w0).
Proof.
  intros Hx. destruct (truthy_written x Hx) as [j Hj].
  pose proof (String_of_written x) as E. rewrite Hj in E.
  unfold json_element, GenerateImage.text_result. cbn [to_json]. rewrite Hj.
  unfold Client.element, bind, lift, ret. cbn. now rewrite E.
Qed.

Lemma element_stateless (data d m prompt : value) (name : string) (w0 : World) :
  name <> "" ->
  get_prop data "prompt" = Ok prompt ->
  Client.element browser data
    (of_json (json_element (GenerateImage.image_result d m name))) w0
  = (Ok (Client.Image ("data:" ++ String_of m ++ ";base64," ++ String_of d) name
                      (String_of prompt)), w0).
Proof.
  intros Hn Hp.
  pose proof (String_of_written d) as Ed. pose proof (String_of_written m) as Em.
  unfold json_element, GenerateImage.image_result. cbn [to_json].
  destruct name as [|c name]; [congruence|].
  destruct (to_json d) as [jd|], (to_json m) as [jm|];
    unfold Client.element, bind, lift, ret; cbn; rewrite Hp; cbn;
    rewrite <- ?Ed, <- ?Em; reflexivity.
Qed.

Lemma element_server (data m prompt : value) (url : string) (w0 : World) :
  url <> "" ->
  get_prop data "prompt" = Ok prompt ->
  Client.element browser data (of_json (json_element (Server.image_result url m))) w0
  = (Ok (Client.Image url
           ("generated_image_" ++ Number_toString (clock browser (ticks w0)) ++ ".png")
           (String_of prompt)), tick 1 w0).
Proof.
  intros Hn Hp.
  unfold json_element, Server.image_result. cbn [to_json].
  destruct url as [|c url]; [congruence|].
  destruct (to_json m) as [jm|];
    unfold Client.element, bind, lift, ret, Date_now, tick; cbn; rewrite Hp; cbn;
    rewrite Nat.add_1_r; reflexivity.
Qed.
End Page.

Section PageResults.
Context (env browser : Env).

Lemma forEach_stateless (base : string) (data prompt : value) (es : list Emission) :
  get_prop data "prompt" = Ok prompt ->
  forall t i w0,
    forallb sound es = true ->
    Client.forEach browser data
      (map of_json (map json_element (expected env base es t i))) w0
    = (Ok (page_stateless env base (String_of prompt) es t i), w0).
Proof.
  intros Hp. induction es as [|[d | x] es IH]; intros t i w0 H; [reflexivity| |];
    cbn [forallb sound] in H;
    cbn [expected map Client.forEach page_stateless]; unfold bind.
  - rewrite (element_stateless browser data _ _ prompt _ w0
               (file_name_not_empty _ _ _ _) Hp).
    now rewrite (IH _ _ _ H).
  - apply andb_prop in H as [Hx H].
    rewrite (element_text browser data x w0 Hx). now rewrite (IH _ _ _ H).
Qed.

Lemma forEach_server (base : string) (data prompt : value) (es : list Emission) :
  get_prop data "prompt" = Ok prompt ->
  forall t i w0,
    forallb sound es = true ->
    Client.forEach browser data
      (map of_json (map json_element (expected_server env base es t i))) w0
    = (Ok (page_server env browser base (String_of prompt) es t i (ticks w0)),
       tick (images_in es) w0).
Proof.
  intros Hp. induction es as [|[d | x] es IH]; intros t i w0 H;
    cbn [forallb sound] in H;
    cbn [expected_server map Client.forEach page_server]; unfold bind.
  - unfold ret. now rewrite tick_0.
  - rewrite (element_server browser data _ prompt _ w0); [|discriminate | exact Hp].
    rewrite (IH _ _ _ H), tick_tick. unfold ret.
    cbn [tick ticks]. now rewrite Nat.add_1_r.
  - apply andb_prop in H as [Hx H].
    change (Server.text_result x) with (GenerateImage.text_result x).
    rewrite (element_text browser data x w0 Hx). now rewrite (IH _ _ _ H).
Qed.

Lemma received_results (what : string) (body : Body) (data : value) (rs : list value)
      (elements : list Client.Element) (w0 w1 : World) :
  Client.response_json body = Ok data ->
  get_prop data "results" = Ok (VArr rs) ->
  rs <> [] ->
  Client.forEach browser data rs w0 = (Ok elements, w1) ->
  Client.received browser what (Client.Responded 200 body) w0
  = (Ok (Client.Elements elements), w1).
Proof.
  intros Hj Hr Hn Hf.
  unfold Client.received, try_catch, bind, lift, Client.displayResults.
  rewrite Hj. cbn [Client.ok Z.leb Z.compare Pos.compare Pos.compare_cont andb negb].
  unfold bind, lift. rewrite Hr. cbn [truthy negb orb].
  destruct rs as [|r rs]; [congruence|]. cbn [Client.length_is_zero].
  unfold bind. now rewrite Hf.
Qed.

Lemma read_success (prompt : value) (rs : list value) :
  truthy prompt = true ->
  exists j,
    JSON_stringify (VObj (success prompt [] rs)) = Document j
    /\ get_prop (of_json j) "prompt" = Ok (read_back prompt)
    /\ get_prop (of_json j) "results" = Ok (VArr (map of_json (map json_element rs))).
Proof.
  intros Hp. destruct (truthy_written prompt Hp) as [jp Hj].
  unfold JSON_stringify, success, read_back. cbn. rewrite Hj.
  eexists. repeat split; reflexivity.
Qed.

Lemma read_success_with_original (prompt original : value) (rs : list value) :
  truthy prompt = true ->
  exists j,
    JSON_stringify (VObj (success prompt [("originalImage", original)] rs)) = Document j
    /\ get_prop (of_json j) "prompt" = Ok (read_back prompt)
    /\ get_prop (of_json j) "results" = Ok (VArr (map of_json (map json_element rs))).
Proof.
  intros Hp. destruct (truthy_written prompt Hp) as [jp Hj].
  unfold JSON_stringify, success, read_back. cbn. rewrite Hj.
  destruct (to_json original); eexists; repeat split; reflexivity.
Qed.

Lemma map_not_nil {A B} (f : A -> B) (l : list A) : l <> [] -> map f l <> [].
Proof. destruct l; [congruence | discriminate]. Qed.

(** The page on a success body whose results are the expected ones. *)
Lemma page_shows_stateless (what base : string) (prompt : value) (b : Body)
      (es : list Emission) (t : nat) (w0 : World) :
  (exists j, b = Document j
             /\ get_prop (of_json j) "prompt" = Ok (read_back prompt)
             /\ get_prop (of_json j) "results"
                = Ok (VArr (map of_json (map json_element (expected env base es t 0))))) ->
  forallb sound es = true ->
  expected env base es t 0 <> [] ->
  Client.received browser what (Client.Responded 200 b) w0
  = (Ok (Client.Elements (page_stateless env base (String_of prompt) es t 0)), w0).
Proof.
  intros (j & -> & Hp & Hr) Hs Hn.
  rewrite <- (String_of_read_back prompt).
  apply (received_results what (Document j) (of_json j) _ _ w0 w0 eq_refl Hr).
  - now do 2 apply map_not_nil.
  - now apply forEach_stateless.
Qed.

Lemma page_shows_server (what base : string) (prompt : value) (b : Body)
      (es : list Emission) (t : nat) (w0 : World) :
  (exists j, b = Document j
             /\ get_prop (of_json j) "prompt" = Ok (read_back prompt)
             /\ get_prop (of_json j) "results"
                = Ok (VArr (map of_json
                              (map json_element (expected_server env base es t 0))))) ->
  forallb sound es = true ->
  expected_server env base es t 0 <> [] ->
  Client.received browser what (Client.Responded 200 b) w0
  = (Ok (Client.Elements
           (page_server env browser base (String_of prompt) es t 0 (ticks w0))),
     tick (images_in es) w0).
Proof.
  intros (j & -> & Hp & Hr) Hs Hn.
  rewrite <- (String_of_read_back prompt).
  apply (received_results what (Document j) (of_json j) _ _ w0 _ eq_refl Hr).
  - now do 2 apply map_not_nil.
  - now apply forEach_server.
Qed.
End PageResults.

Section SuccessBodies.
Context (env : Env).

Lemma handler_success_body (event : Event) (prompt : value) (s : Stream)
      (w w' : World) (response : Response) :
  posted env event prompt -> truthy prompt = true -> configured env ->
  model_client env (text_request prompt) = Streaming s ->
  GenerateImage.handler env event w = (Ok response, w') ->
  statusCode response = 200%Z ->
  expected env "text_to_image" (emissions (chunks s)) (ticks w) 0 <> []
  /\ response_body response
     = JSON_stringify
         (VObj (success prompt []
                  (expected env "text_to_image" (emissions (chunks s)) (ticks w) 0))).
Proof.
  intros Hp Ht Hk Hc H Hs.
  rewrite (handler_accepted env event prompt w Hp Ht Hk), Hc in H.
  destruct (GenerateImage.processAIResponse env s _ _) as [[rs | e] w2] eqn:E.
  - apply processAIResponse_returns in E as [-> _]. cbn [called ticks] in *.
    destruct (List.length _ =? 0)%nat eqn:L; injection H as <- <-;
      [discriminate|].
    split; [exact (length_not_zero _ L) | reflexivity].
  - injection H as <- <-. destruct (on_error_status e) as (H1 & _).
    rewrite H1 in Hs. now apply mapped_status_not_200 in Hs.
Qed.

Lemma manipulate_handler_success_body (event : Event)
      (formData : list (string * value)) (s : Stream) (w w' : World)
      (response : Response) :
  uploaded env event formData ->
  truthy (own "prompt" formData) = true ->
  truthy (own "image" formData) = true ->
  configured env ->
  model_client env (image_request (own "prompt" formData)
                      (opt_prop (own "image" formData) "mimeType")
                      (opt_prop (own "image" formData) "data")) = Streaming s ->
  ManipulateImage.handler env event w = (Ok response, w') ->
  statusCode response = 200%Z ->
  expected env "image_manipulation" (emissions (chunks s)) (ticks w) 0 <> []
  /\ response_body response
     = JSON_stringify
         (VObj (success (own "prompt" formData)
                  [("originalImage",
                    VObj [("mimeType", opt_prop (own "image" formData) "mimeType")])]
                  (expected env "image_manipulation" (emissions (chunks s))
                     (ticks w) 0))).
Proof.
  intros Hu Hp Hi Hk Hc H Hs. unfold configured in Hk.
  rewrite (manipulate_handler_form env event formData w Hu) in H.
  cbv zeta in H. rewrite Hp, Hi, Hk, Hc in H. cbn [negb] in H.
  destruct (ManipulateImage.processAIResponse env s _ _) as [[rs | e] w2] eqn:E.
  - apply processAIResponse_returns in E as [-> _]. cbn [called ticks] in *.
    destruct (List.length _ =? 0)%nat eqn:L; injection H as <- <-;
      [discriminate|].
    split; [exact (length_not_zero _ L) | reflexivity].
  - injection H as <- <-. destruct (on_error_status e) as (_ & H2 & _).
    rewrite H2 in Hs. now apply mapped_status_not_200 in Hs.
Qed.

Lemma api_generate_image_success_body (req : Server.Request) (prompt : value)
      (s : Stream) (w w' : World) (response : Server.Reply) :
  destructure (Server.req_body req) "prompt" = Ok prompt ->
  truthy prompt = true -> configured env ->
  model_client env (text_request prompt) = Streaming s ->
  Server.api_generate_image env req w = (Ok response, w') ->
  Server.status response = 200%Z ->
  expected_server env "text_to_image" (emissions (chunks s)) (ticks w) 0 <> []
  /\ Server.sent response
     = JSON_stringify
         (VObj (success prompt []
                  (expected_server env "text_to_image" (emissions (chunks s))
                     (ticks w) 0))).
Proof.
  intros Hd Ht Hk Hc H Hs.
  rewrite (api_generate_image_accepted env req prompt w Hd Ht Hk), Hc in H.
  destruct (Server.processAIResponse env s _ _) as [[rs | e] w2] eqn:E.
  - apply server_processAIResponse_returns in E as [-> _]. cbn [called ticks] in *.
    destruct (List.length _ =? 0)%nat eqn:L; injection H as <- <-;
      [discriminate|].
    split; [exact (length_not_zero _ L) | reflexivity].
  - injection H as <- <-. destruct (on_error_status e) as (_ & _ & H3).
    rewrite H3 in Hs. now apply mapped_status_not_200 in Hs.
Qed.

Lemma api_manipulate_image_success_body (req : Server.Request) (prompt : value)
      (f : Server.UploadedFile) (s : Stream) (w w' : World)
      (response : Server.Reply) :
  destructure (Server.req_body req) "prompt" = Ok prompt ->
  truthy prompt = true ->
  Server.req_file req = Some f ->
  configured env ->
  model_client env (file_request env prompt f) = Streaming s ->
  Server.api_manipulate_image env req w = (Ok response, w') ->
  Server.status response = 200%Z ->
  expected_server env "image_manipulation" (emissions (chunks s)) (ticks w) 0 <> []
  /\ Server.sent response
     = JSON_stringify
         (VObj (success prompt (original f)
                  (expected_server env "image_manipulation" (emissions (chunks s))
                     (ticks w) 0))).
Proof.
  intros Hd Ht Hf Hk Hc H Hs.
  rewrite (api_manipulate_image_accepted env req prompt f w Hd Ht Hf Hk) in H.
  cbv zeta in H. rewrite Hc in H.
  destruct (Server.processAIResponse env s _ _) as [[rs | e] w2] eqn:E.
  - apply server_processAIResponse_returns in E as [-> _]. cbn [called ticks] in *.
    destruct (List.length _ =? 0)%nat eqn:L; injection H as <- <-;
      [discriminate|].
    split; [exact (length_not_zero _ L) | reflexivity].
  - injection H as <- <-. destruct (on_error_status e) as (_ & _ & H3).
    rewrite H3 in Hs. now apply mapped_status_not_200 in Hs.
Qed.
End SuccessBodies.

(** X14.  The page and the stateless functions, on success.  When a
    stateless function answers 200 for a stream, the page shows one item for
    each emission of the stream, in order: for an image the data URL
    [data:<mimeType>;base64,<data>] of the inline data, the file name the
    function gave as the download name, and the prompt; for a text its
    content.  It reads no clock and never shows the message for an empty
    result list. *)
Theorem page_shows_stateless_results :
  forall (env browser : Env) (what : string) (w0 : World),
    (forall (event : Event) (prompt : value) (s : Stream) (w w' : World)
            (response : Response),
        posted env event prompt -> truthy prompt = true -> configured env ->
        model_client env (text_request prompt) = Streaming s ->
        GenerateImage.handler env event w = (Ok response, w') ->
        statusCode response = 200%Z ->
        Client.received browser what
          (Client.Responded (statusCode response) (response_body response)) w0
        = (Ok (Client.Elements
                 (page_stateless env "text_to_image" (String_of prompt)
                    (emissions (chunks s)) (ticks w) 0)), w0))
    /\ (forall (event : Event) (formData : list (string * value)) (s : Stream)
               (w w' : World) (response : Response),
           uploaded env event formData ->
           truthy (own "prompt" formData) = true ->
           truthy (own "image" formData) = true ->
           configured env ->
           model_client env (image_request (own "prompt" formData)
                               (opt_prop (own "image" formData) "mimeType")
                               (opt_prop (own "image" formData) "data"))
           = Streaming s ->
           ManipulateImage.handler env event w = (Ok response, w') ->
           statusCode response = 200%Z ->
           Client.received browser what
             (Client.Responded (statusCode response) (response_body response)) w0
           = (Ok (Client.Elements
                    (page_stateless env "image_manipulation"
                       (String_of (own "prompt" formData))
                       (emissions (chunks s)) (ticks w) 0)), w0)).
Proof.
  intros env browser what w0. split.
  - intros event prompt s w w' response Hp Ht Hk Hc H Hs.
    destruct (handler_success_body env event prompt s w w' response Hp Ht Hk Hc H Hs)
      as [Hn Hb].
    rewrite Hs, Hb. apply page_shows_stateless; [|apply emissions_sound | exact Hn].
    destruct (read_success prompt
                (expected env "text_to_image" (emissions (chunks s)) (ticks w) 0) Ht)
      as (j & Hj & H1 & H2).
    exists j. auto.
  - intros event formData s w w' response Hu Hp Hi Hk Hc H Hs.
    destruct (manipulate_handler_success_body env event formData s w w' response
                Hu Hp Hi Hk Hc H Hs) as [Hn Hb].
    rewrite Hs, Hb. apply page_shows_stateless; [|apply emissions_sound | exact Hn].
    destruct (read_success_with_original (own "prompt" formData)
                (VObj [("mimeType", opt_prop (own "image" formData) "mimeType")])
                (expected env "image_manipulation" (emissions (chunks s)) (ticks w) 0)
                Hp) as (j & Hj & H1 & H2).
    exists j. auto.
Qed.

Lemma page_shows_stateless_results_witness :
  exists response w',
    GenerateImage.handler (sample_env (Some "key") (Streaming red_circle_stream))
      red_circle_event initial = (Ok response, w')
    /\ Client.received (sample_env None offline) "generate image"
         (Client.Responded (statusCode response) (response_body response)) initial
       = (Ok (Client.Elements
                [Client.Image "data:image/png;base64,iVBORw0KGgo="
                              "text_to_image_1700000000000_0.png" "a red circle";
                 Client.Text "done"]), initial).
Proof.
  do 2 eexists. split; [reflexivity|].
  apply (proj1 (page_shows_stateless_results
                  (sample_env (Some "key") (Streaming red_circle_stream))
                  (sample_env None offline) "generate image" initial)
           red_circle_event (VStr "a red circle") red_circle_stream initial
           (tick 1 (called (text_request (VStr "a red circle")) initial)));
    try reflexivity.
  apply red_circle_posted.
Defined.

(** X15.  The page and the server, on success.  When a route of the server
    answers 200 for a stream, the page shows one item for each emission, in
    order: for an image the path [/generated/<file name>] of the file the
    server saved as the source, and the prompt; for a text its content.  As
    the results of the server carry no file name, the download name is
    [generated_image_<now>.png], made from the clock of the browser, read
    once for each image, and ends in [.png] whatever the media type is. *)
Theorem page_shows_server_results :
  forall (env browser : Env) (what : string) (w0 : World),
    (forall (req : Server.Request) (prompt : value) (s : Stream) (w w' : World)
            (response : Server.Reply),
        destructure (Server.req_body req) "prompt" = Ok prompt ->
        truthy prompt = true -> configured env ->
        model_client env (text_request prompt) = Streaming s ->
        Server.api_generate_image env req w = (Ok response, w') ->
        Server.status response = 200%Z ->
        Client.received browser what
          (Client.Responded (Server.status response) (Server.sent response)) w0
        = (Ok (Client.Elements
                 (page_server env browser "text_to_image" (String_of prompt)
                    (emissions (chunks s)) (ticks w) 0 (ticks w0))),
           tick (images_in (emissions (chunks s))) w0))
    /\ (forall (req : Server.Request) (prompt : value) (f : Server.UploadedFile)
               (s : Stream) (w w' : World) (response : Server.Reply),
           destructure (Server.req_body req) "prompt" = Ok prompt ->
           truthy prompt = true ->
           Server.req_file req = Some f ->
           configured env ->
           model_client env (file_request env prompt f) = Streaming s ->
           Server.api_manipulate_image env req w = (Ok response, w') ->
           Server.status response = 200%Z ->
           Client.received browser what
             (Client.Responded (Server.status response) (Server.sent response)) w0
           = (Ok (Client.Elements
                    (page_server env browser "image_manipulation" (String_of prompt)
                       (emissions (chunks s)) (ticks w) 0 (ticks w0))),
              tick (images_in (emissions (chunks s))) w0)).
Proof.
  intros env browser what w0. split.
  - intros req prompt s w w' response Hd Ht Hk Hc H Hs.
    destruct (api_generate_image_success_body env req prompt s w w' response
                Hd Ht Hk Hc H Hs) as [Hn Hb].
    rewrite Hs, Hb. apply page_shows_server; [|apply emissions_sound | exact Hn].
    destruct (read_success prompt
                (expected_server env "text_to_image" (emissions (chunks s)) (ticks w) 0)
                Ht) as (j & Hj & H1 & H2).
    exists j. auto.
  - intros req prompt f s w w' response Hd Ht Hf Hk Hc H Hs.
    destruct (api_manipulate_image_success_body env req prompt f s w w' response
                Hd Ht Hf Hk Hc H Hs) as [Hn Hb].
    rewrite Hs, Hb. apply page_shows_server; [|apply emissions_sound | exact Hn].
    destruct (read_success_with_original prompt
                (VObj [("name", VStr (Server.originalname f));
                       ("size", VNum (Server.size f));
                       ("mimeType", VStr (Server.mimetype f))])
                (expected_server env "image_manipulation" (emissions (chunks s))
                   (ticks w) 0) Ht) as (j & Hj & H1 & H2).
    exists j. auto.
Qed.

Lemma page_shows_server_results_witness :
  exists response w',
    Server.api_generate_image (sample_env (Some "key") (Streaming red_circle_stream))
      red_circle_request initial = (Ok response, w')
    /\ Client.received (sample_env None offline) "generate image"
         (Client.Responded (Server.status response) (Server.sent response)) initial
       = (Ok (Client.Elements
                [Client.Image "/generated/text_to_image_1700000000000_0.png"
                              "generated_image_1700000000000.png" "a red circle";
                 Client.Text "done"]), tick 1 initial).
Proof.
  do 2 eexists. split; [reflexivity|].
  apply (proj1 (page_shows_server_results
                  (sample_env (Some "key") (Streaming red_circle_stream))
                  (sample_env None offline) "generate image" initial)
           red_circle_request (VStr "a red circle") red_circle_stream initial
           (saved "text_to_image_1700000000000_0.png" "iVBORw0KGgo="
              (tick 1 (called (text_request (VStr "a red circle")) initial))));
    reflexivity.
Defined.

(** ** The files of the server over many requests *)

Lemma kept_refl (now : nat -> Z) (w : World) : kept now w w.
Proof. intros H. exact H. Qed.

Lemma kept_trans (now : nat -> Z) (w1 w2 w3 : World) :
  kept now w1 w2 -> kept now w2 w3 -> kept now w1 w3.
Proof. unfold kept. auto. Qed.

Lemma stamped_later (now : nat -> Z) (t t' : nat) (name : string) :
  t <= t' -> stamped now t name -> stamped now t' name.
Proof.
  intros L (base & k & i & ext & Hb & Hk & ->).
  exists base, k, i, ext. repeat split; [exact Hb | lia].
Qed.

Lemma kept_tick (now : nat -> Z) (n : nat) (w : World) : kept now w (tick n w).
Proof.
  intros [N F]. split; [exact N|]. cbn [tick disk ticks].
  eapply Forall_impl; [|exact F]. intros name. apply stamped_later. lia.
Qed.

Lemma kept_called (now : nat -> Z) (request : value) (w : World) :
  kept now w (called request w).
Proof. intros H. exact H. Qed.

Lemma base_names_differ (t1 t2 i1 i2 : Z) (e1 e2 : string) :
  file_name "text_to_image" t1 i1 e1 <> file_name "image_manipulation" t2 i2 e2.
Proof. unfold file_name. discriminate. Qed.

(** A name stamped with a new reading of the clock is new. *)
Lemma kept_saved (now : nat -> Z) (base : string) (i : Z) (ext content : string)
      (w : World) :
  (forall a b, now a = now b -> a = b) ->
  base = "text_to_image" \/ base = "image_manipulation" ->
  kept now w (saved (file_name base (now (ticks w)) i ext) content (tick 1 w)).
Proof.
  intros Inj Hb [N F]. split; cbn [saved tick disk ticks map fst].
  - constructor; [|exact N].
    intros H. rewrite Forall_forall in F.
    destruct (F _ H) as (base' & k & i' & ext' & Hb' & Hk & E).
    assert (Hs : base = base' -> False).
    { intros <-. apply file_name_inj in E as (Ht & _). apply Inj in Ht. lia. }
    destruct Hb as [-> | ->], Hb' as [-> | ->]; auto.
    + exact (base_names_differ _ _ _ _ _ _ E).
    + symmetry in E. exact (base_names_differ _ _ _ _ _ _ E).
  - constructor.
    + exists base, (ticks w), i, ext. repeat split; [exact Hb | lia].
    + eapply Forall_impl; [|exact F]. intros name. apply stamped_later. lia.
Qed.

Section Tidy.
Context (env : Env).
Hypothesis clock_injective : forall a b, clock env a = clock env b -> a = b.

Lemma server_loop_body_kept (base : string) (chunk : value) (st : LoopState) :
  base = "text_to_image" \/ base = "image_manipulation" ->
  preserves (kept (clock env)) (Server.loop_body env base chunk st).
Proof.
  intros Hb w. destruct (guard_reads chunk) eqn:Hg.
  - rewrite (server_loop_body_reads env base chunk st w Hg).
    destruct (emission chunk) as [[d | x]|]; cbv zeta; try apply kept_refl.
    destruct (Buffer_from_base64 env _); [|apply kept_tick].
    destruct (fs_failure env _); [apply kept_tick|].
    now apply kept_saved.
  - destruct (server_loop_body_throws env base chunk st w Hg) as [e ->].
    apply kept_refl.
Qed.

Lemma server_for_await_kept (base : string) (cs : list value) :
  base = "text_to_image" \/ base = "image_manipulation" ->
  forall st, preserves (kept (clock env)) (Server.for_await env base cs st).
Proof.
  intros Hb. induction cs as [|c cs IH]; intros st; cbn [Server.for_await].
  - apply preserves_ret, kept_refl.
  - apply preserves_bind;
      [exact (kept_trans _) | now apply server_loop_body_kept | auto].
Qed.

Lemma server_processAIResponse_kept (s : Stream) (base : string) :
  base = "text_to_image" \/ base = "image_manipulation" ->
  preserves (kept (clock env)) (Server.processAIResponse env s base).
Proof.
  intros Hb. unfold Server.processAIResponse.
  frame (kept_refl (clock env)) (kept_trans (clock env))
    ltac:(now apply server_for_await_kept).
Qed.

Lemma generateContentStream_kept (request : value) :
  preserves (kept (clock env)) (generateContentStream env request).
Proof.
  intros w. unfold generateContentStream.
  destruct (model_client env request); apply kept_called.
Qed.

Lemma api_generate_image_kept (req : Server.Request) :
  preserves (kept (clock env)) (Server.api_generate_image env req).
Proof.
  unfold Server.api_generate_image.
  frame (kept_refl (clock env)) (kept_trans (clock env))
    ltac:(first [apply generateContentStream_kept
                | apply server_processAIResponse_kept; auto]).
Qed.

Lemma api_manipulate_image_kept (req : Server.Request) :
  preserves (kept (clock env)) (Server.api_manipulate_image env req).
Proof.
  unfold Server.api_manipulate_image.
  frame (kept_refl (clock env)) (kept_trans (clock env))
    ltac:(first [apply generateContentStream_kept
                | apply server_processAIResponse_kept; auto]).
Qed.
End Tidy.

(** X16.  The server never writes a name twice, as long as the clock gives
    a new value at every reading.  Whatever requests the two routes serve
    one after another from an empty directory, whatever the model answers
    and wherever a request fails, the names of the files written are
    pairwise distinct, and each is made from one of the two base names and
    a reading of the clock.  (The index in a name starts from 0 again in
    every request, so the names of two requests differ by their timestamps
    only.) *)
Theorem server_never_overwrites :
  forall (now : nat -> Z) (w : World),
    (forall a b, now a = now b -> a = b) ->
    serves now initial w ->
    NoDup (map fst (disk w))
    /\ Forall (stamped now (ticks w)) (map fst (disk w)).
Proof.
  intros now w Inj H. change (tidy now w).
  induction H as [|env req w1 Hc H IH | env req w1 Hc H IH].
  - split; constructor.
  - subst now. exact (api_generate_image_kept env Inj req w1 IH).
  - subst now. exact (api_manipulate_image_kept env Inj req w1 IH).
Qed.

Lemma server_never_overwrites_witness :
  NoDup (map fst (disk (snd (Server.api_generate_image
                               (sample_env (Some "key") (Streaming red_circle_stream))
                               red_circle_request
                               (snd (Server.api_generate_image
                                       (sample_env (Some "key")
                                          (Streaming red_circle_stream))
                                       red_circle_request initial)))))).
Proof.
  refine (proj1 (server_never_overwrites
                   (clock (sample_env (Some "key") (Streaming red_circle_stream))) _ _
                   (serves_generate _ _
                      (sample_env (Some "key") (Streaming red_circle_stream))
                      red_circle_request _ eq_refl
                      (serves_generate _ _
                         (sample_env (Some "key") (Streaming red_circle_stream))
                         red_circle_request _ eq_refl (serves_nothing _ _))))).
  intros a b H. cbv beta iota delta [clock sample_env] in H.
  apply Z.add_reg_l in H. exact (Nat2Z.inj _ _ H).
Defined.

(** ** Parts without a value *)

(** Nothing stands between the blank line and the last line break of a part
    whose value is empty. *)
Lemma payload_empty (hdr : string) :
  indexOf (CRLF ++ CRLF) (hdr ++ (CRLF ++ CRLF) ++ "" ++ CRLF)
  = Z.of_nat (String.length hdr) ->
  let part := hdr ++ (CRLF ++ CRLF) ++ "" ++ CRLF in
  (3 <? indexOf (CRLF ++ CRLF) part + 4)%Z
  && (indexOf (CRLF ++ CRLF) part + 4 <? lastIndexOf CRLF part)%Z = false.
Proof.
  intros Hi part. subst part. rewrite Hi.
  assert (L : lastIndexOf CRLF (hdr ++ (CRLF ++ CRLF) ++ "" ++ CRLF)
              = Z.of_nat (String.length hdr + 4)).
  { cbn [append]. rewrite <- !append_assoc. unfold lastIndexOf.
    rewrite lastIndexOf_from_end by discriminate.
    rewrite !length_append. simpl. lia. }
  rewrite L. apply andb_false_intro2, Z.ltb_ge. lia.
Qed.

Section EmptyParts.
Context (env : Env).

Lemma parse_part_text_empty (name : string) (formData : list (string * value)) :
  name <> "" -> occurs DQUOTE name = false -> occurs CR name = false ->
  ManipulateImage.parse_part env (text_part name "") formData = formData.
Proof.
  intros Hn Hq Hc.
  assert (Hi : includes "Content-Disposition" (text_part name "") = true)
    by reflexivity.
  unfold ManipulateImage.parse_part.
  rewrite Hi, (text_part_name name "" Hn Hq).
  pose proof (text_part_blank_line name "" Hc) as B.
  rewrite text_part_layout in *.
  pose proof (payload_empty (text_header name) B) as P. cbv zeta in P.
  rewrite P. now destruct (name =? "image").
Qed.

Lemma parse_part_file_empty (filename mimeType : string)
      (formData : list (string * value)) :
  occurs CR filename = false -> mimeType <> "" -> occurs CR mimeType = false ->
  ManipulateImage.parse_part env (file_part filename mimeType "") formData = formData.
Proof.
  intros Hf Hm Hc.
  assert (Hi : includes "Content-Disposition" (file_part filename mimeType "") = true)
    by reflexivity.
  unfold ManipulateImage.parse_part.
  rewrite Hi, file_part_name.
  pose proof (file_part_blank_line filename mimeType "" Hf Hm Hc) as B.
  rewrite file_part_layout in *.
  pose proof (payload_empty (file_header filename mimeType) B) as P. cbv zeta in P.
  rewrite P. reflexivity.
Qed.

Lemma parse_part_file_no_prompt (filename mimeType data : string) :
  own "prompt" (ManipulateImage.parse_part env (file_part filename mimeType data) [])
  = VUndefined.
Proof.
  unfold ManipulateImage.parse_part. rewrite file_part_name.
  cbn [String.eqb Ascii.eqb Bool.eqb].
  destruct (includes _ _); [destruct (_ && _)|]; reflexivity.
Qed.

Lemma parse_two_parts (boundary p1 p2 : string) :
  boundary <> "" -> occurs CR boundary = false ->
  free_of ("--" ++ boundary) p1 = true ->
  free_of ("--" ++ boundary) p2 = true ->
  ManipulateImage.parseMultipartFormData env (form_body boundary [p1; p2]) boundary
  = ManipulateImage.parse_part env p2 (ManipulateImage.parse_part env p1 []).
Proof.
  intros Hb Hc F1 F2. unfold ManipulateImage.parseMultipartFormData, form_body.
  replace ("--" ++ boundary ++ "--" ++ CRLF)
    with (("--" ++ boundary) ++ "--" ++ CRLF) by now rewrite append_assoc.
  rewrite split_delimited;
    [reflexivity | discriminate | repeat constructor; assumption
     | now apply closing_dashes].
Qed.
End EmptyParts.

(** X17.  A part without a value is dropped.  When the page's form carries
    an empty file, the stateless /manipulate-image answers 400 with [Image
    file is required] although an [image] part was sent; when it carries an
    empty prompt, it answers 400 with [Prompt is required].  The model client
    is not called. *)
Theorem empty_parts_dropped :
  forall (env : Env) (boundary filename mimeType data prompt : string) (w : World),
    boundary <> "" -> occurs CR boundary = false ->
    includes "boundary=" boundary = false ->
    free_of ("--" ++ boundary) (file_part filename mimeType data) = true ->
    free_of ("--" ++ boundary) (text_part "prompt" prompt) = true ->
    occurs CR filename = false ->
    mimeType <> "" -> occurs CR mimeType = false ->
    (data = "" -> plain (TextField "prompt" prompt) = true ->
     ManipulateImage.handler env
       (upload_event boundary
          (form_body boundary (map encode (page_form filename mimeType data prompt))))
       w
     = (Ok (mkResponse 400 json_headers (error_body "Image file is required")), w))
    /\ (prompt = "" ->
        ManipulateImage.handler env
          (upload_event boundary
             (form_body boundary
                (map encode (page_form filename mimeType data prompt))))
          w
        = (Ok (mkResponse 400 json_headers (error_body "Prompt is required")), w)).
Proof.
  intros env boundary filename mimeType data prompt w Hb Hc Hi F1 F2 Hf Hm Hc'.
  pose proof (manipulate_handler_form env _ _ w
                (upload_event_uploaded env boundary
                   (form_body boundary
                      (map encode (page_form filename mimeType data prompt)))
                   Hb Hi)) as E.
  cbn [page_form map encode] in *.
  rewrite (parse_two_parts env boundary _ _ Hb Hc F1 F2) in E. cbv zeta in E.
  split.
  - intros -> Hp. rewrite E.
    rewrite parse_part_file_empty, parse_part_text by assumption.
    cbn [plain] in Hp. repeat (apply andb_prop in Hp as [Hp ?]).
    change (assign "prompt" (VStr prompt) []) with [("prompt", VStr prompt)].
    unfold own at 1. cbn [lookup String.eqb Ascii.eqb Bool.eqb].
    match goal with H : negb (prompt =? "") = true |- _ => cbn [truthy]; rewrite H end.
    reflexivity.
  - intros ->. rewrite E.
    rewrite parse_part_text_empty by (try discriminate; reflexivity).
    rewrite parse_part_file_no_prompt. reflexivity.
Qed.

Lemma empty_parts_dropped_witness :
  ManipulateImage.handler (sample_env (Some "key") (Streaming red_circle_stream))
    (upload_event "XX"
       (form_body "XX" (map encode (page_form "cat.png" "image/png" "" "make it blue"))))
    initial
  = (Ok (mkResponse 400 json_headers (error_body "Image file is required")), initial).
Proof.
  refine (proj1 (empty_parts_dropped
                   (sample_env (Some "key") (Streaming red_circle_stream))
                   "XX" "cat.png" "image/png" "" "make it blue" initial
                   _ _ _ _ _ _ _ _) _ _);
    try reflexivity; discriminate.
Defined.

(** ** Chunks with more than one part *)

Section Narrowed.
Context (env : Env).




End Narrowed.



(** ** The results of the two deployments *)

Section SameResults.
Context (env : Env).


End SameResults.


